(** * Billboard backend: the Smart Pricing Engine, its HTTP route and the
      referral reward processor, embedded in Rocq.

    Sources embedded here:
    - the rate tables of the shared schema module ([BASE_RATES] ...
      [SLOT_TIER_MAPPING]);
    - [SmartPricingEngine] of the pricing-engine service;
    - the routes /calculate, /estimate, /bulk and /constants of
      [backend/routes/pricing.ts];
    - [applyReferralCode], [getReferralStats], [processRewards] and
      [generateUniqueCode] of [backend/services/referral-engine.ts];
    - the routes /apply-code and /validate/:code of [routes/referrals.ts].

    JavaScript numbers are IEEE 754 binary64 values.  The engine is written
    once over an interface of the number operations it uses and read at two
    instances: [binary64], the arithmetic the program runs in (Rocq's
    primitive floats), and [exact], the same operations on rationals
    without rounding error. *)

From Stdlib Require Import ZArith QArith Qround Floats Lia Lqa.
From stdpp Require Import gmap strings list.

Open Scope Z_scope.

(** ** JavaScript numbers *)

(** The operations of a JavaScript number that the modelled code uses. *)
Class JSNumber (num : Type) : Type := {
  (** a decimal literal of the source text, read as the language reads it *)
  lit : Q -> num;
  (** the value [NaN], which [undefined] becomes under arithmetic *)
  NaN : num;
  (** [x + y], [x * y], [x / y] *)
  add : num -> num -> num;
  mul : num -> num -> num;
  div : num -> num -> num;
  (** [Math.round(x)]: the nearest integer, ties towards +Infinity *)
  Math_round : num -> num;
  (** [x >= y] and [x === y]; both are false when an operand is NaN *)
  geb : num -> num -> bool;
  eqb : num -> num -> bool;
  (** ToBoolean: false exactly on 0, -0 and NaN *)
  truthy : num -> bool
}.

(** [x <= y] is [y >= x]. *)
Definition leb {num} `{JSNumber num} (x y : num) : bool := geb y x.

(** ToNumber of a possibly [undefined] number. *)
Definition toNumber {num} `{JSNumber num} (v : option num) : num :=
  match v with Some n => n | None => NaN end.

(** *** binary64 *)

Module Binary64.

(** An integer below 2^53 in magnitude as the float of the same value. *)
Definition of_Z (z : Z) : float :=
  match z with
  | Z0 => PrimFloat.zero
  | Zpos _ => PrimFloat.of_uint63 (Uint63.of_Z z)
  | Zneg p => PrimFloat.opp (PrimFloat.of_uint63 (Uint63.of_Z (Zpos p)))
  end.

(** A decimal literal [n/d] is read as the double nearest to it; the
    correctly rounded quotient of the two integers is that double. *)
Definition of_decimal (q : Q) : float :=
  PrimFloat.div (of_Z (Qnum q)) (of_Z (Zpos (Qden q))).

(** [Math.round]: a finite [x = (-1)^s * m * 2^e] with [e < 0] goes to
    [floor (x + 1/2)], computed on integers; every other value (an
    integer, an infinity, NaN, a zero) is returned as it is.  A result of
    zero keeps the sign of [x]. *)
Definition round (x : float) : float :=
  match Prim2SF x with
  | S754_finite s m e =>
      if 0 <=? e then x
      else
        let twice := if s then - (2 * Zpos m) else 2 * Zpos m in
        let n := (twice + 2 ^ (- e)) / 2 ^ (1 - e) in
        if n =? 0 then (if s then PrimFloat.neg_zero else PrimFloat.zero)
        else of_Z n
  | _ => x
  end.

Definition is_truthy (x : float) : bool :=
  negb (PrimFloat.is_nan x || PrimFloat.is_zero x).

End Binary64.

#[export] Instance binary64 : JSNumber float := {
  lit := Binary64.of_decimal;
  NaN := PrimFloat.nan;
  add := PrimFloat.add;
  mul := PrimFloat.mul;
  div := PrimFloat.div;
  Math_round := Binary64.round;
  geb := fun x y => PrimFloat.leb y x;
  eqb := PrimFloat.eqb;
  truthy := Binary64.is_truthy
}.

(** *** exact arithmetic *)

(** A rational, an infinity or NaN: binary64 without rounding error,
    overflow and the sign of zero. *)
Inductive xnum : Type :=
| XFin (q : Q)
| XPosInf
| XNegInf
| XNaN.

Module Exact.

Definition sign (q : Q) : comparison := (q ?= 0)%Q.

Definition add (x y : xnum) : xnum :=
  match x, y with
  | XNaN, _ | _, XNaN => XNaN
  | XFin a, XFin b => XFin (a + b)
  | XPosInf, XNegInf | XNegInf, XPosInf => XNaN
  | XPosInf, _ | _, XPosInf => XPosInf
  | XNegInf, _ | _, XNegInf => XNegInf
  end.

Definition inf_of (c : comparison) : xnum :=
  match c with Gt => XPosInf | Lt => XNegInf | Eq => XNaN end.

Definition flip (c : comparison) : comparison :=
  match c with Gt => Lt | Lt => Gt | Eq => Eq end.

Definition mul (x y : xnum) : xnum :=
  match x, y with
  | XNaN, _ | _, XNaN => XNaN
  | XFin a, XFin b => XFin (a * b)
  | XFin a, XPosInf | XPosInf, XFin a => inf_of (sign a)
  | XFin a, XNegInf | XNegInf, XFin a => inf_of (flip (sign a))
  | XPosInf, XPosInf | XNegInf, XNegInf => XPosInf
  | XPosInf, XNegInf | XNegInf, XPosInf => XNegInf
  end.

Definition div (x y : xnum) : xnum :=
  match x, y with
  | XNaN, _ | _, XNaN => XNaN
  | XFin a, XFin b =>
      match sign b with
      | Eq => inf_of (sign a)
      | _ => XFin (a / b)
      end
  | XFin _, _ => XFin 0
  | XPosInf, XFin b => match sign b with Lt => XNegInf | _ => XPosInf end
  | XNegInf, XFin b => match sign b with Lt => XPosInf | _ => XNegInf end
  | _, _ => XNaN
  end.

Definition round (x : xnum) : xnum :=
  match x with
  | XFin a => XFin (inject_Z (Qfloor (a + (1 # 2))))
  | _ => x
  end.

Definition geb (x y : xnum) : bool :=
  match x, y with
  | XNaN, _ | _, XNaN => false
  | XFin a, XFin b => Qle_bool b a
  | XPosInf, _ => true
  | _, XNegInf => true
  | _, _ => false
  end.

Definition eqb (x y : xnum) : bool :=
  match x, y with
  | XFin a, XFin b => Qeq_bool a b
  | XPosInf, XPosInf | XNegInf, XNegInf => true
  | _, _ => false
  end.

Definition is_truthy (x : xnum) : bool :=
  match x with
  | XFin a => negb (Qeq_bool a 0)
  | XNaN => false
  | _ => true
  end.

End Exact.

#[export] Instance exact : JSNumber xnum := {
  lit := XFin;
  NaN := XNaN;
  add := Exact.add;
  mul := Exact.mul;
  div := Exact.div;
  Math_round := Exact.round;
  geb := Exact.geb;
  eqb := Exact.eqb;
  truthy := Exact.is_truthy
}.

(** ** Dates *)

(** A JavaScript [Date] as the engine observes it: [getHours()] and
    [getDay()] in the server's local time, or an invalid date, on which
    both return NaN. *)
Inductive Date : Type :=
| LocalTime (hours day : Z)
| InvalidDate.

Definition getHours (d : Date) : option Z :=
  match d with LocalTime h _ => Some h | InvalidDate => None end.

Definition getDay (d : Date) : option Z :=
  match d with LocalTime _ w => Some w | InvalidDate => None end.

(** Comparisons of an integer-or-NaN with an integer literal; each is false
    on NaN. *)
Definition ge_int (x : option Z) (k : Z) : bool :=
  match x with Some v => k <=? v | None => false end.
Definition lt_int (x : option Z) (k : Z) : bool :=
  match x with Some v => v <? k | None => false end.
Definition eq_int (x : option Z) (k : Z) : bool :=
  match x with Some v => v =? k | None => false end.

(** ** Rate tables (shared schema module) *)

Inductive SlotTier : Type := TOP | MID | BOTTOM.
Inductive TimeSlot : Type :=
  PRIME_TIME | BUSINESS_HOURS | EVENING | MORNING | LATE_NIGHT | WEEKEND.
(** [AdFormat] is [keyof typeof FORMAT_MULTIPLIERS], the bonus key included. *)
Inductive AdFormat : Type := VIDEO | IMAGE | TEXT | AI_GENERATED_BONUS.
Inductive DemandLevel : Type := VERY_HIGH | HIGH | MEDIUM | LOW | VERY_LOW.

Module AD_SLOT_TYPES.
Definition TOP_CENTER : string := "top_center".
Definition TOP_LEFT : string := "top_left".
Definition TOP_RIGHT : string := "top_right".
Definition MID_CENTER : string := "mid_center".
Definition MID_LEFT : string := "mid_left".
Definition MID_RIGHT : string := "mid_right".
Definition BOTTOM_CENTER : string := "bottom_center".
Definition BOTTOM_LEFT : string := "bottom_left".
Definition BOTTOM_RIGHT : string := "bottom_right".
Definition MOBILE_BANNER : string := "mobile_banner".
Definition MOBILE_INTERSTITIAL : string := "mobile_interstitial".
End AD_SLOT_TYPES.

(** The entries of [SLOT_TIER_MAPPING], in source order. *)
Definition SLOT_TIER_ENTRIES : list (string * SlotTier) :=
  [ (AD_SLOT_TYPES.TOP_CENTER, TOP);
    (AD_SLOT_TYPES.TOP_LEFT, TOP);
    (AD_SLOT_TYPES.TOP_RIGHT, TOP);
    (AD_SLOT_TYPES.MID_CENTER, MID);
    (AD_SLOT_TYPES.MID_LEFT, MID);
    (AD_SLOT_TYPES.MID_RIGHT, MID);
    (AD_SLOT_TYPES.BOTTOM_CENTER, BOTTOM);
    (AD_SLOT_TYPES.BOTTOM_LEFT, BOTTOM);
    (AD_SLOT_TYPES.BOTTOM_RIGHT, BOTTOM);
    (AD_SLOT_TYPES.MOBILE_BANNER, BOTTOM);
    (AD_SLOT_TYPES.MOBILE_INTERSTITIAL, MID) ].

(** The object is used as a map from slot type to tier; a key that is not
    one of its own reads as [undefined] ([None]).  The name of a member
    inherited from [Object.prototype] reads that member, which is no tier:
    [getBaseRate] takes its [default] arm on it and [SLOT_MULTIPLIERS] has
    no property under it, exactly as for [undefined], so it is [None] here
    too. *)
Definition SLOT_TIER_MAPPING : gmap string SlotTier :=
  list_to_map SLOT_TIER_ENTRIES.

(** *** Reading a table by a computed key

    The rate tables are object literals, so they inherit from
    [Object.prototype]: [table[key]], for a key that is not one of the
    table's own and names a member of the prototype, reads that member.
    These are the string-named members of [Object.prototype] (ECMAScript,
    the properties of the Object prototype object and those of Annex B). *)
Definition Object_prototype : list string :=
  [ "constructor"; "hasOwnProperty"; "isPrototypeOf";
    "propertyIsEnumerable"; "toLocaleString"; "toString"; "valueOf";
    "__proto__"; "__defineGetter__"; "__defineSetter__";
    "__lookupGetter__"; "__lookupSetter__" ].

(** What such a read gives when it is not [undefined]: a number the table
    lists, or the inherited member of that name, which is a function or,
    for [__proto__], the prototype object itself. *)
Inductive Member (num : Type) : Type :=
| Listed (n : num)
| Inherited (name : string).
Arguments Listed {num} n.
Arguments Inherited {num} name.

(** ToNumber, which [*] applies to its operands: a function or a plain
    object has no numeric reading and becomes NaN. *)
Definition Number_of {num} `{JSNumber num} (v : Member num) : num :=
  match v with Listed n => n | Inherited _ => NaN end.

Section Tables.
Context {num : Type} `{JSNumber num}.

Definition BASE_RATES_TOP_TIER : num := lit 15.
Definition BASE_RATES_MID_TIER : num := lit 10.
Definition BASE_RATES_BOTTOM_TIER : num := lit 5.

Definition SLOT_MULTIPLIERS (t : SlotTier) : num :=
  match t with
  | TOP => lit 2.0
  | MID => lit 1.3
  | BOTTOM => lit 1.0
  end.

(** The countries listed in [GEO_MULTIPLIERS], in source order. *)
Definition GEO_COUNTRIES : list (string * num) :=
  [ ("US", lit 1.5); ("UK", lit 1.5); ("DE", lit 1.5);
    ("CA", lit 1.4); ("AU", lit 1.4);
    ("IN", lit 1.2); ("BR", lit 1.2); ("MX", lit 1.1);
    ("FR", lit 1.3); ("IT", lit 1.3); ("ES", lit 1.2);
    ("NG", lit 0.8); ("KE", lit 0.7); ("GH", lit 0.7);
    ("ZA", lit 0.9); ("EG", lit 0.8) ].

Definition GEO_MULTIPLIERS_DEFAULT : num := lit 1.0.

(** The own properties of the object: the listed countries and the
    [DEFAULT] key. *)
Definition GEO_MULTIPLIERS : gmap string num :=
  list_to_map (GEO_COUNTRIES ++ [("DEFAULT", GEO_MULTIPLIERS_DEFAULT)]).

(** [GEO_MULTIPLIERS[key]] for any string: an own property first, then a
    member inherited from [Object.prototype], else [undefined]. *)
Definition GEO_MULTIPLIERS_at (key : string) : option (Member num) :=
  match GEO_MULTIPLIERS !! key with
  | Some n => Some (Listed n)
  | None =>
      if bool_decide (key ∈ Object_prototype) then Some (Inherited key)
      else None
  end.

Definition TIME_MULTIPLIERS (s : TimeSlot) : num :=
  match s with
  | PRIME_TIME => lit 1.4
  | BUSINESS_HOURS => lit 1.2
  | EVENING => lit 1.1
  | MORNING => lit 1.0
  | LATE_NIGHT => lit 0.6
  | WEEKEND => lit 1.1
  end.

Definition FORMAT_MULTIPLIERS (f : AdFormat) : num :=
  match f with
  | VIDEO => lit 1.5
  | IMAGE => lit 1.0
  | TEXT => lit 0.8
  | AI_GENERATED_BONUS => lit 10
  end.

(** [DURATION_DISCOUNTS[k]]; a missing key reads as [undefined].  The
    engine reads the five keys that are present. *)
Definition DURATION_DISCOUNTS (k : Z) : option num :=
  match k with
  | 1 => Some (lit 1.0)
  | 3 => Some (lit 0.95)
  | 7 => Some (lit 0.90)
  | 14 => Some (lit 0.85)
  | 30 => Some (lit 0.80)
  | _ => None
  end.

Definition DEMAND_MULTIPLIERS (l : DemandLevel) : num :=
  match l with
  | VERY_HIGH => lit 1.8
  | HIGH => lit 1.4
  | MEDIUM => lit 1.0
  | LOW => lit 0.8
  | VERY_LOW => lit 0.6
  end.

End Tables.

(** ** The pricing engine (pricing-engine service) *)

Record PricingRequest (num : Type) : Type := {
  slotType : string;
  duration : num;
  countryCode : string;
  startDate : Date;
  adFormat : AdFormat;
  isAiGenerated : option bool
}.
Arguments slotType {num} _.
Arguments duration {num} _.
Arguments countryCode {num} _.
Arguments startDate {num} _.
Arguments adFormat {num} _.
Arguments isAiGenerated {num} _.

Module Breakdown.
Record PricingBreakdown (num : Type) : Type := {
  baseRate : num;
  slotMultiplier : option num;
  geoMultiplier : Member num;
  timeMultiplier : num;
  formatMultiplier : num;
  durationDiscount : num;
  demandMultiplier : num;
  aiGeneratedBonus : num;
  subtotal : num;
  total : num;
  dailyRate : num
}.
Arguments baseRate {num} _.
Arguments slotMultiplier {num} _.
Arguments geoMultiplier {num} _.
Arguments timeMultiplier {num} _.
Arguments formatMultiplier {num} _.
Arguments durationDiscount {num} _.
Arguments demandMultiplier {num} _.
Arguments aiGeneratedBonus {num} _.
Arguments subtotal {num} _.
Arguments total {num} _.
Arguments dailyRate {num} _.
End Breakdown.
Export Breakdown (PricingBreakdown).

Record PricingResult (num : Type) : Type := {
  total : num;
  dailyRate : num;
  breakdown : PricingBreakdown num;
  currency : string
}.
Arguments total {num} _.
Arguments dailyRate {num} _.
Arguments breakdown {num} _.
Arguments currency {num} _.

(** ToBoolean of the optional flag: [undefined] and [false] are falsy. *)
Definition flag_set (b : option bool) : bool :=
  match b with Some true => true | _ => false end.

Section SmartPricingEngine.
Context {num : Type} `{JSNumber num}.

(** [getBaseRate]: the [switch] on the tier, whose [default] arm also
    takes an [undefined] tier. *)
Definition getBaseRate (slotTier : option SlotTier) : num :=
  match slotTier with
  | Some TOP => BASE_RATES_TOP_TIER
  | Some MID => BASE_RATES_MID_TIER
  | Some BOTTOM => BASE_RATES_BOTTOM_TIER
  | None => BASE_RATES_BOTTOM_TIER
  end.

(** [GEO_MULTIPLIERS[countryCode] || GEO_MULTIPLIERS.DEFAULT]: the
    default replaces [undefined] and a falsy number; an inherited member
    is an object, hence truthy, and is returned as it is. *)
Definition getGeoMultiplier (countryCode : string) : Member num :=
  match GEO_MULTIPLIERS_at countryCode with
  | Some (Listed m) =>
      if truthy m then Listed m else Listed GEO_MULTIPLIERS_DEFAULT
  | Some (Inherited name) => Inherited name
  | None => Listed GEO_MULTIPLIERS_DEFAULT
  end.

Definition getTimeMultiplier (startDate : Date) : num :=
  let hour := getHours startDate in
  let dayOfWeek := getDay startDate in
  if eq_int dayOfWeek 0 || eq_int dayOfWeek 6 then
    TIME_MULTIPLIERS WEEKEND
  else if ge_int hour 18 && lt_int hour 22 then
    TIME_MULTIPLIERS PRIME_TIME
  else if ge_int hour 9 && lt_int hour 17 then
    TIME_MULTIPLIERS BUSINESS_HOURS
  else if ge_int hour 17 && lt_int hour 21 then
    TIME_MULTIPLIERS EVENING
  else if ge_int hour 6 && lt_int hour 9 then
    TIME_MULTIPLIERS MORNING
  else
    TIME_MULTIPLIERS LATE_NIGHT.

Definition getDurationDiscount (duration : num) : num :=
  if geb duration (lit 30) then toNumber (DURATION_DISCOUNTS 30)
  else if geb duration (lit 14) then toNumber (DURATION_DISCOUNTS 14)
  else if geb duration (lit 7) then toNumber (DURATION_DISCOUNTS 7)
  else if geb duration (lit 3) then toNumber (DURATION_DISCOUNTS 3)
  else toNumber (DURATION_DISCOUNTS 1).

Definition getDemandMultiplier (slotType : string) (startDate : Date) : num :=
  let hour := getHours startDate in
  let dayOfWeek := getDay startDate in
  (* the statements after the first [if], reached when it does not return *)
  let after_premium :=
    if eq_int dayOfWeek 0 || eq_int dayOfWeek 6 then
      DEMAND_MULTIPLIERS MEDIUM
    else
      DEMAND_MULTIPLIERS MEDIUM in
  if String.eqb slotType AD_SLOT_TYPES.TOP_CENTER then
    if ge_int hour 18 && lt_int hour 22 then
      DEMAND_MULTIPLIERS VERY_HIGH
    else if ge_int hour 9 && lt_int hour 17 then
      DEMAND_MULTIPLIERS HIGH
    else after_premium
  else after_premium.

Definition calculatePrice (request : PricingRequest num) : PricingResult num :=
  let slotTier := SLOT_TIER_MAPPING !! slotType request in
  let baseRate := getBaseRate slotTier in
  let slotMultiplier := SLOT_MULTIPLIERS <$> slotTier in
  let geoMultiplier := getGeoMultiplier (countryCode request) in
  let timeMultiplier := getTimeMultiplier (startDate request) in
  let formatMultiplier := FORMAT_MULTIPLIERS (adFormat request) in
  let durationDiscount := getDurationDiscount (duration request) in
  let demandMultiplier :=
    getDemandMultiplier (slotType request) (startDate request) in
  let aiGeneratedBonus :=
    if flag_set (isAiGenerated request)
    then FORMAT_MULTIPLIERS AI_GENERATED_BONUS else lit 0 in
  let subtotal :=
    mul (mul (mul (mul (mul (mul (mul
      baseRate
      (toNumber slotMultiplier))
      (Number_of geoMultiplier))
      timeMultiplier)
      formatMultiplier)
      durationDiscount)
      demandMultiplier)
      (duration request) in
  let total := add subtotal aiGeneratedBonus in
  let dailyRate := div total (duration request) in
  let breakdown :=
    {| Breakdown.baseRate := baseRate;
       Breakdown.slotMultiplier := slotMultiplier;
       Breakdown.geoMultiplier := geoMultiplier;
       Breakdown.timeMultiplier := timeMultiplier;
       Breakdown.formatMultiplier := formatMultiplier;
       Breakdown.durationDiscount := durationDiscount;
       Breakdown.demandMultiplier := demandMultiplier;
       Breakdown.aiGeneratedBonus := aiGeneratedBonus;
       Breakdown.subtotal := subtotal;
       Breakdown.total := total;
       Breakdown.dailyRate := dailyRate |} in
  {| total := div (Math_round (mul total (lit 100))) (lit 100);
     dailyRate := div (Math_round (mul dailyRate (lit 100))) (lit 100);
     breakdown := breakdown;
     currency := "USD" |}.

(** [calculateBulkPricing] *)
Definition calculateBulkPricing (requests : list (PricingRequest num))
  : list (PricingResult num) :=
  map calculatePrice requests.

End SmartPricingEngine.

(** [testPricingEngine]'s request: '2024-01-15T19:00:00' is a Monday, 19h. *)
Definition testRequest {num} `{JSNumber num} : PricingRequest num :=
  {| slotType := AD_SLOT_TYPES.TOP_CENTER;
     duration := lit 3;
     countryCode := "US";
     startDate := LocalTime 19 1;
     adFormat := VIDEO;
     isAiGenerated := Some true |}.


(** The same request with another duration, another flag. *)
Definition with_duration {num} (r : PricingRequest num) (d : num)
  : PricingRequest num :=
  {| slotType := slotType r; duration := d; countryCode := countryCode r;
     startDate := startDate r; adFormat := adFormat r;
     isAiGenerated := isAiGenerated r |}.

Definition with_ai {num} (r : PricingRequest num) (b : bool)
  : PricingRequest num :=
  {| slotType := slotType r; duration := duration r;
     countryCode := countryCode r; startDate := startDate r;
     adFormat := adFormat r; isAiGenerated := Some b |}.

Definition with_country {num} (r : PricingRequest num) (c : string)
  : PricingRequest num :=
  {| slotType := slotType r; duration := duration r; countryCode := c;
     startDate := startDate r; adFormat := adFormat r;
     isAiGenerated := isAiGenerated r |}.

Definition with_slot {num} (r : PricingRequest num) (s : string)
  : PricingRequest num :=
  {| slotType := s; duration := duration r; countryCode := countryCode r;
     startDate := startDate r; adFormat := adFormat r;
     isAiGenerated := isAiGenerated r |}.

(** ** The pricing formula as the specification words it *)

Section SpecFormula.
Context {num : Type} `{JSNumber num}.




(** Rounding to two decimals: times 100, to the nearest integer, over 100. *)
Definition round2 (x : num) : num :=
  div (Math_round (mul x (lit 100))) (lit 100).

(** The result assembled from given factor values: the arithmetic and the
    record of [calculatePrice], its lookups taken as arguments. *)
Definition price_of_factors
    (baseRate : num) (slotMultiplier : option num)
    (geoMultiplier : Member num)
    (timeMultiplier formatMultiplier durationDiscount
     demandMultiplier aiGeneratedBonus duration : num) : PricingResult num :=
  let subtotal :=
    mul (mul (mul (mul (mul (mul (mul
      baseRate (toNumber slotMultiplier)) (Number_of geoMultiplier))
      timeMultiplier)
      formatMultiplier) durationDiscount) demandMultiplier) duration in
  let total := add subtotal aiGeneratedBonus in
  let dailyRate := div total duration in
  {| total := round2 total;
     dailyRate := round2 dailyRate;
     breakdown :=
       {| Breakdown.baseRate := baseRate;
          Breakdown.slotMultiplier := slotMultiplier;
          Breakdown.geoMultiplier := geoMultiplier;
          Breakdown.timeMultiplier := timeMultiplier;
          Breakdown.formatMultiplier := formatMultiplier;
          Breakdown.durationDiscount := durationDiscount;
          Breakdown.demandMultiplier := demandMultiplier;
          Breakdown.aiGeneratedBonus := aiGeneratedBonus;
          Breakdown.subtotal := subtotal;
          Breakdown.total := total;
          Breakdown.dailyRate := dailyRate |};
     currency := "USD" |}.

(** The request priced with the geographic multiplier [g] in place of the
    table lookup. *)
Definition price_with_geo (g : Member num) (r : PricingRequest num)
  : PricingResult num :=
  price_of_factors
    (getBaseRate (SLOT_TIER_MAPPING !! slotType r))
    (SLOT_MULTIPLIERS <$> (SLOT_TIER_MAPPING !! slotType r))
    g
    (getTimeMultiplier (startDate r))
    (FORMAT_MULTIPLIERS (adFormat r))
    (getDurationDiscount (duration r))
    (getDemandMultiplier (slotType r) (startDate r))
    (if flag_set (isAiGenerated r)
     then FORMAT_MULTIPLIERS AI_GENERATED_BONUS else lit 0)
    (duration r).

End SpecFormula.

(** ** The process around the engine: clock and console *)

(** What a call can read or write besides its arguments. *)
Record World : Type := {
  now : Date;              (* what [new Date()] returns *)
  console : list string    (* lines written by [console.error] *)
}.

(** A computation that may read and change the world. *)
Definition IO (A : Type) : Type := World -> A * World.

#[export] Instance IO_ret : MRet IO := fun A a w => (a, w).
#[export] Instance IO_bind : MBind IO :=
  fun A B k m w => let (a, w') := m w in k a w'.

Definition new_Date : IO Date := fun w => (now w, w).
Definition console_error (line : string) : IO unit :=
  fun w => (tt, {| now := now w; console := console w ++ [line] |}).

Section EngineCalls.
Context {num : Type} `{JSNumber num}.

(** A call of the static method [calculatePrice]: it touches nothing. *)
Definition call_calculatePrice (request : PricingRequest num)
  : IO (PricingResult num) :=
  mret (calculatePrice request).

(** [getQuickEstimate] prices a request that starts now. *)
Definition getQuickEstimate (slotType : string) (duration : num)
    (countryCode : string) : IO num :=
  today ← new_Date;
  let request :=
    {| slotType := slotType; duration := duration;
       countryCode := countryCode; startDate := today;
       adFormat := IMAGE; isAiGenerated := Some false |} in
  result ← call_calculatePrice request;
  mret (total result).

End EngineCalls.

(** ** Date objects and the time zone of the process *)

(** A [Date] object holds a time value: the milliseconds since the epoch
    in UTC, or NaN for an invalid date. *)
Inductive DateObject : Type :=
| TimeValue (t : Z)
| InvalidTime.

(** The time zone of the process (the [TZ] variable of its environment,
    else the zone of the host): the offset of local time from UTC, in
    milliseconds, at a time value. *)
Definition TimeZone : Type := Z -> Z.

Definition msPerHour : Z := 3600000.
Definition msPerDay : Z := 86400000.

(** [HourFromTime] and [WeekDay] of the language; the epoch was a
    Thursday. *)
Definition HourFromTime (t : Z) : Z := (t / msPerHour) mod 24.
Definition WeekDay (t : Z) : Z := (t / msPerDay + 4) mod 7.

(** What [getHours()] and [getDay()] read of a date object: the hour and
    the weekday of its time value in the local time of the process. *)
Definition local_date (zone : TimeZone) (d : DateObject) : Date :=
  match d with
  | TimeValue t =>
      let local := t + zone t in
      LocalTime (HourFromTime local) (WeekDay local)
  | InvalidTime => InvalidDate
  end.

(** The state of the process a call runs in: its time zone, its clock and
    its console. *)
Record Process : Type := {
  timeZone : TimeZone;
  world : World
}.

(** The six inputs of a pricing request as the caller holds them, the
    start a date object. *)
Record PricingInputs (num : Type) : Type := {
  in_slotType : string;
  in_duration : num;
  in_countryCode : string;
  in_startDate : DateObject;
  in_adFormat : AdFormat;
  in_isAiGenerated : option bool
}.
Arguments in_slotType {num} _.
Arguments in_duration {num} _.
Arguments in_countryCode {num} _.
Arguments in_startDate {num} _.
Arguments in_adFormat {num} _.
Arguments in_isAiGenerated {num} _.

(** The request as the engine reads it in a time zone. *)
Definition request_in {num} (zone : TimeZone) (inputs : PricingInputs num)
  : PricingRequest num :=
  {| slotType := in_slotType inputs;
     duration := in_duration inputs;
     countryCode := in_countryCode inputs;
     startDate := local_date zone (in_startDate inputs);
     adFormat := in_adFormat inputs;
     isAiGenerated := in_isAiGenerated inputs |}.

(** [SmartPricingEngine.calculatePrice(request)] run in a process:
    [getHours()] and [getDay()] read the time zone of the process, and
    nothing is written. *)
Definition run_calculatePrice {num} `{JSNumber num}
    (inputs : PricingInputs num) (p : Process)
  : PricingResult num * Process :=
  (calculatePrice (request_in (timeZone p) inputs), p).

(** The inputs of [testPricingEngine], the start being
    2024-01-15T19:00:00Z, and two time zones. *)
Definition testInputs {num} `{JSNumber num} : PricingInputs num :=
  {| in_slotType := AD_SLOT_TYPES.TOP_CENTER;
     in_duration := lit 3;
     in_countryCode := "US";
     in_startDate := TimeValue 1705345200000;
     in_adFormat := VIDEO;
     in_isAiGenerated := Some true |}.
Definition UTC : TimeZone := fun _ => 0.
Definition Asia_Tokyo : TimeZone := fun _ => 9 * msPerHour.

(** ** Strings *)

(** A string of the program is held as the bytes of its UTF-8 encoding,
    which is how a string literal of this file is read (a lone surrogate
    as the three bytes of its generalised encoding).  [s.length] counts
    UTF-16 code units: one for a character below U+10000 and two for a
    character from U+10000 on, that is, one for every byte that starts a
    character, one more when it starts a character of four bytes, and none
    for a continuation byte. *)
Definition code_units (byte : Ascii.ascii) : nat :=
  let n := Ascii.nat_of_ascii byte in
  if (n <? 128)%nat then 1%nat          (* one byte: U+0000 to U+007F *)
  else if (n <? 192)%nat then 0%nat     (* a continuation byte *)
  else if (n <? 240)%nat then 1%nat     (* starts two or three bytes *)
  else 2%nat.                           (* starts four bytes *)

Fixpoint String_length (s : string) : nat :=
  match s with
  | EmptyString => 0%nat
  | String byte rest => (code_units byte + String_length rest)%nat
  end.

(** ** The pricing route (backend/routes/pricing.ts) *)

#[local] Set Warnings "-register-all".

(** A request body as the JSON body parser leaves it. *)
Inductive json (num : Type) : Type :=
| JUndefined
| JNull
| JBool (b : bool)
| JNumber (n : num)
| JString (s : string)
| JArray (items : list (json num))
| JObject (fields : list (string * json num)).
Arguments JUndefined {num}.
Arguments JNull {num}.
Arguments JBool {num} b.
Arguments JNumber {num} n.
Arguments JString {num} s.
Arguments JArray {num} items.
Arguments JObject {num} fields.

(** [obj[key]]: the value of the property, [undefined] when absent. *)
Fixpoint property {num} (fields : list (string * json num)) (key : string)
  : json num :=
  match fields with
  | [] => JUndefined
  | (k, v) :: rest => if String.eqb k key then v else property rest key
  end.

(** A thrown value: an [Error] with its message, or anything else. *)
Inductive Thrown : Type :=
| ErrorObject (message : string)
| NonError.

(** The body of a response: [{success: true, ...result}] or
    [{success: false, error}]. *)
Inductive ResponseBody (num : Type) : Type :=
| SuccessBody (result : PricingResult num)
| FailureBody (error : string).
Arguments SuccessBody {num} result.
Arguments FailureBody {num} error.

Definition success {num} (b : ResponseBody num) : bool :=
  match b with SuccessBody _ => true | FailureBody _ => false end.

Record Response (num : Type) : Type := {
  status : Z;
  body : ResponseBody num
}.
Arguments status {num} _.
Arguments body {num} _.

(** The output of [pricingRequestSchema.parse]. *)
Record ValidatedData (num : Type) : Type := {
  v_slotType : string;
  v_duration : num;
  v_countryCode : string;
  v_startDate : Date;
  v_adFormat : AdFormat;
  v_isAiGenerated : bool
}.
Arguments v_slotType {num} _.
Arguments v_duration {num} _.
Arguments v_countryCode {num} _.
Arguments v_startDate {num} _.
Arguments v_adFormat {num} _.
Arguments v_isAiGenerated {num} _.

Section PricingRoute.
Context {num : Type} `{JSNumber num}.

(** The validation library and the date parser are not part of the
    repository: [new Date(str)] and the message of a [ZodError] listing the
    given invalid paths are taken as given. *)
Variable Date_parse : string -> Date.
Variable ZodError_message : list string -> string.

(** [z.string()] *)
Definition z_string (v : json num) : option string :=
  match v with JString s => Some s | _ => None end.

(** [z.number().min(1).max(30)]; NaN is not a number to the validator. *)
Definition z_duration (v : json num) : option num :=
  match v with
  | JNumber n =>
      if eqb n n && geb n (lit 1) && leb n (lit 30) then Some n else None
  | _ => None
  end.

(** [z.string().length(2)]: the validator compares [s.length], the
    number of UTF-16 code units. *)
Definition z_countryCode (v : json num) : option string :=
  match v with
  | JString s => if (String_length s =? 2)%nat then Some s else None
  | _ => None
  end.

(** [z.string().transform((str) => new Date(str))] *)
Definition z_startDate (v : json num) : option Date :=
  match v with JString s => Some (Date_parse s) | _ => None end.

(** [z.enum(['IMAGE', 'VIDEO', 'TEXT'])] *)
Definition z_adFormat (v : json num) : option AdFormat :=
  match v with
  | JString s =>
      if String.eqb s "IMAGE" then Some IMAGE
      else if String.eqb s "VIDEO" then Some VIDEO
      else if String.eqb s "TEXT" then Some TEXT
      else None
  | _ => None
  end.

(** [z.boolean().optional().default(false)] *)
Definition z_isAiGenerated (v : json num) : option bool :=
  match v with
  | JUndefined => Some false
  | JBool b => Some b
  | _ => None
  end.

Definition issue_at {A} (path : string) (checked : option A) : list string :=
  match checked with Some _ => [] | None => [path] end.

(** [pricingRequestSchema.parse(body)]: the validated data, or a thrown
    [ZodError] that lists every invalid path. *)
Definition pricingRequestSchema_parse (body : json num)
  : Thrown + ValidatedData num :=
  match body with
  | JObject fields =>
      let slotType := z_string (property fields "slotType") in
      let duration := z_duration (property fields "duration") in
      let countryCode := z_countryCode (property fields "countryCode") in
      let startDate := z_startDate (property fields "startDate") in
      let adFormat := z_adFormat (property fields "adFormat") in
      let isAiGenerated :=
        z_isAiGenerated (property fields "isAiGenerated") in
      match slotType, duration, countryCode, startDate, adFormat,
            isAiGenerated with
      | Some s, Some d, Some c, Some t, Some f, Some a =>
          inr {| v_slotType := s; v_duration := d; v_countryCode := c;
                 v_startDate := t; v_adFormat := f; v_isAiGenerated := a |}
      | _, _, _, _, _, _ =>
          inl (ErrorObject (ZodError_message
                 (issue_at "slotType" slotType
                  ++ issue_at "duration" duration
                  ++ issue_at "countryCode" countryCode
                  ++ issue_at "startDate" startDate
                  ++ issue_at "adFormat" adFormat
                  ++ issue_at "isAiGenerated" isAiGenerated)))
      end
  | _ => inl (ErrorObject (ZodError_message [""]))
  end.

(** The [PricingRequest] object built from the validated data. *)
Definition pricingRequest_of (validatedData : ValidatedData num)
  : PricingRequest num :=
  {| slotType := v_slotType validatedData;
     duration := v_duration validatedData;
     countryCode := v_countryCode validatedData;
     startDate := v_startDate validatedData;
     adFormat := v_adFormat validatedData;
     isAiGenerated := Some (v_isAiGenerated validatedData) |}.

(** [res.json(body)] answers with status 200 unless [res.status] set one. *)
Definition res_json (status : Z) (body : ResponseBody num)
  : IO (Response num) :=
  mret {| status := status; body := body |}.

(** [router.post("/calculate", ...)]: the [try] block, and the [catch]
    block run on what the [try] block throws. *)
Definition post_calculate (req_body : json num) : IO (Response num) :=
  match pricingRequestSchema_parse req_body with
  | inr validatedData =>
      let pricingRequest := pricingRequest_of validatedData in
      result ← call_calculatePrice pricingRequest;
      res_json 200 (SuccessBody result)
  | inl error =>
      _ ← console_error "Pricing calculation error:";
      res_json 400
        (FailureBody
           match error with
           | ErrorObject message => message
           | NonError => "Invalid request data"
           end)
  end.

End PricingRoute.

(** ** Referral rewards (backend/services/referral-engine.ts) *)

Inductive RewardType : Type := credit | discount | free_slot.
Inductive RewardStatus : Type := pending | approved | paid | expired.

Record ReferralReward (num : Type) : Type := {
  id : string;
  referrerId : string;
  refereeId : string;
  referralCodeId : string;
  rewardType : RewardType;
  rewardValue : num;
  reward_status : RewardStatus;
  createdAt : Date;
  paidAt : option Date
}.
Arguments id {num} _.
Arguments referrerId {num} _.
Arguments refereeId {num} _.
Arguments referralCodeId {num} _.
Arguments rewardType {num} _.
Arguments rewardValue {num} _.
Arguments reward_status {num} _.
Arguments createdAt {num} _.
Arguments paidAt {num} _.

(** How an awaited call ends: with a value, or by throwing an [Error]. *)
Inductive Completion (A : Type) : Type :=
| Normal (value : A)
| Throw (message : string).
Arguments Normal {A} value.
Arguments Throw {A} message.

(** What [processRewards] returns. *)
Record ProcessResult : Type := {
  processed : nat;
  failed : nat;
  errors : list string
}.

Definition RewardStatus_eqb (a b : RewardStatus) : bool :=
  match a, b with
  | pending, pending | approved, approved | paid, paid
  | expired, expired => true
  | _, _ => false
  end.

Section ReferralEngine.
Context {num : Type}.

(** The persistence layer behind the engine, over a store of type
    [Store]; each call may change the store and may throw. *)
Variable Store : Type.
Variable findReward :
  string -> Store -> Completion (option (ReferralReward num)) * Store.
Variable updateReward :
  ReferralReward num -> Store -> Completion unit * Store.
Variable addUserCredit : string -> num -> Store -> Completion unit * Store.
Variable createDiscountCoupon :
  string -> num -> Store -> Completion unit * Store.
Variable grantFreeAdSlot : string -> Store -> Completion unit * Store.
(** [new Date()] at the moment a reward is paid. *)
Variable today : Store -> Date.

(** The counters and the error list, with the store, between iterations. *)
Definition LoopState : Type := ProcessResult * Store.

Definition count_failed (message : string) (acc : ProcessResult)
  : ProcessResult :=
  {| processed := processed acc;
     failed := S (failed acc);
     errors := errors acc ++ [message] |}.

Definition count_processed (acc : ProcessResult) : ProcessResult :=
  {| processed := S (processed acc);
     failed := failed acc;
     errors := errors acc |}.

(** The [catch] block of the loop body. *)
Definition catch_block (rewardId message : string) (acc : ProcessResult)
  : ProcessResult :=
  count_failed
    ("Failed to process reward " ++ rewardId ++ ": " ++ message) acc.

(** The [switch] on the reward type. *)
Definition pay_out (reward : ReferralReward num) (s : Store)
  : Completion unit * Store :=
  match rewardType reward with
  | credit => addUserCredit (referrerId reward) (rewardValue reward) s
  | discount => createDiscountCoupon (referrerId reward) (rewardValue reward) s
  | free_slot => grantFreeAdSlot (referrerId reward) s
  end.

(** One iteration of [for (const rewardId of rewardIds)]. *)
Definition process_one (rewardId : string) (st : LoopState) : LoopState :=
  let (acc, s) := st in
  match findReward rewardId s with
  | (Throw message, s1) => (catch_block rewardId message acc, s1)
  | (Normal None, s1) =>
      (count_failed ("Reward " ++ rewardId ++ " not found") acc, s1)
  | (Normal (Some reward), s1) =>
      if negb (RewardStatus_eqb (reward_status reward) pending) then
        (count_failed
           ("Reward " ++ rewardId ++ " is not in pending status") acc, s1)
      else
        match pay_out reward s1 with
        | (Throw message, s2) => (catch_block rewardId message acc, s2)
        | (Normal _, s2) =>
            let reward' :=
              {| id := id reward;
                 referrerId := referrerId reward;
                 refereeId := refereeId reward;
                 referralCodeId := referralCodeId reward;
                 rewardType := rewardType reward;
                 rewardValue := rewardValue reward;
                 reward_status := paid;
                 createdAt := createdAt reward;
                 paidAt := Some (today s2) |} in
            match updateReward reward' s2 with
            | (Throw message, s3) => (catch_block rewardId message acc, s3)
            | (Normal _, s3) => (count_processed acc, s3)
            end
        end
  end.

Fixpoint process_loop (rewardIds : list string) (st : LoopState)
  : LoopState :=
  match rewardIds with
  | [] => st
  | rewardId :: rest => process_loop rest (process_one rewardId st)
  end.

Definition processRewards (rewardIds : list string) (s : Store)
  : ProcessResult * Store :=
  process_loop rewardIds
    ({| processed := 0; failed := 0; errors := [] |}, s).

End ReferralEngine.

(** The mock persistence of the repository: nothing is stored, no reward
    is ever found, and no call throws. *)
Module Mock.
Definition findReward {num} (rewardId : string) (s : unit)
  : Completion (option (ReferralReward num)) * unit := (Normal None, s).
Definition updateReward {num} (reward : ReferralReward num) (s : unit)
  : Completion unit * unit := (Normal tt, s).
Definition addUserCredit {num} (userId : string) (amount : num) (s : unit)
  : Completion unit * unit := (Normal tt, s).
Definition createDiscountCoupon {num} (userId : string) (percentage : num)
    (s : unit) : Completion unit * unit := (Normal tt, s).
Definition grantFreeAdSlot (userId : string) (s : unit)
  : Completion unit * unit := (Normal tt, s).
Definition processRewards {num} (today : Date) (rewardIds : list string)
  : ProcessResult :=
  fst (processRewards (num := num) unit findReward updateReward
         addUserCredit createDiscountCoupon grantFreeAdSlot
         (fun _ => today) rewardIds tt).
End Mock.

(** ** Sample requests *)

(** A top-left slot in Kenya on a Monday at [hour], as a video. *)
Definition sampleRequest {num} `{JSNumber num} (hour : Z) (days : Q)
    (ai : bool) : PricingRequest num :=
  {| slotType := AD_SLOT_TYPES.TOP_LEFT;
     duration := lit days;
     countryCode := "KE";
     startDate := LocalTime hour 1;
     adFormat := VIDEO;
     isAiGenerated := Some ai |}.

(** A string literal is not in a list of other string literals. *)
Ltac not_in_list :=
  let Hin := fresh "Hin" in
  intros Hin; cbn in Hin;
  repeat (apply elem_of_cons in Hin as [Hin | Hin]; [discriminate Hin |]);
  now apply elem_of_nil in Hin.

(** Case analysis on every condition of the goal. *)
Ltac split_conditions :=
  repeat match goal with
  | |- context [if ?c then _ else _] => destruct c
  end.

(** Two binary64 values are different when [===] tells them apart. *)
Ltac float_differ E :=
  match type of E with
  | ?x = ?y =>
      apply (f_equal (fun v => PrimFloat.eqb v y)) in E;
      vm_compute in E; discriminate E
  end.

(** ** The duration discount on rationals *)

(** The discount tiers of [getDurationDiscount], as a function on
    rationals. *)
Definition discount_of (d : Q) : Q :=
  if Qle_bool 30 d then 0.80
  else if Qle_bool 14 d then 0.85
  else if Qle_bool 7 d then 0.90
  else if Qle_bool 3 d then 0.95
  else 1.0.


(** ** More of the pricing engine *)

(** The same request with another start date. *)
Definition with_start {num} (r : PricingRequest num) (d : Date)
  : PricingRequest num :=
  {| slotType := slotType r; duration := duration r;
     countryCode := countryCode r; startDate := d;
     adFormat := adFormat r; isAiGenerated := isAiGenerated r |}.

(** ** The other pricing routes (backend/routes/pricing.ts) *)

(** A JSON answer: the status, and [{success: true, ...payload}] ([inl]) or
    [{success: false, error}] ([inr]). *)
Record Reply (A : Type) : Type := {
  reply_status : Z;
  reply_body : A + string
}.
Arguments reply_status {A} _.
Arguments reply_body {A} _.

(** [error instanceof Error ? error.message : "Invalid request data"] *)
Definition message_of (error : Thrown) : string :=
  match error with
  | ErrorObject message => message
  | NonError => "Invalid request data"
  end.

Section BulkRoute.
Context {num : Type} `{JSNumber num}.
Variable Date_parse : string -> Date.
Variable ZodError_message : list string -> string.
(** The message of the [TypeError] thrown when [undefined] or [null] is
    destructured; its wording is the JavaScript engine's. *)
Variable TypeError_message : string.

(** [const { requests } = req.body]: a missing property reads
    [undefined]; no body at all throws. *)
Definition requests_of (req_body : json num) : Thrown + json num :=
  match req_body with
  | JUndefined | JNull => inl (ErrorObject TypeError_message)
  | JObject fields => inr (property fields "requests")
  | _ => inr JUndefined
  end.

(** [requests.map(request => ...)]: the elements are validated in order,
    and the first [ZodError] ends the loop. *)
Fixpoint validate_requests (requests : list (json num))
  : Thrown + list (PricingRequest num) :=
  match requests with
  | [] => inr []
  | request :: rest =>
      match pricingRequestSchema_parse Date_parse ZodError_message request with
      | inl error => inl error
      | inr validated =>
          match validate_requests rest with
          | inl error => inl error
          | inr validatedRequests =>
              inr (pricingRequest_of validated :: validatedRequests)
          end
      end
  end.

(** [router.post("/bulk", ...)] *)
Definition post_bulk (req_body : json num)
  : IO (Reply (list (PricingResult num))) :=
  let catch (error : Thrown) : IO (Reply (list (PricingResult num))) :=
    _ ← console_error "Bulk pricing error:";
    mret {| reply_status := 400; reply_body := inr (message_of error) |} in
  match requests_of req_body with
  | inl error => catch error
  | inr (JArray requests) =>
      match validate_requests requests with
      | inl error => catch error
      | inr validatedRequests =>
          let results := calculateBulkPricing validatedRequests in
          mret {| reply_status := 200; reply_body := inl results |}
      end
  | inr _ =>
      mret {| reply_status := 400;
              reply_body := inr "requests must be an array" |}
  end.

End BulkRoute.

(** ToBoolean of a query parameter given at most once: absent and empty
    are falsy. *)
Definition query_given (value : option string) : bool :=
  match value with
  | Some s => negb (String.eqb s "")
  | None => false
  end.

Section EstimateRoute.
Context {num : Type} `{JSNumber num}.
(** [parseInt] on a string, a builtin of the language. *)
Variable parseInt : string -> num.

(** [router.get("/estimate", ...)], each query parameter given at most
    once.  Nothing in the [try] block throws, so the [catch] block with its
    status 500 is never entered. *)
Definition get_estimate (slotType duration countryCode : option string)
  : IO (Reply num) :=
  if negb (query_given slotType) || negb (query_given duration) then
    mret {| reply_status := 400;
            reply_body := inr "slotType and duration are required" |}
  else
    estimate ← getQuickEstimate
                 (default "" slotType)
                 (parseInt (default "" duration))
                 (if query_given countryCode
                  then default "" countryCode else "US");
    mret {| reply_status := 200; reply_body := inl estimate |}.

End EstimateRoute.

(** [router.get("/constants", ...)]: the constants sent to the frontend. *)
Module Constants.
Definition slotTypes : list string :=
  [ "top_center"; "top_left"; "top_right";
    "mid_center"; "mid_left"; "mid_right";
    "bottom_center"; "bottom_left"; "bottom_right";
    "mobile_banner"; "mobile_interstitial" ].
Definition adFormats : list string := ["IMAGE"; "VIDEO"; "TEXT"].
Definition maxDuration : Q := 30.
Definition minDuration : Q := 1.
Definition baseRates_TOP_TIER : Q := 15.
Definition baseRates_MID_TIER : Q := 10.
Definition baseRates_BOTTOM_TIER : Q := 5.
End Constants.

(** ** Sample bodies *)

Definition sampleBody {num} `{JSNumber num} (slot : string) (days : Q)
  : json num :=
  JObject [("slotType", JString slot);
           ("duration", JNumber (lit days));
           ("countryCode", JString "US");
           ("startDate", JString "2024-01-15T19:00:00");
           ("adFormat", JString "VIDEO");
           ("isAiGenerated", JBool true)].

(** A date parser for the samples: every string is Monday, 19h. *)
Definition monday_evening (s : string) : Date := LocalTime 19 1.

(** ** More of the referral engine (backend/services/referral-engine.ts) *)

(** [x > y], which holds exactly when [x >= y] and not [x === y]. *)
Definition gtb {num} `{JSNumber num} (x y : num) : bool :=
  geb x y && negb (eqb x y).

Module Code.
Record ReferralCode (num : Type) : Type := {
  id : string;
  code : string;
  userId : string;
  createdAt : Date;
  expiresAt : option Date;
  isActive : bool;
  maxUses : option num;
  currentUses : num;
  rewardType : RewardType;
  rewardValue : num
}.
Arguments id {num} _.
Arguments code {num} _.
Arguments userId {num} _.
Arguments createdAt {num} _.
Arguments expiresAt {num} _.
Arguments isActive {num} _.
Arguments maxUses {num} _.
Arguments currentUses {num} _.
Arguments rewardType {num} _.
Arguments rewardValue {num} _.
End Code.
Export Code (ReferralCode).

(** What [applyReferralCode] resolves to. *)
Module Applied.
Record ApplyResult (num : Type) : Type := {
  success : bool;
  reward : option (ReferralReward num);
  error : option string
}.
Arguments success {num} _.
Arguments reward {num} _.
Arguments error {num} _.
End Applied.
Export Applied (ApplyResult).

Section ApplyReferralCode.
Context {num : Type} `{JSNumber num}.

(** The persistence layer, the clock and the source of identifiers, over
    a store; the order of two dates ([a < b]) is that of their time
    values. *)
Variable Store : Type.
Variable findReferralCode :
  string -> Store -> Completion (option (ReferralCode num)) * Store.
Variable saveReferralReward :
  ReferralReward num -> Store -> Completion unit * Store.
Variable updateReferralCode :
  ReferralCode num -> Store -> Completion unit * Store.
Variable new_Date_at : Store -> Date * Store.
(** [`reward_${Date.now()}_${randomBytes(4).toString('hex')}`] *)
Variable fresh_reward_id : Store -> string * Store.
Variable Date_lt : Date -> Date -> bool.

Definition refused (message : string) : ApplyResult num :=
  {| Applied.success := false; Applied.reward := None;
     Applied.error := Some message |}.

(** The [catch] block. *)
Definition apply_failed (message : string) : ApplyResult num :=
  refused ("Failed to apply referral code: " ++ message).

(** [referralCode.expiresAt && referralCode.expiresAt < new Date()]: the
    clock is read only when the code has an expiry date. *)
Definition has_expired (referralCode : ReferralCode num) (s : Store)
  : bool * Store :=
  match Code.expiresAt referralCode with
  | Some expiresAt =>
      let (today, s') := new_Date_at s in (Date_lt expiresAt today, s')
  | None => (false, s)
  end.

(** [referralCode.maxUses &&
     referralCode.currentUses >= referralCode.maxUses] *)
Definition uses_exhausted (referralCode : ReferralCode num) : bool :=
  match Code.maxUses referralCode with
  | Some maxUses =>
      truthy maxUses && geb (Code.currentUses referralCode) maxUses
  | None => false
  end.

(** [referralCode.currentUses += 1] *)
Definition used_once_more (referralCode : ReferralCode num)
  : ReferralCode num :=
  {| Code.id := Code.id referralCode;
     Code.code := Code.code referralCode;
     Code.userId := Code.userId referralCode;
     Code.createdAt := Code.createdAt referralCode;
     Code.expiresAt := Code.expiresAt referralCode;
     Code.isActive := Code.isActive referralCode;
     Code.maxUses := Code.maxUses referralCode;
     Code.currentUses := add (Code.currentUses referralCode) (lit 1);
     Code.rewardType := Code.rewardType referralCode;
     Code.rewardValue := Code.rewardValue referralCode |}.

Definition applyReferralCode (code newUserId : string) (s : Store)
  : ApplyResult num * Store :=
  match findReferralCode code s with
  | (Throw message, s1) => (apply_failed message, s1)
  | (Normal None, s1) => (refused "Invalid referral code", s1)
  | (Normal (Some referralCode), s1) =>
      if negb (Code.isActive referralCode) then
        (refused "Referral code is no longer active", s1)
      else
        let (expired, s2) := has_expired referralCode s1 in
        if expired then (refused "Referral code has expired", s2)
        else if uses_exhausted referralCode then
          (refused "Referral code has reached maximum uses", s2)
        else if String.eqb (Code.userId referralCode) newUserId then
          (refused "Cannot use your own referral code", s2)
        else
          let (reward_id, s3) := fresh_reward_id s2 in
          let (today, s4) := new_Date_at s3 in
          let reward :=
            {| id := reward_id;
               referrerId := Code.userId referralCode;
               refereeId := newUserId;
               referralCodeId := Code.id referralCode;
               rewardType := Code.rewardType referralCode;
               rewardValue := Code.rewardValue referralCode;
               reward_status := pending;
               createdAt := today;
               paidAt := None |} in
          match saveReferralReward reward s4 with
          | (Throw message, s5) => (apply_failed message, s5)
          | (Normal _, s5) =>
              match updateReferralCode (used_once_more referralCode) s5 with
              | (Throw message, s6) => (apply_failed message, s6)
              | (Normal _, s6) =>
                  ({| Applied.success := true;
                      Applied.reward := Some reward;
                      Applied.error := None |}, s6)
              end
          end
  end.

End ApplyReferralCode.

(** [ReferralStats]; the two counts are array lengths. *)
Record ReferralStats (num : Type) : Type := {
  totalReferrals : nat;
  successfulReferrals : nat;
  totalEarnings : num;
  pendingEarnings : num;
  conversionRate : num;
  topReferralCode : string;
  monthlyStats : list (string * Z * Z)
}.
Arguments totalReferrals {num} _.
Arguments successfulReferrals {num} _.
Arguments totalEarnings {num} _.
Arguments pendingEarnings {num} _.
Arguments conversionRate {num} _.
Arguments topReferralCode {num} _.
Arguments monthlyStats {num} _.

(** An array length as a number. *)
Definition of_length {num} `{JSNumber num} (n : nat) : num :=
  lit (inject_Z (Z.of_nat n)).

Section GetReferralStats.
Context {num : Type} `{JSNumber num}.
Variable Store : Type.
Variable getUserReferrals :
  string -> Store -> Completion (list (ReferralReward num)) * Store.
Variable getUserRewards :
  string -> Store -> Completion (list (ReferralReward num)) * Store.
Variable getUserReferralCodes :
  string -> Store -> Completion (list (ReferralCode num)) * Store.
(** The message of the [TypeError] that [reduce] throws on an empty array
    when it is given no initial value; its wording is the engine's. *)
Variable reduce_empty_message : string.

(** [generateMonthlyStats]: the fixed mock rows. *)
Definition generateMonthlyStats (rewards : list (ReferralReward num))
  : list (string * Z * Z) :=
  [("January", 5, 50); ("February", 8, 80); ("March", 12, 120)].

(** [rewards.filter(p).reduce((sum, r) => sum + r.rewardValue, 0)] *)
Definition earnings (p : ReferralReward num -> bool)
    (rewards : list (ReferralReward num)) : num :=
  fold_left (fun sum r => add sum (rewardValue r)) (filter p rewards) (lit 0).

(** The callback of [codes.reduce]:
    [current.currentUses > (top?.currentUses || 0) ? current : top]. *)
Definition busier (top current : ReferralCode num) : ReferralCode num :=
  let top_uses :=
    if truthy (Code.currentUses top) then Code.currentUses top else lit 0 in
  if gtb (Code.currentUses current) top_uses then current else top.

(** [codes.reduce(callback)]: the first element is the initial value, and
    an empty array throws. *)
Definition top_code (codes : list (ReferralCode num))
  : Completion (ReferralCode num) :=
  match codes with
  | [] => Throw reduce_empty_message
  | first :: rest => Normal (fold_left busier rest first)
  end.

Definition is_successful (r : ReferralReward num) : bool :=
  RewardStatus_eqb (reward_status r) approved
  || RewardStatus_eqb (reward_status r) paid.
Definition is_paid (r : ReferralReward num) : bool :=
  RewardStatus_eqb (reward_status r) paid.
Definition is_owed (r : ReferralReward num) : bool :=
  RewardStatus_eqb (reward_status r) pending
  || RewardStatus_eqb (reward_status r) approved.

Definition getReferralStats (userId : string) (s : Store)
  : Completion (ReferralStats num) * Store :=
  let rethrow (message : string) : Completion (ReferralStats num) :=
    Throw ("Failed to get referral stats: " ++ message) in
  match getUserReferrals userId s with
  | (Throw message, s1) => (rethrow message, s1)
  | (Normal referrals, s1) =>
      match getUserRewards userId s1 with
      | (Throw message, s2) => (rethrow message, s2)
      | (Normal rewards, s2) =>
          let totalReferrals := length referrals in
          let successfulReferrals := length (filter is_successful rewards) in
          let totalEarnings := earnings is_paid rewards in
          let pendingEarnings := earnings is_owed rewards in
          let conversionRate :=
            if (0 <? totalReferrals)%nat then
              mul (div (of_length successfulReferrals)
                       (of_length totalReferrals)) (lit 100)
            else lit 0 in
          match getUserReferralCodes userId s2 with
          | (Throw message, s3) => (rethrow message, s3)
          | (Normal codes, s3) =>
              match top_code codes with
              | Throw message => (rethrow message, s3)
              | Normal top =>
                  (Normal
                     {| totalReferrals := totalReferrals;
                        successfulReferrals := successfulReferrals;
                        totalEarnings := totalEarnings;
                        pendingEarnings := pendingEarnings;
                        conversionRate := conversionRate;
                        topReferralCode := Code.code top;
                        monthlyStats := generateMonthlyStats rewards |},
                   s3)
              end
          end
      end
  end.

End GetReferralStats.

(** The engine on the mock persistence of the repository, which finds no
    code and returns empty lists. *)
Module MockReferrals.
Definition findReferralCode {num} (code : string) (s : unit)
  : Completion (option (ReferralCode num)) * unit := (Normal None, s).
Definition saveReferralReward {num} (reward : ReferralReward num) (s : unit)
  : Completion unit * unit := (Normal tt, s).
Definition updateReferralCode {num} (code : ReferralCode num) (s : unit)
  : Completion unit * unit := (Normal tt, s).
Definition getUserReferrals {num} (userId : string) (s : unit)
  : Completion (list (ReferralReward num)) * unit := (Normal [], s).
Definition getUserRewards {num} (userId : string) (s : unit)
  : Completion (list (ReferralReward num)) * unit := (Normal [], s).
Definition getUserReferralCodes {num} (userId : string) (s : unit)
  : Completion (list (ReferralCode num)) * unit := (Normal [], s).
End MockReferrals.

(** A persistence for the samples: the code [WELCOME10] of [alice] is the
    only one, and every write succeeds. *)
Module SampleReferrals.
Definition welcome {num} `{JSNumber num} : ReferralCode num :=
  {| Code.id := "ref_1"; Code.code := "WELCOME10"; Code.userId := "alice";
     Code.createdAt := LocalTime 9 1; Code.expiresAt := None;
     Code.isActive := true; Code.maxUses := Some (lit 5);
     Code.currentUses := lit 2; Code.rewardType := credit;
     Code.rewardValue := lit 10 |}.
Definition findReferralCode {num} `{JSNumber num} (code : string) (s : unit)
  : Completion (option (ReferralCode num)) * unit :=
  (Normal (if String.eqb code "WELCOME10" then Some welcome else None), s).
Definition write {A} (a : A) (s : unit) : Completion unit * unit :=
  (Normal tt, s).
Definition new_Date_at (s : unit) : Date * unit := (LocalTime 10 2, s).
Definition fresh_reward_id (s : unit) : string * unit := ("reward_1", s).
Definition Date_lt (a b : Date) : bool := false.
Definition engine {num} `{JSNumber num}
  : string -> string -> unit -> ApplyResult num * unit :=
  applyReferralCode unit findReferralCode write write new_Date_at
    fresh_reward_id Date_lt.
Definition applyReferralCode {num} `{JSNumber num}
    (code newUserId : string) : ApplyResult num * unit :=
  engine code newUserId tt.
End SampleReferrals.



(** No id of the batch resolves to a reward in pending status at the time
    it is looked up, the lookups being made one after the other on the
    store the one before leaves. *)
Fixpoint none_pending {num} (Store : Type)
    (findReward :
       string -> Store -> Completion (option (ReferralReward num)) * Store)
    (rewardIds : list string) (s : Store) : bool :=
  match rewardIds with
  | [] => true
  | rewardId :: rest =>
      match findReward rewardId s with
      | (Normal (Some reward), s1) =>
          negb (RewardStatus_eqb (reward_status reward) pending)
          && none_pending Store findReward rest s1
      | (_, s1) => none_pending Store findReward rest s1
      end
  end.

(** A sample store of rewards: one paid, one approved, one pending. *)
Module SampleRewards.
Definition reward {num} `{JSNumber num} (name : string)
    (status : RewardStatus) : ReferralReward num :=
  {| id := name; referrerId := "owner"; refereeId := "friend";
     referralCodeId := "code"; rewardType := credit; rewardValue := lit 10;
     reward_status := status; createdAt := LocalTime 10 2;
     paidAt := None |}.
Definition Store (num : Type) : Type := list (string * ReferralReward num).
Definition store {num} `{JSNumber num} : Store num :=
  [ ("r1", reward "r1" paid); ("r2", reward "r2" approved);
    ("r3", reward "r3" pending) ].
Definition findReward {num} (rewardId : string) (s : Store num)
  : Completion (option (ReferralReward num)) * Store num :=
  (Normal (snd <$> List.find (fun entry => String.eqb (fst entry) rewardId) s),
   s).
(** Writes that would be noticed: each puts a marker in the store. *)
Definition mark {num} `{JSNumber num} (name : string) (s : Store num)
  : Completion unit * Store num :=
  (Normal tt, (name, reward name paid) :: s).
End SampleRewards.

(** The counters of [b] added to those of [a], its messages after. *)
Definition tally_after (a b : ProcessResult) : ProcessResult :=
  {| processed := processed a + processed b;
     failed := failed a + failed b;
     errors := errors a ++ errors b |}.

(** ** Generated codes and their format *)

(** [Math.floor] in binary64: a finite [x = (-1)^s * m * 2^e] with
    [e < 0] goes to its floor, computed on integers (below 2^53 in
    magnitude, so the conversion is exact); every other value (an integer,
    an infinity, NaN, a zero) is returned as it is. *)
Definition Math_floor (x : float) : float :=
  match Prim2SF x with
  | S754_finite s m e =>
      if 0 <=? e then x
      else
        let n := (if s then - Zpos m else Zpos m) / 2 ^ (- e) in
        if n =? 0 then PrimFloat.zero else Binary64.of_Z n
  | _ => x
  end.

(** ToIntegerOrInfinity: NaN and the zeros give 0, a finite number is
    truncated towards zero, an infinity stays one ([None]). *)
Definition to_integer (x : float) : option Z :=
  match Prim2SF x with
  | S754_zero _ | S754_nan => Some 0
  | S754_infinity _ => None
  | S754_finite s m e =>
      let a := if 0 <=? e then Zpos m * 2 ^ e else Zpos m / 2 ^ (- e) in
      Some (if s then - a else a)
  end.

(** [s.charAt(position)] for a string of ASCII characters, whose bytes are
    its code units: a position outside the string gives the empty
    string. *)
Definition charAt (s : string) (position : float) : string :=
  match to_integer position with
  | Some i =>
      if (i <? 0) then ""
      else match String.get (Z.to_nat i) s with
           | Some c => String c ""
           | None => ""
           end
  | None => ""
  end.

Section GenerateUniqueCode.
(** The random source: [Math.random()] draws a number and moves on. *)
Variable Rng : Type.
Variable Math_random : Rng -> float * Rng.

Definition chars : string := "ABCDEFGHIJKLMNOPQRSTUVWXYZ0123456789".

(** The [for] loop, [rounds] iterations from the string [result]; the
    product [Math.random() * chars.length] is a product of doubles. *)
Fixpoint draw_chars (rounds : nat) (result : string) (g : Rng)
  : string * Rng :=
  match rounds with
  | O => (result, g)
  | S rounds' =>
      let (r, g') := Math_random g in
      let index := Math_floor (mul r (of_length (String_length chars))) in
      draw_chars rounds' (result ++ charAt chars index) g'
  end.

Definition generateUniqueCode (g : Rng) : string * Rng :=
  draw_chars 8 "" g.

End GenerateUniqueCode.

(** [/^[A-Z0-9]+$/.test(code)] on the characters of the string: a
    character outside ASCII is a byte sequence with no byte in the two
    ranges. *)
Definition is_code_char (c : Ascii.ascii) : bool :=
  let n := Ascii.nat_of_ascii c in
  ((65 <=? n) && (n <=? 90) || (48 <=? n) && (n <=? 57))%nat.

Definition matches_code_pattern (s : string) : bool :=
  negb (String.eqb s "")
  && forallb is_code_char (String.list_ascii_of_string s).

(** [code.length >= 6 && /^[A-Z0-9]+$/.test(code)] of the route
    GET /validate/:code (routes/referrals.ts). *)
Definition isValid (code : string) : bool :=
  (6 <=? String_length code)%nat && matches_code_pattern code.

Definition get_validate (code : string) : Reply (bool * string) :=
  {| reply_status := 200;
     reply_body :=
       inl (isValid code,
            if isValid code then "Referral code is valid"
            else "Invalid referral code format") |}.

(** ** The route POST /apply-code (routes/referrals.ts) *)

(** The JSON answer of the route. *)
Record ApplyReply (num : Type) : Type := {
  apply_status : Z;
  apply_success : bool;
  apply_reward : option (ReferralReward num);
  apply_message : option string;
  apply_error : option string
}.
Arguments apply_status {num} _.
Arguments apply_success {num} _.
Arguments apply_reward {num} _.
Arguments apply_message {num} _.
Arguments apply_error {num} _.

Section ApplyCodeRoute.
Context {num : Type} `{JSNumber num}.
Variable Store : Type.
Variable applyReferralCode_on :
  string -> string -> Store -> ApplyResult num * Store.
Variable ZodError_message : list string -> string.

(** [applyCodeSchema.parse(req.body)] *)
Definition applyCodeSchema_parse (req_body : json num)
  : Thrown + string * string :=
  match req_body with
  | JObject fields =>
      match z_string (property fields "code"),
            z_string (property fields "newUserId") with
      | Some code, Some newUserId => inr (code, newUserId)
      | code, newUserId =>
          inl (ErrorObject (ZodError_message
                 (issue_at "code" code ++ issue_at "newUserId" newUserId)))
      end
  | _ => inl (ErrorObject (ZodError_message [""]))
  end.

(** [router.post("/apply-code", ...)]: the process state and the store of
    the engine are threaded side by side. *)
Definition post_apply_code (req_body : json num) (w : World) (s : Store)
  : ApplyReply num * World * Store :=
  match applyCodeSchema_parse req_body with
  | inr (code, newUserId) =>
      let (result, s') := applyReferralCode_on code newUserId s in
      if Applied.success result then
        ({| apply_status := 200; apply_success := true;
            apply_reward := Applied.reward result;
            apply_message := Some "Referral code applied successfully!";
            apply_error := None |}, w, s')
      else
        ({| apply_status := 400; apply_success := false;
            apply_reward := None; apply_message := None;
            apply_error := Applied.error result |}, w, s')
  | inl error =>
      let (_, w') := console_error "Referral code application error:" w in
      ({| apply_status := 500; apply_success := false;
          apply_reward := None; apply_message := None;
          apply_error := Some "Failed to apply referral code" |}, w', s)
  end.

End ApplyCodeRoute.

(** ** The values a price is made of *)

(** The values each factor of the price takes in binary64 for a slot type
    of the mapping and a country code that reads a number, each value
    once. *)
Definition tier_values : list SlotTier := [TOP; MID; BOTTOM].
Definition geo_values : list float :=
  [lit 1.5; lit 1.4; lit 1.2; lit 1.1; lit 1.3; lit 0.8; lit 0.7; lit 0.9;
   lit 1.0].
Definition time_values : list float :=
  [lit 1.4; lit 1.2; lit 1.1; lit 1.0; lit 0.6].
Definition format_values : list AdFormat :=
  [VIDEO; IMAGE; TEXT; AI_GENERATED_BONUS].
Definition demand_values : list float := [lit 1.8; lit 1.4; lit 1.0].

(** The price for given factor values, as a function of the duration. *)
Definition price_at (tier : SlotTier) (g t : float) (f : AdFormat)
    (m : float) (flag : bool) (d : float) : PricingResult float :=
  price_of_factors (getBaseRate (Some tier)) (Some (SLOT_MULTIPLIERS tier))
    (Listed g) t (FORMAT_MULTIPLIERS f) (getDurationDiscount d) m
    (if flag then FORMAT_MULTIPLIERS AI_GENERATED_BONUS else lit 0) d.

(** A test of the price as a function of the duration, made for every
    combination of factor values. *)
Definition every_pricing (test : (float -> PricingResult float) -> bool)
  : bool :=
  forallb (fun tier =>
  forallb (fun g =>
  forallb (fun t =>
  forallb (fun f =>
  forallb (fun m =>
  forallb (fun flag => test (price_at tier g t f m flag))
    [true; false]) demand_values) format_values) time_values) geo_values)
    tier_values.

(** The total for 30 days is under the total for 29 days. *)
Definition drop_test (price : float -> PricingResult float) : bool :=
  PrimFloat.ltb (total (price (lit 30))) (total (price (lit 29))).

(** * Theorems *)

(** ** The two arithmetics on sample values *)

(** A decimal literal is read as the nearest double. *)
Example lit_binary64 :
  lit 1.3 = 0x1.4cccccccccccdp+0%float
  /\ lit 0.95 = 0x1.e666666666666p-1%float
  /\ lit 15 = 15%float.
Proof. repeat split. Qed.

(** [Math.round] in binary64: ties go up, also below zero; the largest
    double under one half goes to zero. *)
Example Math_round_binary64 :
  Math_round (lit 2.5) = 3%float
  /\ Math_round (lit (-2.5)) = (-2)%float
  /\ Math_round (lit 2992.5) = 2993%float
  /\ Math_round 0x1.fffffffffffffp-2%float = 0%float
  /\ Math_round (lit (-0.2)) = (-0)%float
  /\ Math_round PrimFloat.infinity = PrimFloat.infinity
  /\ Math_round PrimFloat.nan = PrimFloat.nan.
Proof. repeat split. Qed.

(** The request of [testPricingEngine]: the exact total is 494.785; the
    program computes 494.7849999999999 and returns 494.78. *)
Example testPricingEngine_binary64 :
  Breakdown.total (breakdown (calculatePrice (num := float) testRequest))
  = 0x1.eec8f5c28f5c1p+8%float
  /\ total (calculatePrice (num := float) testRequest) = lit 494.78
  /\ dailyRate (calculatePrice (num := float) testRequest) = lit 164.93.
Proof. repeat split. Qed.

Example testPricingEngine_exact :
  total (calculatePrice (num := xnum) testRequest) = XFin 494.79
  /\ dailyRate (calculatePrice (num := xnum) testRequest) = XFin 164.93.
Proof. split; vm_compute; reflexivity. Qed.

(** A slot type outside the mapping has an [undefined] slot multiplier,
    and every amount of the result is NaN. *)
Example unmapped_slot_is_NaN :
  let result :=
    calculatePrice (num := float) (with_slot testRequest "sidebar") in
  Breakdown.slotMultiplier (breakdown result) = None
  /\ PrimFloat.is_nan (total result) = true
  /\ PrimFloat.is_nan (dailyRate result) = true.
Proof. repeat split. Qed.

(** ** Lookups in the rate tables *)

Section TableFacts.
Context {num : Type} `{JSNumber num}.

Lemma GEO_MULTIPLIERS_DEFAULT_key :
  GEO_MULTIPLIERS !! "DEFAULT" = Some (lit 1.0).
Proof. reflexivity. Qed.

Lemma GEO_MULTIPLIERS_unlisted (c : string) :
  c ∉ GEO_COUNTRIES.*1 -> c <> "DEFAULT" -> GEO_MULTIPLIERS !! c = None.
Proof.
  intros Hc Hd. unfold GEO_MULTIPLIERS.
  apply not_elem_of_list_to_map_1.
  rewrite fmap_app, elem_of_app. intros [Hin | Hin]; [tauto |].
  simpl in Hin. apply list_elem_of_singleton in Hin. contradiction.
Qed.

(** No member of [Object.prototype] is an own key of the table. *)
Lemma GEO_MULTIPLIERS_not_inherited (c : string) :
  c ∈ Object_prototype -> GEO_MULTIPLIERS !! c = None.
Proof.
  intros Hin. unfold Object_prototype in Hin.
  repeat (apply elem_of_cons in Hin as [-> | Hin]; [reflexivity |]).
  now apply elem_of_nil in Hin.
Qed.

(** A country that is neither listed nor the name of an inherited member
    is priced at the default multiplier. *)
Lemma getGeoMultiplier_unlisted (c : string) :
  c ∉ GEO_COUNTRIES.*1 -> c ∉ Object_prototype ->
  getGeoMultiplier c = Listed (lit 1.0).
Proof.
  intros Hc Hp. unfold getGeoMultiplier, GEO_MULTIPLIERS_at.
  destruct (decide (c = "DEFAULT")) as [-> | Hd].
  - rewrite GEO_MULTIPLIERS_DEFAULT_key. now destruct (truthy _).
  - rewrite GEO_MULTIPLIERS_unlisted by assumption.
    now rewrite bool_decide_eq_false_2.
Qed.

(** The name of an inherited member reads that member, not the default. *)
Lemma getGeoMultiplier_inherited (c : string) :
  c ∈ Object_prototype -> getGeoMultiplier c = Inherited c.
Proof.
  intros Hp. unfold getGeoMultiplier, GEO_MULTIPLIERS_at.
  rewrite GEO_MULTIPLIERS_not_inherited by assumption.
  now rewrite bool_decide_eq_true_2.
Qed.

(** A country code that names no inherited member reads a number: its
    listed multiplier, or the default. *)
Lemma getGeoMultiplier_number (c : string) :
  c ∉ Object_prototype ->
  exists m : num,
    getGeoMultiplier c = Listed m
    /\ (m = lit 1.0 \/ (c, m) ∈ GEO_COUNTRIES).
Proof.
  intros Hp. unfold getGeoMultiplier, GEO_MULTIPLIERS_at.
  destruct (GEO_MULTIPLIERS !! c) as [m |] eqn:E.
  - destruct (truthy m); [| eexists; split; [reflexivity | now left]].
    exists m. split; [reflexivity |].
    apply elem_of_list_to_map_2 in E. apply elem_of_app in E as [E | E].
    + now right.
    + apply list_elem_of_singleton in E. injection E as _ ->. now left.
  - rewrite bool_decide_eq_false_2 by assumption.
    eexists; split; [reflexivity | now left].
Qed.

Lemma calculatePrice_factors (r : PricingRequest num) :
  calculatePrice r = price_with_geo (getGeoMultiplier (countryCode r)) r.
Proof. reflexivity. Qed.

End TableFacts.

(** ** The pricing formula *)



(** A request whose country code is neither listed nor the name of a
    member of [Object.prototype] is priced with the default multiplier 1.0:
    its result is that of the same request with 1.0 put in place of the
    lookup. *)
Lemma calculatePrice_unlisted_country {num} `{JSNumber num}
    (r : PricingRequest num) :
  countryCode r ∉ (GEO_COUNTRIES (num := num)).*1 ->
  countryCode r ∉ Object_prototype ->
  Breakdown.geoMultiplier (breakdown (calculatePrice r)) = Listed (lit 1.0)
  /\ calculatePrice r = price_with_geo (Listed (lit 1.0)) r.
Proof.
  intros Hc Hp. rewrite calculatePrice_factors.
  rewrite (getGeoMultiplier_unlisted _ Hc Hp). split; reflexivity.
Qed.

(** C10: on a start date that falls on a Saturday (6) or a Sunday (0),
    getTimeMultiplier returns the WEEKEND multiplier 1.1 whatever the
    hour. *)
Theorem getTimeMultiplier_weekend {num} `{JSNumber num} (hour day : Z) :
  day = 0 \/ day = 6 ->
  getTimeMultiplier (LocalTime hour day) = TIME_MULTIPLIERS WEEKEND
  /\ TIME_MULTIPLIERS WEEKEND = lit 1.1.
Proof.
  intros [-> | ->]; split; reflexivity.
Qed.

Lemma getTimeMultiplier_weekend_witness :
  (6 = 0 \/ 6 = 6)
  /\ getTimeMultiplier (num := float) (LocalTime 19 6) = lit 1.1.
Proof.
  split; [right; reflexivity |].
  exact (proj1 (getTimeMultiplier_weekend 19 6 (or_intror eq_refl))).
Defined.

(** ** The demand multiplier *)

(** What getDemandMultiplier computes: 1.8 for top_center from 18h to
    21h, 1.4 for top_center from 9h to 16h, 1.0 in every other case. *)
Lemma getDemandMultiplier_cases {num} `{JSNumber num}
    (s : string) (d : Date) :
  getDemandMultiplier s d =
    if String.eqb s "top_center" then
      if ge_int (getHours d) 18 && lt_int (getHours d) 22 then lit 1.8
      else if ge_int (getHours d) 9 && lt_int (getHours d) 17 then lit 1.4
      else lit 1.0
    else lit 1.0.
Proof.
  unfold getDemandMultiplier, AD_SLOT_TYPES.TOP_CENTER.
  destruct (String.eqb s "top_center"),
    (ge_int (getHours d) 18 && lt_int (getHours d) 22),
    (ge_int (getHours d) 9 && lt_int (getHours d) 17),
    (eq_int (getDay d) 0 || eq_int (getDay d) 6); reflexivity.
Qed.

(** C2, as stated, fails: top_center and top_left are both of tier TOP,
    and on a Monday at 19h calculatePrice uses the demand multiplier 1.8
    for the first and 1.0 for the second. *)
Lemma demand_differs_within_tier :
  ~ (forall (r : PricingRequest float) (s1 s2 : string) (t : SlotTier),
       SLOT_TIER_MAPPING !! s1 = Some t ->
       SLOT_TIER_MAPPING !! s2 = Some t ->
       Breakdown.demandMultiplier (breakdown (calculatePrice (with_slot r s1)))
       = Breakdown.demandMultiplier
           (breakdown (calculatePrice (with_slot r s2)))).
Proof.
  intros Hsame.
  specialize (Hsame (sampleRequest 19 3 false)
                AD_SLOT_TYPES.TOP_CENTER AD_SLOT_TYPES.TOP_LEFT TOP
                eq_refl eq_refl).
  float_differ Hsame.
Qed.

(** C2, amended: the demand multiplier used by calculatePrice depends only
    on whether the slot type is top_center and on the hour of the start
    date: it is 1.8 for top_center from 18h to 21h, 1.4 for top_center from
    9h to 16h and 1.0 otherwise.  Two requests whose start dates have the
    same hour and whose slot types are both top_center or both different
    from it get the same demand multiplier. *)
Theorem demand_by_slot_and_hour {num} `{JSNumber num}
    (r1 r2 : PricingRequest num) :
  (slotType r1 = AD_SLOT_TYPES.TOP_CENTER
   <-> slotType r2 = AD_SLOT_TYPES.TOP_CENTER) ->
  getHours (startDate r1) = getHours (startDate r2) ->
  Breakdown.demandMultiplier (breakdown (calculatePrice r1))
  = Breakdown.demandMultiplier (breakdown (calculatePrice r2))
  /\ Breakdown.demandMultiplier (breakdown (calculatePrice r1))
     = let hour := getHours (startDate r1) in
       if String.eqb (slotType r1) "top_center" then
         if ge_int hour 18 && lt_int hour 22 then lit 1.8
         else if ge_int hour 9 && lt_int hour 17 then lit 1.4
         else lit 1.0
       else lit 1.0.
Proof.
  intros Hslot Hhour. cbn.
  rewrite !getDemandMultiplier_cases, Hhour. split; [| reflexivity].
  destruct (String.eqb_spec (slotType r1) "top_center") as [E1 | N1],
    (String.eqb_spec (slotType r2) "top_center") as [E2 | N2];
    try reflexivity.
  - exfalso. apply N2, Hslot, E1.
  - exfalso. apply N1, Hslot, E2.
Qed.

Lemma demand_by_slot_and_hour_witness :
  (AD_SLOT_TYPES.TOP_LEFT = AD_SLOT_TYPES.TOP_CENTER
   <-> AD_SLOT_TYPES.TOP_RIGHT = AD_SLOT_TYPES.TOP_CENTER)
  /\ Breakdown.demandMultiplier
       (breakdown (calculatePrice (num := float) (sampleRequest 19 3 false)))
     = Breakdown.demandMultiplier
         (breakdown (calculatePrice
            (with_slot (sampleRequest 19 5 true) AD_SLOT_TYPES.TOP_RIGHT))).
Proof.
  assert (Hslot : AD_SLOT_TYPES.TOP_LEFT = AD_SLOT_TYPES.TOP_CENTER
                  <-> AD_SLOT_TYPES.TOP_RIGHT = AD_SLOT_TYPES.TOP_CENTER)
    by (split; intros E; discriminate E).
  split; [exact Hslot |].
  exact (proj1 (demand_by_slot_and_hour
           (sampleRequest 19 3 false)
           (with_slot (sampleRequest 19 5 true) AD_SLOT_TYPES.TOP_RIGHT)
           Hslot eq_refl)).
Defined.

(** ** The AI bonus *)

(** The totals returned for the sample request (top_left, Kenya, Monday
    19h, video, 3 days) in binary64: the exact total without the bonus is
    125.685, half a cent between 125.68 and 125.69. *)
Example sample_total_with_bonus :
  let result := calculatePrice (num := float) (sampleRequest 19 3 true) in
  (* the double nearest to 135.685, and 135.685 * 100 is 13568.5 *)
  Breakdown.total (breakdown result) = 0x1.0f5eb851eb852p+7%float
  /\ total result = lit 135.69.
Proof. split; vm_compute; reflexivity. Qed.

Example sample_total_without_bonus :
  let result := calculatePrice (num := float) (sampleRequest 19 3 false) in
  (* 125.68499999999999, just under the tie *)
  Breakdown.total (breakdown result) = 0x1.f6bd70a3d70a3p+6%float
  /\ total result = lit 125.68.
Proof. split; vm_compute; reflexivity. Qed.

(** C4, as stated, fails in the arithmetic the program runs in: for the
    sample request the returned total is 135.69 with the flag and 125.68
    without it, which differ by 10.01. *)
Lemma ai_bonus_not_exactly_10 :
  ~ (forall r : PricingRequest float,
       eqb (total (calculatePrice (with_ai r true)))
           (add (total (calculatePrice (with_ai r false))) (lit 10))
       = true).
Proof.
  intros Hten. specialize (Hten (sampleRequest 19 3 false)).
  vm_compute in Hten. discriminate Hten.
Qed.

(** ** Determinism *)

(** The start of the test inputs is a Monday at 19h in UTC and a Tuesday
    at 4h in Tokyo. *)
Example local_date_by_zone :
  local_date UTC (TimeValue 1705345200000) = LocalTime 19 1
  /\ local_date Asia_Tokyo (TimeValue 1705345200000) = LocalTime 4 2
  /\ local_date UTC InvalidTime = InvalidDate.
Proof. repeat split. Qed.


Example testInputs_by_zone :
  total (fst (run_calculatePrice (num := float) testInputs
                {| timeZone := UTC;
                   world := {| now := InvalidDate; console := [] |} |}))
  = lit 494.78
  /\ total (fst (run_calculatePrice (num := float) testInputs
                   {| timeZone := Asia_Tokyo;
                      world := {| now := InvalidDate; console := [] |} |}))
     = lit 125.43.
Proof. split; vm_compute; reflexivity. Qed.



(** By contrast getQuickEstimate reads the clock: the same arguments give
    44.46 on a Wednesday at 10h and 22.23 at 23h. *)
Example getQuickEstimate_reads_clock :
  fst (getQuickEstimate (num := float) "mid_left" (lit 3) "JP"
         {| now := LocalTime 10 3; console := [] |}) = lit 44.46
  /\ fst (getQuickEstimate (num := float) "mid_left" (lit 3) "JP"
            {| now := LocalTime 23 3; console := [] |}) = lit 22.23.
Proof. split; vm_compute; reflexivity. Qed.

(** ** The order of binary64 *)

Section Binary64Order.

(** The comparison of the floating-point specification is transitive. *)
Lemma SFleb_trans (a b c : spec_float) :
  SFleb a b = true -> SFleb b c = true -> SFleb a c = true.
Proof.
  unfold SFleb, SFcompare.
  destruct a as [sa | sa | | sa ma ea], b as [sb | sb | | sb mb eb],
    c as [sc | sc | | sc mc ec];
    repeat match goal with s : bool |- _ => destruct s end;
    try (intros; reflexivity); try (intros; discriminate);
    change (Pos.compare_cont Eq) with Pos.compare;
    destruct (Z.compare_spec ea eb), (Z.compare_spec eb ec),
      (Z.compare_spec ea ec);
    try (intros; reflexivity); try (intros; discriminate); try lia;
    destruct (Pos.compare_spec ma mb), (Pos.compare_spec mb mc),
      (Pos.compare_spec ma mc);
    cbn; try (intros; reflexivity); try (intros; discriminate); try lia.
Qed.

Lemma float_leb_trans (x y z : float) :
  PrimFloat.leb x y = true -> PrimFloat.leb y z = true ->
  PrimFloat.leb x z = true.
Proof. rewrite !leb_spec. apply SFleb_trans. Qed.

(** In the arithmetic the program runs in, a longer campaign never gets a
    larger discount factor. *)
Lemma getDurationDiscount_antitone_binary64 (d1 d2 : float) :
  leb d1 d2 = true ->
  leb (getDurationDiscount d2) (getDurationDiscount d1) = true.
Proof.
  unfold leb, getDurationDiscount. cbn [geb binary64]. intros Hle.
  repeat match goal with
  | |- context [PrimFloat.leb ?k d1] => destruct (PrimFloat.leb k d1) eqn:?
  end;
  repeat match goal with
  | |- context [PrimFloat.leb ?k d2] => destruct (PrimFloat.leb k d2) eqn:?
  end;
  first
    [ vm_compute; reflexivity
    | exfalso;
      match goal with
      | H1 : PrimFloat.leb ?k d1 = true, H2 : PrimFloat.leb ?k d2 = false
        |- _ =>
          rewrite (float_leb_trans k d1 d2 H1 Hle) in H2; discriminate H2
      end ].
Qed.

End Binary64Order.

(** ** The duration discount *)

Section ExactArithmetic.
Open Scope Q_scope.

Lemma getDurationDiscount_exact (d : Q) :
  getDurationDiscount (XFin d) = XFin (discount_of d).
Proof.
  unfold getDurationDiscount, discount_of. cbn.
  destruct (Qle_bool 30 d); [reflexivity |].
  destruct (Qle_bool 14 d); [reflexivity |].
  destruct (Qle_bool 7 d); [reflexivity |].
  destruct (Qle_bool 3 d); reflexivity.
Qed.

Lemma Qle_bool_false (a b : Q) : Qle_bool a b = false -> b < a.
Proof.
  intros Hf. apply Qnot_le_lt. intros Hle.
  apply Qle_bool_iff in Hle. congruence.
Qed.

Lemma discount_of_bounds (d : Q) : 0 < discount_of d <= 1.
Proof.
  unfold discount_of.
  repeat (destruct (Qle_bool _ d); [split; [reflexivity | discriminate] |]).
  split; [reflexivity | discriminate].
Qed.


(** In exact arithmetic every factor of the price is a positive
    rational. *)
Lemma getGeoMultiplier_exact (c : string) :
  c ∉ Object_prototype ->
  exists g : Q,
    getGeoMultiplier (num := xnum) c = Listed (XFin g) /\ 0 < g.
Proof.
  intros Hp. unfold getGeoMultiplier, GEO_MULTIPLIERS_at.
  destruct (GEO_MULTIPLIERS !! c) as [m |] eqn:E.
  - apply elem_of_list_to_map_2 in E.
    repeat (apply elem_of_cons in E as [E | E];
      [injection E as _ ->; eexists; split; reflexivity |]).
    now apply elem_of_nil in E.
  - rewrite bool_decide_eq_false_2 by assumption.
    eexists; split; reflexivity.
Qed.

Lemma getTimeMultiplier_exact (d : Date) :
  exists t : Q, getTimeMultiplier (num := xnum) d = XFin t /\ 0 < t.
Proof.
  unfold getTimeMultiplier. split_conditions; eexists; split; reflexivity.
Qed.

Lemma FORMAT_MULTIPLIERS_exact (f : AdFormat) :
  exists m : Q, FORMAT_MULTIPLIERS (num := xnum) f = XFin m /\ 0 < m.
Proof. destruct f; eexists; split; reflexivity. Qed.

Lemma getDemandMultiplier_exact (s : string) (d : Date) :
  exists m : Q, getDemandMultiplier (num := xnum) s d = XFin m /\ 0 < m.
Proof.
  rewrite getDemandMultiplier_cases.
  split_conditions; eexists; split; reflexivity.
Qed.

Lemma tier_rates_exact (tier : SlotTier) :
  exists b sm : Q,
    getBaseRate (num := xnum) (Some tier) = XFin b
    /\ SLOT_MULTIPLIERS (num := xnum) tier = XFin sm
    /\ 0 < b /\ 0 < sm.
Proof. destruct tier; do 2 eexists; repeat split. Qed.

Lemma div_finite (a b : Q) :
  0 < b -> Exact.div (XFin a) (XFin b) = XFin (a / b).
Proof.
  intros Hb. unfold Exact.div, Exact.sign.
  apply Qgt_alt in Hb. now rewrite Hb.
Qed.



(** The dailyRate returned for the sample request on a weekday morning in
    binary64: the exact per-day cost is 29.925 for both durations. *)
Example sample_dailyRate_3_days :
  let result := calculatePrice (num := float) (sampleRequest 7 3 false) in
  (* 29.924999999999997, just under the tie *)
  Breakdown.dailyRate (breakdown result) = 0x1.decccccccccccp+4%float
  /\ dailyRate result = lit 29.92.
Proof. split; vm_compute; reflexivity. Qed.

Example sample_dailyRate_5_days :
  let result := calculatePrice (num := float) (sampleRequest 7 5 false) in
  (* the double nearest to 29.925, and 29.925 * 100 is 2992.5 *)
  Breakdown.dailyRate (breakdown result) = 0x1.deccccccccccdp+4%float
  /\ dailyRate result = lit 29.93.
Proof. split; vm_compute; reflexivity. Qed.




(** *** Rounding and the bonus in exact arithmetic *)

(** [Math.round] in exact arithmetic is the nearest integer, a tie going
    up. *)
Lemma Exact_round_nearest (q : Q) :
  exists n : Z,
    Math_round (XFin q) = XFin (inject_Z n)
    /\ inject_Z n - (1 # 2) <= q < inject_Z n + (1 # 2).
Proof.
  exists (Qfloor (q + (1 # 2))). split; [reflexivity |].
  pose proof (Qfloor_le (q + (1 # 2))) as Hlo.
  pose proof (Qlt_floor (q + (1 # 2))) as Hhi.
  rewrite inject_Z_plus in Hhi. change (inject_Z 1) with 1 in Hhi.
  split; lra.
Qed.

(** C6: the returned total and dailyRate are the unrounded total and
    dailyRate of the breakdown, times 100, rounded to the nearest integer
    by Math.round, divided by 100, in either arithmetic; read in exact
    arithmetic, a finite unrounded amount x is returned as n / 100 for the
    integer n nearest to 100 x. *)
Theorem calculatePrice_rounds_to_cents :
  (forall (num : Type) (N : JSNumber num) (r : PricingRequest num),
     let b := breakdown (calculatePrice r) in
     total (calculatePrice r)
     = div (Math_round (mul (Breakdown.total b) (lit 100))) (lit 100)
     /\ dailyRate (calculatePrice r)
        = div (Math_round (mul (Breakdown.dailyRate b) (lit 100))) (lit 100))
  /\ (forall (r : PricingRequest xnum) (x : Q),
        Breakdown.total (breakdown (calculatePrice r)) = XFin x ->
        exists n : Z,
          total (calculatePrice r) = XFin (inject_Z n / 100)
          /\ inject_Z n - (1 # 2) <= x * 100 < inject_Z n + (1 # 2))
  /\ (forall (r : PricingRequest xnum) (y : Q),
        Breakdown.dailyRate (breakdown (calculatePrice r)) = XFin y ->
        exists n : Z,
          dailyRate (calculatePrice r) = XFin (inject_Z n / 100)
          /\ inject_Z n - (1 # 2) <= y * 100 < inject_Z n + (1 # 2)).
Proof.
  split; [intros num N r; split; reflexivity |].
  split; intros r x Hx;
    destruct (Exact_round_nearest (x * 100)) as (n & Hround & Hnear);
    exists n; (split; [| exact Hnear]).
  - change (total (calculatePrice r))
      with (round2 (Breakdown.total (breakdown (calculatePrice r)))).
    rewrite Hx. unfold round2. cbn [mul lit exact Exact.mul].
    rewrite Hround. apply div_finite. reflexivity.
  - change (dailyRate (calculatePrice r))
      with (round2 (Breakdown.dailyRate (breakdown (calculatePrice r)))).
    rewrite Hx. unfold round2. cbn [mul lit exact Exact.mul].
    rewrite Hround. apply div_finite. reflexivity.
Qed.

Lemma calculatePrice_rounds_to_cents_witness :
  exists n : Z,
    total (calculatePrice (num := xnum) testRequest)
    = XFin (inject_Z n / 100).
Proof.
  assert (Hx : { x : Q | Breakdown.total
                           (breakdown (calculatePrice testRequest))
                         = XFin x })
    by (eexists; vm_compute; reflexivity).
  destruct Hx as [x Hx].
  destruct (proj1 (proj2 calculatePrice_rounds_to_cents) testRequest x Hx)
    as (n & Htotal & _).
  exists n. exact Htotal.
Defined.

Lemma Qfloor_unique (q : Q) (z : Z) :
  inject_Z z <= q < inject_Z (z + 1) -> Qfloor q = z.
Proof.
  intros [Hlo Hhi].
  pose proof (Qfloor_resp_le _ _ Hlo) as H1. rewrite Qfloor_Z in H1.
  pose proof (Qfloor_le q) as H2.
  assert (H3 : inject_Z (Qfloor q) < inject_Z (z + 1))
    by (eapply Qle_lt_trans; eassumption).
  rewrite <- Zlt_Qlt in H3. lia.
Qed.

Lemma Qfloor_plus_Z (q : Q) (n : Z) :
  Qfloor (q + inject_Z n) = (Qfloor q + n)%Z.
Proof.
  apply Qfloor_unique.
  pose proof (Qfloor_le q) as Hlo. pose proof (Qlt_floor q) as Hhi.
  rewrite !inject_Z_plus in *. split; lra.
Qed.

(** The total of a request with a mapped slot type, a country code that
    reads a number and a finite duration. *)
Lemma total_exact (r : PricingRequest xnum) (tier : SlotTier) (d : Q) :
  SLOT_TIER_MAPPING !! slotType r = Some tier ->
  countryCode r ∉ Object_prototype ->
  exists sub : Q, forall flag : bool,
    total (calculatePrice (with_ai (with_duration r (XFin d)) flag))
    = XFin (inject_Z
              (Qfloor ((sub + (if flag then 10 else 0)) * 100 + (1 # 2)))
            / 100).
Proof.
  intros Hm Hp.
  destruct (getGeoMultiplier_exact (countryCode r) Hp) as (g & Hg & _).
  destruct (getTimeMultiplier_exact (startDate r)) as (t & Ht & _).
  destruct (FORMAT_MULTIPLIERS_exact (adFormat r)) as (f & Hf & _).
  destruct (getDemandMultiplier_exact (slotType r) (startDate r))
    as (m & Hd & _).
  destruct (tier_rates_exact tier) as (b & sm & Hb & Hs & _ & _).
  exists (b * sm * g * t * f * discount_of d * m * d). intros flag.
  rewrite calculatePrice_factors.
  unfold price_with_geo, with_ai, with_duration.
  cbn [slotType duration countryCode startDate adFormat isAiGenerated].
  rewrite Hm, Hg, Ht, Hf, Hd, getDurationDiscount_exact.
  cbn [fmap option_fmap option_map]. rewrite Hb, Hs.
  unfold price_of_factors, round2. cbn [total toNumber Number_of].
  destruct flag;
    cbn [flag_set FORMAT_MULTIPLIERS mul add div Math_round lit exact
         Exact.mul Exact.add Exact.round];
    now rewrite div_finite by reflexivity.
Qed.

(** Without rounding error the two returned totals differ by exactly 10,
    for a mapped slot type, a country code that reads a number and a
    finite duration. *)
Lemma ai_bonus_exactly_10_exact (r : PricingRequest xnum) (d : Q) :
  is_Some (SLOT_TIER_MAPPING !! slotType r) ->
  countryCode r ∉ Object_prototype ->
  eqb (total (calculatePrice (with_ai (with_duration r (XFin d)) true)))
      (add (total (calculatePrice (with_ai (with_duration r (XFin d)) false)))
           (lit 10))
  = true.
Proof.
  intros [tier Hm] Hp.
  destruct (total_exact r tier d Hm Hp) as (sub & Htotal).
  rewrite (Htotal true), (Htotal false).
  cbn [eqb add lit exact Exact.add Exact.eqb]. apply Qeq_bool_iff.
  assert (E : (sub + 10) * 100 + (1 # 2)
              == (sub + 0) * 100 + (1 # 2) + inject_Z 1000)
    by (change (inject_Z 1000) with 1000; ring).
  rewrite E, Qfloor_plus_Z, inject_Z_plus.
  change (inject_Z 1000) with 1000. field.
Qed.

(** C4, amended: the AI bonus is a flat addend.  In either arithmetic the
    requests with and without the flag have the same subtotal, the bonus
    recorded is 10 with the flag and 0 without it whatever the other
    fields are, the unrounded total is the subtotal plus that bonus, and
    the returned total is this sum rounded to cents; in exact arithmetic,
    for a mapped slot type, a country code that is not the name of a
    member inherited from Object.prototype and a finite duration, the two
    returned totals differ by exactly 10. *)
Theorem ai_bonus_flat_addend :
  (forall (num : Type) (N : JSNumber num) (r : PricingRequest num),
     let flagged := calculatePrice (with_ai r true) in
     let plain := calculatePrice (with_ai r false) in
     Breakdown.subtotal (breakdown flagged)
     = Breakdown.subtotal (breakdown plain)
     /\ Breakdown.aiGeneratedBonus (breakdown flagged) = lit 10
     /\ Breakdown.aiGeneratedBonus (breakdown plain) = lit 0
     /\ Breakdown.total (breakdown flagged)
        = add (Breakdown.subtotal (breakdown plain)) (lit 10)
     /\ Breakdown.total (breakdown plain)
        = add (Breakdown.subtotal (breakdown plain)) (lit 0)
     /\ total flagged
        = round2 (add (Breakdown.subtotal (breakdown plain)) (lit 10))
     /\ total plain
        = round2 (add (Breakdown.subtotal (breakdown plain)) (lit 0)))
  /\ (forall (r : PricingRequest xnum) (d : Q),
        is_Some (SLOT_TIER_MAPPING !! slotType r) ->
        countryCode r ∉ Object_prototype ->
        eqb (total (calculatePrice
                      (with_ai (with_duration r (XFin d)) true)))
            (add (total (calculatePrice
                           (with_ai (with_duration r (XFin d)) false)))
                 (lit 10))
        = true).
Proof.
  split.
  - intros num N r. repeat split.
  - exact ai_bonus_exactly_10_exact.
Qed.

Lemma ai_bonus_flat_addend_witness :
  is_Some (SLOT_TIER_MAPPING
             !! slotType (sampleRequest (num := xnum) 19 3 false))
  /\ (countryCode (sampleRequest (num := xnum) 19 3 false)
      ∉ Object_prototype)
  /\ eqb (total (calculatePrice
                   (with_ai (with_duration (sampleRequest 19 3 false)
                               (XFin 3)) true)))
         (add (total (calculatePrice
                        (with_ai (with_duration (sampleRequest 19 3 false)
                                    (XFin 3)) false)))
              (lit 10))
     = true.
Proof.
  assert (Hs : is_Some (SLOT_TIER_MAPPING
             !! slotType (sampleRequest (num := xnum) 19 3 false)))
    by (exists TOP; reflexivity).
  assert (Hp : countryCode (sampleRequest (num := xnum) 19 3 false)
               ∉ Object_prototype)
    by not_in_list.
  split; [exact Hs |]. split; [exact Hp |].
  exact (proj2 ai_bonus_flat_addend (sampleRequest 19 3 false) 3 Hs Hp).
Defined.

End ExactArithmetic.

(** ** The /calculate route *)

(** C8: the handler of POST /calculate has exactly two outcomes.  When the
    body passes validation it answers with status 200 and a success:true
    body carrying the pricing result of the validated request; when
    validation throws it answers with status 400 and the body
    {success:false, error} carrying the message of the error. *)
Theorem post_calculate_outcomes {num} `{JSNumber num}
    (Date_parse : string -> Date) (ZodError_message : list string -> string)
    (req_body : json num) (w : World) :
  let parsed :=
    pricingRequestSchema_parse Date_parse ZodError_message req_body in
  let response :=
    fst (post_calculate Date_parse ZodError_message req_body w) in
  (exists validatedData,
      parsed = inr validatedData
      /\ status response = 200
      /\ success (body response) = true
      /\ body response
         = SuccessBody (calculatePrice (pricingRequest_of validatedData)))
  \/ (exists message,
        parsed = inl (ErrorObject message)
        /\ status response = 400
        /\ success (body response) = false
        /\ body response = FailureBody message).
Proof.
  cbv zeta. unfold post_calculate.
  destruct (pricingRequestSchema_parse Date_parse ZodError_message req_body)
    as [error | validatedData] eqn:Hparse.
  - right. destruct error as [message |].
    + exists message. repeat split.
    + exfalso. unfold pricingRequestSchema_parse in Hparse.
      destruct req_body; try discriminate Hparse.
      repeat match type of Hparse with
      | context [match ?c with Some _ => _ | None => _ end] => destruct c
      end; discriminate Hparse.
  - left. exists validatedData. repeat split.
Qed.

(** A well-formed body is priced; a duration of 0 is refused. *)
Example post_calculate_accepts :
  let body :=
    JObject [("slotType", JString "top_center");
             ("duration", JNumber (lit 3));
             ("countryCode", JString "US");
             ("startDate", JString "2024-01-15T19:00:00");
             ("adFormat", JString "VIDEO");
             ("isAiGenerated", JBool true)] in
  fst (post_calculate (num := float) (fun _ => LocalTime 19 1)
         (fun _ => "invalid") body {| now := InvalidDate; console := [] |})
  = {| status := 200; body := SuccessBody (calculatePrice testRequest) |}.
Proof. reflexivity. Qed.

Example post_calculate_refuses :
  let body :=
    JObject [("slotType", JString "top_center");
             ("duration", JNumber (lit 0));
             ("countryCode", JString "USA");
             ("startDate", JString "2024-01-15T19:00:00");
             ("adFormat", JString "VIDEO")] in
  post_calculate (num := float) (fun _ => LocalTime 19 1)
    (String.concat ",") body {| now := InvalidDate; console := [] |}
  = ({| status := 400; body := FailureBody "duration,countryCode" |},
     {| now := InvalidDate; console := ["Pricing calculation error:"] |}).
Proof. reflexivity. Qed.

(** ** Reward processing *)

Section ProcessRewards.
Context {num : Type}.
Variable Store : Type.
Variable findReward :
  string -> Store -> Completion (option (ReferralReward num)) * Store.
Variable updateReward :
  ReferralReward num -> Store -> Completion unit * Store.
Variable addUserCredit : string -> num -> Store -> Completion unit * Store.
Variable createDiscountCoupon :
  string -> num -> Store -> Completion unit * Store.
Variable grantFreeAdSlot : string -> Store -> Completion unit * Store.
Variable today : Store -> Date.

Let step := process_one Store findReward updateReward addUserCredit
              createDiscountCoupon grantFreeAdSlot today.
Let loop := process_loop Store findReward updateReward addUserCredit
              createDiscountCoupon grantFreeAdSlot today.

(** One iteration counts its reward once: as processed, or as failed with
    one more message. *)
Lemma process_one_counts (rewardId : string) (acc : ProcessResult)
    (s : Store) :
  let acc' := fst (step rewardId (acc, s)) in
  (processed acc' = S (processed acc) /\ failed acc' = failed acc
   /\ errors acc' = errors acc)
  \/ (processed acc' = processed acc /\ failed acc' = S (failed acc)
      /\ exists message, errors acc' = errors acc ++ [message]).
Proof.
  cbv zeta. unfold step, process_one, catch_block.
  destruct (findReward rewardId s) as [[[reward |] | message] s1];
    cbn; eauto 8.
  destruct (negb _); cbn; eauto 8.
  destruct (pay_out _ _ _ _ _ _) as [[[] | message] s2]; cbn; eauto 8.
  destruct (updateReward _ s2) as [[[] | message] s3]; cbn; eauto 8.
Qed.

Lemma process_loop_counts (rewardIds : list string) (acc : ProcessResult)
    (s : Store) :
  let acc' := fst (loop rewardIds (acc, s)) in
  (processed acc' + failed acc'
   = processed acc + failed acc + length rewardIds)%nat
  /\ (length (errors acc') + failed acc
      = length (errors acc) + failed acc')%nat.
Proof.
  revert acc s. induction rewardIds as [| rewardId rest IH]; intros acc s.
  - cbn. lia.
  - change (loop (rewardId :: rest) (acc, s))
      with (loop rest (step rewardId (acc, s))).
    pose proof (process_one_counts rewardId acc s) as Hone.
    destruct (step rewardId (acc, s)) as [acc1 s1].
    specialize (IH acc1 s1). cbn in IH, Hone |- *.
    destruct Hone as [(Hp & Hf & He) | (Hp & Hf & message & He)];
      rewrite He in IH; rewrite ?length_app in IH; cbn in IH; lia.
Qed.

End ProcessRewards.

(** C9: for every list of reward ids, whatever the persistence layer
    does, processRewards returns processed + failed = the number of ids
    and as many error messages as failed ids. *)
Theorem processRewards_counts {num : Type} (Store : Type)
    (findReward :
       string -> Store -> Completion (option (ReferralReward num)) * Store)
    (updateReward : ReferralReward num -> Store -> Completion unit * Store)
    (addUserCredit : string -> num -> Store -> Completion unit * Store)
    (createDiscountCoupon : string -> num -> Store -> Completion unit * Store)
    (grantFreeAdSlot : string -> Store -> Completion unit * Store)
    (today : Store -> Date) (rewardIds : list string) (s : Store) :
  let result :=
    fst (processRewards Store findReward updateReward addUserCredit
           createDiscountCoupon grantFreeAdSlot today rewardIds s) in
  (processed result + failed result = length rewardIds)%nat
  /\ length (errors result) = failed result.
Proof.
  cbv zeta. unfold processRewards.
  pose proof (process_loop_counts Store findReward updateReward
                addUserCredit createDiscountCoupon grantFreeAdSlot today
                rewardIds {| processed := 0; failed := 0; errors := [] |} s)
    as Hloop.
  cbv zeta in Hloop. cbn in Hloop. lia.
Qed.

(** With the mock persistence of the repository every id fails as not
    found. *)
Example processRewards_mock :
  Mock.processRewards (num := float) InvalidDate ["r1"; "r2"]
  = {| processed := 0; failed := 2;
       errors := ["Reward r1 not found"; "Reward r2 not found"] |}.
Proof. reflexivity. Qed.

(** * Further properties of the code *)

(** ** Time of day *)

(** The weekday branches of [getTimeMultiplier], by the hour. *)
Lemma getTimeMultiplier_weekday {num} `{JSNumber num}
    (hour day : Z) :
  day <> 0 -> day <> 6 ->
  getTimeMultiplier (LocalTime hour day) =
    if (18 <=? hour) && (hour <? 22) then TIME_MULTIPLIERS PRIME_TIME
    else if (9 <=? hour) && (hour <? 17) then TIME_MULTIPLIERS BUSINESS_HOURS
    else if hour =? 17 then TIME_MULTIPLIERS EVENING
    else if (6 <=? hour) && (hour <? 9) then TIME_MULTIPLIERS MORNING
    else TIME_MULTIPLIERS LATE_NIGHT.
Proof.
  intros H0 H6. unfold getTimeMultiplier.
  cbn [getHours getDay eq_int ge_int lt_int].
  destruct (Z.eqb_spec day 0) as [|_]; [contradiction |].
  destruct (Z.eqb_spec day 6) as [|_]; [contradiction |].
  cbn [orb].
  destruct (Z.leb_spec 18 hour), (Z.ltb_spec hour 22), (Z.leb_spec 9 hour),
    (Z.ltb_spec hour 17), (Z.leb_spec 17 hour), (Z.ltb_spec hour 21),
    (Z.leb_spec 6 hour), (Z.ltb_spec hour 9), (Z.eqb_spec hour 17);
    cbn [andb]; try reflexivity; lia.
Qed.

(** X1: on a weekday the multiplier is read off the hour: prime time from 18h
    to 21h, business hours from 9h to 16h, morning from 6h to 8h, late
    night otherwise; the evening multiplier, whose test covers 17h to 20h,
    is reached at 17h only, the later hours being taken by prime time. *)
Theorem getTimeMultiplier_weekday_bands {num} `{JSNumber num}
    (hour day : Z) :
  day <> 0 -> day <> 6 ->
  getTimeMultiplier (LocalTime hour day) =
    if (18 <=? hour) && (hour <? 22) then TIME_MULTIPLIERS PRIME_TIME
    else if (9 <=? hour) && (hour <? 17) then TIME_MULTIPLIERS BUSINESS_HOURS
    else if hour =? 17 then TIME_MULTIPLIERS EVENING
    else if (6 <=? hour) && (hour <? 9) then TIME_MULTIPLIERS MORNING
    else TIME_MULTIPLIERS LATE_NIGHT.
Proof. exact (getTimeMultiplier_weekday hour day). Qed.

Lemma getTimeMultiplier_weekday_bands_witness :
  getTimeMultiplier (num := float) (LocalTime 20 3)
  = TIME_MULTIPLIERS PRIME_TIME.
Proof.
  assert (H0 : 3 <> 0) by discriminate.
  assert (H6 : 3 <> 6) by discriminate.
  exact (getTimeMultiplier_weekday_bands 20 3 H0 H6).
Defined.

(** X2: a start date that is not a date (the route lets an unparseable string
    through) is priced exactly like a weekday start in the late night, for
    every slot type. *)
Theorem invalid_start_priced_late_night {num} `{JSNumber num}
    (r : PricingRequest num) (hour day : Z) :
  (hour < 6 \/ 22 <= hour) -> day <> 0 -> day <> 6 ->
  calculatePrice (with_start r InvalidDate)
  = calculatePrice (with_start r (LocalTime hour day)).
Proof.
  intros Hh H0 H6.
  unfold calculatePrice, with_start. cbv zeta.
  cbn [slotType duration countryCode startDate adFormat isAiGenerated].
  rewrite (getTimeMultiplier_weekday hour day H0 H6).
  rewrite !getDemandMultiplier_cases.
  cbn [getHours ge_int lt_int andb].
  assert (E1 : (18 <=? hour) && (hour <? 22) = false) by
    (destruct (Z.leb_spec 18 hour), (Z.ltb_spec hour 22); cbn;
     try reflexivity; lia).
  assert (E2 : (9 <=? hour) && (hour <? 17) = false) by
    (destruct (Z.leb_spec 9 hour), (Z.ltb_spec hour 17); cbn;
     try reflexivity; lia).
  assert (E3 : (hour =? 17) = false) by (apply Z.eqb_neq; lia).
  assert (E4 : (6 <=? hour) && (hour <? 9) = false) by
    (destruct (Z.leb_spec 6 hour), (Z.ltb_spec hour 9); cbn;
     try reflexivity; lia).
  rewrite E1, E2, E3, E4.
  assert (Et : getTimeMultiplier (num := num) InvalidDate
               = TIME_MULTIPLIERS LATE_NIGHT) by reflexivity.
  rewrite Et.
  destruct (String.eqb (slotType r) "top_center"); reflexivity.
Qed.

Lemma invalid_start_priced_late_night_witness :
  calculatePrice (num := float) (with_start testRequest InvalidDate)
  = calculatePrice (with_start testRequest (LocalTime 23 2)).
Proof.
  assert (Hh : 23 < 6 \/ 22 <= 23) by (right; discriminate).
  assert (H0 : 2 <> 0) by discriminate.
  assert (H6 : 2 <> 6) by discriminate.
  exact (invalid_start_priced_late_night testRequest 23 2 Hh H0 H6).
Defined.

(** X3: on a Saturday or a Sunday the price of a slot other than top_center
    does not depend on the hour. *)
Theorem weekend_price_ignores_hour {num} `{JSNumber num}
    (r : PricingRequest num) (hour1 hour2 day : Z) :
  slotType r <> AD_SLOT_TYPES.TOP_CENTER ->
  day = 0 \/ day = 6 ->
  calculatePrice (with_start r (LocalTime hour1 day))
  = calculatePrice (with_start r (LocalTime hour2 day)).
Proof.
  intros Hslot Hday.
  unfold calculatePrice, with_start. cbv zeta.
  cbn [slotType duration countryCode startDate adFormat isAiGenerated].
  rewrite !getDemandMultiplier_cases.
  apply String.eqb_neq in Hslot.
  change AD_SLOT_TYPES.TOP_CENTER with "top_center"%string in Hslot.
  rewrite Hslot.
  assert (Et : forall h, getTimeMultiplier (num := num) (LocalTime h day)
                         = TIME_MULTIPLIERS WEEKEND)
    by (intros h; destruct Hday as [-> | ->]; reflexivity).
  rewrite !Et. reflexivity.
Qed.

Lemma weekend_price_ignores_hour_witness :
  calculatePrice (num := float)
    (with_start (sampleRequest 0 3 true) (LocalTime 19 6))
  = calculatePrice (with_start (sampleRequest 0 3 true) (LocalTime 3 6)).
Proof.
  assert (Hslot : slotType (sampleRequest (num := float) 0 3 true)
                  <> AD_SLOT_TYPES.TOP_CENTER) by discriminate.
  exact (weekend_price_ignores_hour (sampleRequest 0 3 true) 19 3 6 Hslot
           (or_intror eq_refl)).
Defined.

(** For top_center the hour still counts on a weekend, through the demand
    multiplier. *)
Example weekend_top_center_depends_on_hour :
  total (calculatePrice (num := float)
           (with_start testRequest (LocalTime 19 6))) = lit 390.9
  /\ total (calculatePrice (num := float)
              (with_start testRequest (LocalTime 3 6))) = lit 221.61.
Proof. split; vm_compute; reflexivity. Qed.

(** ** Amounts that are not numbers *)

Section NaNPropagation.

Lemma float_mul_nan_l (y : float) :
  PrimFloat.mul PrimFloat.nan y = PrimFloat.nan.
Proof. apply Prim2SF_inj. rewrite mul_spec. reflexivity. Qed.

Lemma float_mul_nan_r (x : float) :
  PrimFloat.mul x PrimFloat.nan = PrimFloat.nan.
Proof.
  apply Prim2SF_inj. rewrite mul_spec.
  change (Prim2SF PrimFloat.nan) with S754_nan.
  destruct (Prim2SF x); reflexivity.
Qed.

Lemma float_add_nan_l (y : float) :
  PrimFloat.add PrimFloat.nan y = PrimFloat.nan.
Proof. apply Prim2SF_inj. rewrite add_spec. reflexivity. Qed.

Lemma float_div_nan_l (y : float) :
  PrimFloat.div PrimFloat.nan y = PrimFloat.nan.
Proof. apply Prim2SF_inj. rewrite div_spec. reflexivity. Qed.

(** What [calculatePrice] makes of a slot type without a tier. *)
Lemma unmapped_slot_NaN (r : PricingRequest float) :
  SLOT_TIER_MAPPING !! slotType r = None ->
  let result := calculatePrice r in
  total result = NaN /\ dailyRate result = NaN
  /\ Breakdown.subtotal (breakdown result) = NaN
  /\ Breakdown.baseRate (breakdown result) = BASE_RATES_BOTTOM_TIER
  /\ Breakdown.slotMultiplier (breakdown result) = None.
Proof.
  intros Hm. unfold calculatePrice. cbv zeta. rewrite Hm.
  cbn [fmap option_fmap option_map toNumber getBaseRate mul add div NaN
       binary64 total dailyRate breakdown Breakdown.subtotal
       Breakdown.baseRate Breakdown.slotMultiplier Math_round].
  rewrite float_mul_nan_r.
  repeat rewrite ?float_mul_nan_l, ?float_add_nan_l, ?float_div_nan_l.
  repeat split.
Qed.

(** X4: a slot type outside the tier mapping is not refused: the base rate
    falls back to the bottom tier, the slot multiplier is undefined, and
    the subtotal, the total and the dailyRate are NaN whatever the other
    fields are. *)
Theorem unmapped_slot_prices_NaN (r : PricingRequest float) :
  SLOT_TIER_MAPPING !! slotType r = None ->
  let result := calculatePrice r in
  total result = NaN /\ dailyRate result = NaN
  /\ Breakdown.subtotal (breakdown result) = NaN
  /\ Breakdown.baseRate (breakdown result) = BASE_RATES_BOTTOM_TIER
  /\ Breakdown.slotMultiplier (breakdown result) = None.
Proof. exact (unmapped_slot_NaN r). Qed.

Lemma unmapped_slot_prices_NaN_witness :
  SLOT_TIER_MAPPING !! slotType (with_slot (testRequest (num := float))
                                   "TOP_CENTER") = None
  /\ total (calculatePrice (with_slot (testRequest (num := float))
                              "TOP_CENTER")) = NaN.
Proof.
  split; [reflexivity |].
  exact (proj1 (unmapped_slot_prices_NaN
                  (with_slot testRequest "TOP_CENTER") eq_refl)).
Defined.

End NaNPropagation.

(** ** The discount and the country tables *)

(** X5: in binary64 the discount factor lies between 0.8 and 1.0 for every
    duration, and a duration that is not at least 3 (NaN included) gets no
    discount. *)
Theorem getDurationDiscount_bounds_binary64 (d : float) :
  leb (lit 0.8) (getDurationDiscount d) = true
  /\ leb (getDurationDiscount d) (lit 1.0) = true
  /\ (geb d (lit 3) = false -> getDurationDiscount d = lit 1.0).
Proof.
  unfold leb, getDurationDiscount. cbn [geb binary64].
  repeat match goal with
  | |- context [PrimFloat.leb ?k d] => destruct (PrimFloat.leb k d) eqn:?
  end; repeat split;
    first
      [ reflexivity
      | intros E; first [discriminate E | reflexivity]
      | intros _; exfalso;
        match goal with
        | H1 : PrimFloat.leb ?k d = true, H2 : PrimFloat.leb ?j d = false
          |- _ =>
            rewrite (float_leb_trans j k d eq_refl H1) in H2; discriminate H2
        end ].
Qed.

(** X6: in binary64 a longer campaign never gets a larger discount factor:
    the factor is antitone in the duration, for the comparison the program
    itself makes. *)
Theorem getDurationDiscount_antitone_float (d1 d2 : float) :
  leb d1 d2 = true ->
  leb (getDurationDiscount d2) (getDurationDiscount d1) = true.
Proof. exact (getDurationDiscount_antitone_binary64 d1 d2). Qed.

Lemma getDurationDiscount_antitone_float_witness :
  leb (getDurationDiscount (lit 30 : float)) (getDurationDiscount (lit 2.5))
  = true.
Proof.
  exact (getDurationDiscount_antitone_float (lit 2.5) (lit 30) eq_refl).
Defined.

(** X7: every listed country is priced at its own multiplier, in either
    arithmetic: no entry of the table is shadowed by another or replaced
    by the default. *)
Theorem listed_country_multiplier :
  (forall (c : string) (m : float),
     (c, m) ∈ GEO_COUNTRIES -> getGeoMultiplier c = Listed m)
  /\ (forall (c : string) (m : xnum),
        (c, m) ∈ GEO_COUNTRIES -> getGeoMultiplier c = Listed m).
Proof.
  split; intros c m Hin;
    repeat (apply elem_of_cons in Hin as [Hin | Hin];
      [injection Hin as -> ->; reflexivity |]);
    now apply elem_of_nil in Hin.
Qed.

Lemma listed_country_multiplier_witness :
  getGeoMultiplier (num := float) "KE" = Listed (lit 0.7).
Proof.
  assert (Hin : (("KE" : string), (lit 0.7 : float)) ∈ GEO_COUNTRIES)
    by (unfold GEO_COUNTRIES; do 12 apply list_elem_of_further;
        apply list_elem_of_here).
  exact (proj1 listed_country_multiplier "KE" (lit 0.7) Hin).
Defined.

(** ** A floor under the price *)

Section PriceFloor.
Open Scope Q_scope.

Lemma getGeoMultiplier_exact_min (c : string) :
  c ∉ Object_prototype ->
  exists g : Q,
    getGeoMultiplier (num := xnum) c = Listed (XFin g) /\ 0.7 <= g.
Proof.
  intros Hp. unfold getGeoMultiplier, GEO_MULTIPLIERS_at.
  destruct (GEO_MULTIPLIERS !! c) as [m |] eqn:E.
  - apply elem_of_list_to_map_2 in E.
    repeat (apply elem_of_cons in E as [E | E];
      [injection E as _ ->; eexists; split; [reflexivity | discriminate] |]).
    now apply elem_of_nil in E.
  - rewrite bool_decide_eq_false_2 by assumption.
    eexists; split; [reflexivity | discriminate].
Qed.

Lemma getTimeMultiplier_exact_min (d : Date) :
  exists t : Q, getTimeMultiplier (num := xnum) d = XFin t /\ 0.6 <= t.
Proof.
  unfold getTimeMultiplier.
  split_conditions; eexists; (split; [reflexivity | discriminate]).
Qed.

Lemma FORMAT_MULTIPLIERS_exact_min (f : AdFormat) :
  exists m : Q, FORMAT_MULTIPLIERS (num := xnum) f = XFin m /\ 0.8 <= m.
Proof. destruct f; eexists; (split; [reflexivity | discriminate]). Qed.

Lemma getDemandMultiplier_exact_min (s : string) (d : Date) :
  exists m : Q, getDemandMultiplier (num := xnum) s d = XFin m /\ 1 <= m.
Proof.
  rewrite getDemandMultiplier_cases.
  split_conditions; eexists; (split; [reflexivity | discriminate]).
Qed.

Lemma tier_rates_exact_min (tier : SlotTier) :
  exists b sm : Q,
    getBaseRate (num := xnum) (Some tier) = XFin b
    /\ SLOT_MULTIPLIERS (num := xnum) tier = XFin sm
    /\ 5 <= b /\ 1 <= sm.
Proof.
  destruct tier; do 2 eexists;
    (split; [reflexivity |]); (split; [reflexivity |]); split; discriminate.
Qed.


Lemma Qmult_le_mono (a b x y : Q) :
  0 <= a -> a <= x -> 0 <= b -> b <= y -> a * b <= x * y.
Proof.
  intros. apply Qmult_le_compat_nonneg; split; assumption.
Qed.



(** The total of a request with a mapped slot type, as a function of the
    duration: a daily rate of at least 1.68 before the discount, times the
    discount, the demand multiplier and the days, plus the bonus. *)
Lemma total_by_duration_exact (r : PricingRequest xnum) :
  is_Some (SLOT_TIER_MAPPING !! slotType r) ->
  countryCode r ∉ Object_prototype ->
  exists rate m bonus : Q,
    1.68 <= rate /\ 1 <= m
    /\ forall d : Q,
         total (calculatePrice (with_duration r (XFin d)))
         = XFin (inject_Z
                   (Qfloor ((rate * discount_of d * m * d + bonus) * 100
                            + (1 # 2)))
                 / 100).
Proof.
  intros [tier Hm] Hp.
  destruct (getGeoMultiplier_exact_min (countryCode r) Hp)
    as (g & Hg & Hgm).
  destruct (getTimeMultiplier_exact_min (startDate r)) as (t & Ht & Htm).
  destruct (FORMAT_MULTIPLIERS_exact_min (adFormat r)) as (f & Hf & Hfm).
  destruct (getDemandMultiplier_exact_min (slotType r) (startDate r))
    as (m & Hd & Hmm).
  destruct (tier_rates_exact_min tier) as (b & sm & Hb & Hs & Hbm & Hsm).
  exists (b * sm * g * t * f), m,
         (if flag_set (isAiGenerated r) then 10 else 0).
  split; [| split; [exact Hmm |]].
  - apply Qle_trans with (5 * 1 * 0.7 * 0.6 * 0.8);
      [apply Qle_bool_iff; reflexivity |].
    repeat (apply Qmult_le_mono;
            [apply Qle_bool_iff; reflexivity | | discriminate | assumption]).
    assumption.
  - intros d. rewrite calculatePrice_factors.
    unfold price_with_geo, with_duration.
    cbn [slotType duration countryCode startDate adFormat isAiGenerated].
    rewrite Hm, Hg, Ht, Hf, Hd, getDurationDiscount_exact.
    cbn [fmap option_fmap option_map]. rewrite Hb, Hs.
    unfold price_of_factors, round2. cbn [total toNumber Number_of].
    destruct (flag_set (isAiGenerated r));
      cbn [FORMAT_MULTIPLIERS mul add div Math_round lit exact
           Exact.mul Exact.add Exact.round];
      now rewrite div_finite by reflexivity.
Qed.

(** In exact arithmetic a campaign of 28.3 days or more but under 30
    costs more in total than the 30-day campaign, which is the first to
    get the 0.80 factor. *)
Lemma total_drops_at_30_days_exact (r : PricingRequest xnum) (d : Q) :
  is_Some (SLOT_TIER_MAPPING !! slotType r) ->
  countryCode r ∉ Object_prototype -> 28.3 <= d -> d < 30 ->
  exists shorter longer : Q,
    total (calculatePrice (with_duration r (XFin d))) = XFin shorter
    /\ total (calculatePrice (with_duration r (XFin 30))) = XFin longer
    /\ longer < shorter.
Proof.
  intros Hs Hp Hlo Hhi.
  destruct (total_by_duration_exact r Hs Hp)
    as (rate & m & bonus & Hr & Hm & Ht).
  do 2 eexists. split; [apply Ht |]. split; [apply Ht |].
  assert (Ed : discount_of d = 0.85).
  { unfold discount_of.
    destruct (Qle_bool 30 d) eqn:E30;
      [apply Qle_bool_iff in E30; lra |].
    destruct (Qle_bool 14 d) eqn:E14; [reflexivity |].
    apply Qle_bool_false in E14. lra. }
  assert (E30 : discount_of 30 = 0.80) by reflexivity.
  rewrite Ed, E30.
  assert (Hk : 1.68 * 1 <= rate * m)
    by (apply Qmult_le_mono; [discriminate | assumption | discriminate
                             | assumption]).
  assert (Hgap : 1.68 * 1 * 0.055 <= rate * m * (0.85 * d - 24)).
  { apply Qmult_le_mono; [discriminate | assumption | discriminate | lra]. }
  set (a := (rate * 0.80 * m * 30 + bonus) * 100 + (1 # 2)).
  set (b := (rate * 0.85 * m * d + bonus) * 100 + (1 # 2)).
  assert (Hab : a + inject_Z 1 <= b).
  { unfold a, b. change (inject_Z 1) with 1.
    assert (E : rate * 0.85 * m * d - rate * 0.80 * m * 30
                == rate * m * (0.85 * d - 24)) by ring.
    lra. }
  apply Qfloor_resp_le in Hab. rewrite Qfloor_plus_Z in Hab.
  unfold Qdiv. apply Qmult_lt_compat_r; [reflexivity |].
  rewrite <- Zlt_Qlt. lia.
Qed.

End PriceFloor.

(** *** The same drop in binary64 *)

Section EveryPricing.

Lemma every_pricing_sound (test : (float -> PricingResult float) -> bool) :
  every_pricing test = true ->
  forall tier g t f m flag,
    In g geo_values -> In t time_values -> In m demand_values ->
    test (price_at tier g t f m flag) = true.
Proof.
  unfold every_pricing. intros Hall tier g t f m flag Hg Ht Hm.
  rewrite forallb_forall in Hall.
  assert (Htier : In tier tier_values) by (destruct tier; cbn; tauto).
  specialize (Hall tier Htier). rewrite forallb_forall in Hall.
  specialize (Hall g Hg). rewrite forallb_forall in Hall.
  specialize (Hall t Ht). rewrite forallb_forall in Hall.
  assert (Hf : In f format_values) by (destruct f; cbn; tauto).
  specialize (Hall f Hf). rewrite forallb_forall in Hall.
  specialize (Hall m Hm). rewrite forallb_forall in Hall.
  apply Hall. destruct flag; cbn; tauto.
Qed.

(** In binary64 every price of a mapped slot type under a country code
    that reads a number is a price of the table of values. *)
Lemma calculatePrice_price_at (r : PricingRequest float) (tier : SlotTier) :
  SLOT_TIER_MAPPING !! slotType r = Some tier ->
  countryCode r ∉ Object_prototype ->
  exists g t m,
    In g geo_values /\ In t time_values /\ In m demand_values
    /\ forall d,
         calculatePrice (with_duration r d)
         = price_at tier g t (adFormat r) m (flag_set (isAiGenerated r)) d.
Proof.
  intros Hm Hp.
  destruct (getGeoMultiplier_number (num := float) (countryCode r) Hp)
    as (g & Hg & Hwhich).
  exists g, (getTimeMultiplier (startDate r)),
         (getDemandMultiplier (slotType r) (startDate r)).
  split.
  { destruct Hwhich as [-> | Hin]; [cbn; tauto |].
    unfold GEO_COUNTRIES in Hin.
    repeat (apply elem_of_cons in Hin as [Hin | Hin];
      [injection Hin as _ ->; cbn; tauto |]).
    now apply elem_of_nil in Hin. }
  split; [unfold getTimeMultiplier; split_conditions; cbn; tauto |].
  split; [rewrite getDemandMultiplier_cases; split_conditions; cbn; tauto |].
  intros d. rewrite calculatePrice_factors.
  unfold price_with_geo, with_duration, price_at.
  cbn [slotType duration countryCode startDate adFormat isAiGenerated].
  rewrite Hm, Hg. reflexivity.
Qed.

Lemma every_pricing_drops : every_pricing drop_test = true.
Proof. vm_compute. reflexivity. Qed.

Lemma total_drops_at_30_days_binary64 (r : PricingRequest float) :
  is_Some (SLOT_TIER_MAPPING !! slotType r) ->
  countryCode r ∉ Object_prototype ->
  PrimFloat.ltb (total (calculatePrice (with_duration r (lit 30))))
                (total (calculatePrice (with_duration r (lit 29)))) = true.
Proof.
  intros [tier Hm] Hp.
  destruct (calculatePrice_price_at r tier Hm Hp)
    as (g & t & m & Hg & Ht & Hd & Hprice).
  rewrite !Hprice.
  exact (every_pricing_sound drop_test every_pricing_drops tier g t
           (adFormat r) m (flag_set (isAiGenerated r)) Hg Ht Hd).
Qed.

End EveryPricing.

(** X9: the total is not monotone in the duration, for every slot type of
    the mapping, every country code that is not the name of a member
    inherited from Object.prototype, and every start, format and flag.  In
    exact arithmetic a campaign of 28.3 days or more but under 30 costs
    more in total than the 30-day campaign, which is the first to get the
    0.80 factor; and in binary64, the arithmetic of the program, the total
    returned for 30 days is under the total returned for 29 days. *)
Theorem total_drops_at_30_days :
  (forall (r : PricingRequest xnum) (d : Q),
     is_Some (SLOT_TIER_MAPPING !! slotType r) ->
     countryCode r ∉ Object_prototype -> (28.3 <= d)%Q -> (d < 30)%Q ->
     exists shorter longer : Q,
       total (calculatePrice (with_duration r (XFin d))) = XFin shorter
       /\ total (calculatePrice (with_duration r (XFin 30))) = XFin longer
       /\ (longer < shorter)%Q)
  /\ (forall r : PricingRequest float,
        is_Some (SLOT_TIER_MAPPING !! slotType r) ->
        countryCode r ∉ Object_prototype ->
        PrimFloat.ltb
          (total (calculatePrice (with_duration r (lit 30))))
          (total (calculatePrice (with_duration r (lit 29)))) = true).
Proof.
  split.
  - exact total_drops_at_30_days_exact.
  - exact total_drops_at_30_days_binary64.
Qed.

Lemma total_drops_at_30_days_witness :
  PrimFloat.ltb
    (total (calculatePrice
              (with_duration (sampleRequest (num := float) 2 1 false)
                 (lit 30))))
    (total (calculatePrice
              (with_duration (sampleRequest (num := float) 2 1 false)
                 (lit 29)))) = true.
Proof.
  assert (Hs : is_Some (SLOT_TIER_MAPPING
             !! slotType (sampleRequest (num := float) 2 1 false)))
    by (exists TOP; reflexivity).
  assert (Hp : countryCode (sampleRequest (num := float) 2 1 false)
               ∉ Object_prototype) by not_in_list.
  exact (proj2 total_drops_at_30_days (sampleRequest 2 1 false) Hs Hp).
Defined.

(** The sample request costs 465.88 for 29 days and 453.6 for 30. *)
Example sample_total_29_and_30_days :
  total (calculatePrice (num := float)
           (with_duration (sampleRequest 2 1 false) (lit 29)))
  = lit 465.88
  /\ total (calculatePrice (num := float)
              (with_duration (sampleRequest 2 1 false) (lit 30)))
     = lit 453.6.
Proof. split; vm_compute; reflexivity. Qed.

(** ** What the validation lets through *)

(** What a successful parse says about the body, field by field. *)
Lemma pricingRequestSchema_parse_inv {num} `{JSNumber num}
    (Date_parse : string -> Date) (ZodError_message : list string -> string)
    (req_body : json num) (v : ValidatedData num) :
  pricingRequestSchema_parse Date_parse ZodError_message req_body = inr v ->
  exists fields,
    req_body = JObject fields
    /\ property fields "slotType" = JString (v_slotType v)
    /\ property fields "duration" = JNumber (v_duration v)
    /\ eqb (v_duration v) (v_duration v) = true
    /\ geb (v_duration v) (lit 1) = true
    /\ leb (v_duration v) (lit 30) = true
    /\ property fields "countryCode" = JString (v_countryCode v)
    /\ String_length (v_countryCode v) = 2%nat
    /\ (exists s, property fields "startDate" = JString s
                  /\ v_startDate v = Date_parse s)
    /\ v_adFormat v <> AI_GENERATED_BONUS
    /\ (property fields "isAiGenerated" = JBool (v_isAiGenerated v)
        \/ property fields "isAiGenerated" = JUndefined
           /\ v_isAiGenerated v = false).
Proof.
  intros Hparse. destruct req_body as [| | | | | | fields];
    try discriminate Hparse.
  exists fields. split; [reflexivity |].
  unfold pricingRequestSchema_parse in Hparse.
  destruct (z_string (property fields "slotType")) as [s |] eqn:Es;
    [| repeat match type of Hparse with
       | context [match ?c with Some _ => _ | None => _ end] => destruct c
       end; discriminate Hparse].
  destruct (z_duration (property fields "duration")) as [d |] eqn:Ed;
    [| repeat match type of Hparse with
       | context [match ?c with Some _ => _ | None => _ end] => destruct c
       end; discriminate Hparse].
  destruct (z_countryCode (property fields "countryCode")) as [c |] eqn:Ec;
    [| repeat match type of Hparse with
       | context [match ?c with Some _ => _ | None => _ end] => destruct c
       end; discriminate Hparse].
  destruct (z_startDate Date_parse (property fields "startDate"))
    as [t |] eqn:Et;
    [| repeat match type of Hparse with
       | context [match ?c with Some _ => _ | None => _ end] => destruct c
       end; discriminate Hparse].
  destruct (z_adFormat (property fields "adFormat")) as [f |] eqn:Ef;
    [| repeat match type of Hparse with
       | context [match ?c with Some _ => _ | None => _ end] => destruct c
       end; discriminate Hparse].
  destruct (z_isAiGenerated (property fields "isAiGenerated"))
    as [a |] eqn:Ea; [| discriminate Hparse].
  injection Hparse as <-. cbn.
  unfold z_string in Es. unfold z_duration in Ed.
  unfold z_countryCode in Ec. unfold z_startDate in Et.
  unfold z_adFormat in Ef. unfold z_isAiGenerated in Ea.
  destruct (property fields "slotType"); try discriminate Es.
  injection Es as ->.
  destruct (property fields "duration") as [| | | n | | |];
    try discriminate Ed.
  destruct (eqb n n) eqn:Enn; [| discriminate Ed].
  destruct (geb n (lit 1)) eqn:Eg; [| discriminate Ed].
  destruct (leb n (lit 30)) eqn:El; [| discriminate Ed].
  injection Ed as ->.
  destruct (property fields "countryCode") as [| | | | c0 | |];
    try discriminate Ec.
  destruct (Nat.eqb_spec (String_length c0) 2) as [Hlen |];
    [| discriminate Ec].
  injection Ec as ->.
  destruct (property fields "startDate") as [| | | | s0 | |];
    try discriminate Et.
  injection Et as <-.
  repeat (split; [first [reflexivity | assumption] |]).
  split; [exists s0; split; reflexivity |].
  split.
  - destruct (property fields "adFormat") as [| | | | s1 | |];
      try discriminate Ef.
    repeat (destruct (String.eqb s1 _); [injection Ef as <-; discriminate |]).
    discriminate Ef.
  - destruct (property fields "isAiGenerated") as [| | b | | | |];
      try discriminate Ea; injection Ea as <-; auto.
Qed.

(** No member of [Object.prototype] has a name of two code units. *)
Lemma two_units_not_inherited (c : string) :
  String_length c = 2%nat -> c ∉ Object_prototype.
Proof.
  intros Hlen Hin. unfold Object_prototype in Hin.
  repeat (apply elem_of_cons in Hin as [-> | Hin]; [discriminate Hlen |]).
  now apply elem_of_nil in Hin.
Qed.

(** X10: what the validation of POST /calculate guarantees the engine.  A
    body that passes the schema has a country code of exactly two UTF-16
    code units, which no member of Object.prototype has for a name: the
    answer is status 200 and the geoMultiplier it records is a number, the
    listed multiplier of the country or the default 1.0, never an
    inherited member.  Its duration is a number that is not NaN and lies
    between 1 and 30, and its ad format is not the bonus key. *)
Theorem post_calculate_country_reads_number {num} `{JSNumber num}
    (Date_parse : string -> Date) (ZodError_message : list string -> string)
    (req_body : json num) (v : ValidatedData num) (w : World) :
  pricingRequestSchema_parse Date_parse ZodError_message req_body = inr v ->
  String_length (v_countryCode v) = 2%nat
  /\ (v_countryCode v ∉ Object_prototype)
  /\ (exists result m,
        post_calculate Date_parse ZodError_message req_body w
        = ({| status := 200; body := SuccessBody result |}, w)
        /\ Breakdown.geoMultiplier (breakdown result) = Listed m
        /\ (m = lit 1.0 \/ (v_countryCode v, m) ∈ GEO_COUNTRIES))
  /\ eqb (v_duration v) (v_duration v) = true
  /\ geb (v_duration v) (lit 1) = true
  /\ leb (v_duration v) (lit 30) = true
  /\ v_adFormat v <> AI_GENERATED_BONUS.
Proof.
  intros Hparse.
  destruct (pricingRequestSchema_parse_inv _ _ _ _ Hparse)
    as (fields & _ & _ & _ & Hnum & Hmin & Hmax & _ & Hlen & _ & Hformat & _).
  pose proof (two_units_not_inherited _ Hlen) as Hp.
  split; [exact Hlen |]. split; [exact Hp |].
  split; [| repeat split; assumption].
  destruct (getGeoMultiplier_number (v_countryCode v) Hp) as (m & Hm & Hwhich).
  exists (calculatePrice (pricingRequest_of v)), m.
  unfold post_calculate. rewrite Hparse.
  split; [reflexivity |]. split; [exact Hm | exact Hwhich].
Qed.

Lemma post_calculate_country_reads_number_witness :
  exists result m,
    post_calculate monday_evening (String.concat ",")
      (sampleBody (num := float) "top_center" 3)
      {| now := InvalidDate; console := [] |}
    = ({| status := 200; body := SuccessBody result |},
       {| now := InvalidDate; console := [] |})
    /\ Breakdown.geoMultiplier (breakdown result) = Listed m.
Proof.
  assert (Hparse :
    pricingRequestSchema_parse monday_evening (String.concat ",")
      (sampleBody (num := float) "top_center" 3)
    = inr {| v_slotType := "top_center"; v_duration := lit 3;
             v_countryCode := "US"; v_startDate := LocalTime 19 1;
             v_adFormat := VIDEO; v_isAiGenerated := true |})
    by (vm_compute; reflexivity).
  destruct (post_calculate_country_reads_number _ _ _ _
              {| now := InvalidDate; console := [] |} Hparse)
    as (_ & _ & (result & m & Hanswer & Hgeo & _) & _).
  exists result, m. split; [exact Hanswer | exact Hgeo].
Defined.

(** The length is counted in UTF-16 code units, not in bytes or
    characters: a country code of two accented letters passes, one
    accented letter does not, and one character outside the basic plane
    passes. *)
Example z_countryCode_units :
  z_countryCode (num := float) (JString "éé") = Some "éé"%string
  /\ z_countryCode (num := float) (JString "é") = None
  /\ z_countryCode (num := float) (JString "😀") = Some "😀"%string
  /\ z_countryCode (num := float) (JString "USA") = None.
Proof. repeat split. Qed.

(** X11: /calculate does not check the slot type against the tier mapping: a
    body that is valid but names an unmapped slot type is answered with
    status 200 and success:true, and the total and dailyRate it carries are
    NaN. *)
Theorem post_calculate_unmapped_slot
    (Date_parse : string -> Date) (ZodError_message : list string -> string)
    (req_body : json float) (v : ValidatedData float) (w : World) :
  pricingRequestSchema_parse Date_parse ZodError_message req_body = inr v ->
  SLOT_TIER_MAPPING !! v_slotType v = None ->
  exists result,
    post_calculate Date_parse ZodError_message req_body w
    = ({| status := 200; body := SuccessBody result |}, w)
    /\ total result = NaN /\ dailyRate result = NaN.
Proof.
  intros Hparse Hslot. unfold post_calculate. rewrite Hparse.
  exists (calculatePrice (pricingRequest_of v)). split; [reflexivity |].
  destruct (unmapped_slot_NaN (pricingRequest_of v) Hslot)
    as (Htotal & Hdaily & _).
  split; assumption.
Qed.

Lemma post_calculate_unmapped_slot_witness :
  exists result,
    post_calculate monday_evening (String.concat ",")
      (sampleBody (num := float) "sidebar" 3)
      {| now := InvalidDate; console := [] |}
    = ({| status := 200; body := SuccessBody result |},
       {| now := InvalidDate; console := [] |})
    /\ total result = NaN /\ dailyRate result = NaN.
Proof.
  assert (Hparse :
    pricingRequestSchema_parse monday_evening (String.concat ",")
      (sampleBody (num := float) "sidebar" 3)
    = inr {| v_slotType := "sidebar"; v_duration := lit 3;
             v_countryCode := "US"; v_startDate := LocalTime 19 1;
             v_adFormat := VIDEO; v_isAiGenerated := true |})
    by (vm_compute; reflexivity).
  exact (post_calculate_unmapped_slot monday_evening (String.concat ",")
           (sampleBody "sidebar" 3) _
           {| now := InvalidDate; console := [] |} Hparse eq_refl).
Defined.

(** ** The bulk route *)

Section BulkFacts.
Context {num : Type} `{JSNumber num}.
Variable Date_parse : string -> Date.
Variable ZodError_message : list string -> string.
Variable TypeError_message : string.

Local Abbreviation parse :=
  (pricingRequestSchema_parse (num := num) Date_parse ZodError_message).
Local Abbreviation validate :=
  (validate_requests (num := num) Date_parse ZodError_message).

Lemma validate_requests_all (requests : list (json num)) :
  (forall request, request ∈ requests -> exists v, parse request = inr v) ->
  exists validated,
    validate requests = inr validated
    /\ Forall2 (fun request r =>
                  exists v, parse request = inr v /\ r = pricingRequest_of v)
         requests validated.
Proof.
  induction requests as [| request rest IH]; intros Hall.
  - exists []. split; [reflexivity | constructor].
  - destruct (Hall request) as [v Hv]; [apply list_elem_of_here |].
    destruct IH as (validated & Hrest & Hpair).
    { intros r Hr. apply Hall. now apply list_elem_of_further. }
    exists (pricingRequest_of v :: validated). split.
    + cbn. rewrite Hv, Hrest. reflexivity.
    + constructor; [exists v; split; [exact Hv | reflexivity] | exact Hpair].
Qed.

Lemma validate_requests_first_error (good : list (json num))
    (bad : json num) (rest : list (json num)) (error : Thrown) :
  (forall request, request ∈ good -> exists v, parse request = inr v) ->
  parse bad = inl error ->
  validate (good ++ bad :: rest) = inl error.
Proof.
  induction good as [| request good IH]; intros Hgood Hbad.
  - cbn. now rewrite Hbad.
  - destruct (Hgood request) as [v Hv]; [apply list_elem_of_here |].
    cbn. rewrite Hv.
    rewrite IH; [reflexivity | | exact Hbad].
    intros r Hr. apply Hgood. now apply list_elem_of_further.
Qed.

End BulkFacts.

(** X12: when every element of [requests] passes the schema, /bulk answers 200
    with one result per element, in order, each being the result that
    /calculate returns for that element; nothing is logged. *)
Theorem post_bulk_agrees_with_calculate {num} `{JSNumber num}
    (Date_parse : string -> Date) (ZodError_message : list string -> string)
    (TypeError_message : string)
    (req_body : json num) (requests : list (json num)) (w : World) :
  requests_of TypeError_message req_body = inr (JArray requests) ->
  (forall request, request ∈ requests ->
     exists v,
       pricingRequestSchema_parse Date_parse ZodError_message request
       = inr v) ->
  exists results,
    post_bulk Date_parse ZodError_message TypeError_message req_body w
    = ({| reply_status := 200; reply_body := inl results |}, w)
    /\ Forall2
         (fun request result =>
            post_calculate Date_parse ZodError_message request w
            = ({| status := 200; body := SuccessBody result |}, w))
         requests results.
Proof.
  intros Hreq Hall.
  destruct (validate_requests_all Date_parse ZodError_message requests Hall)
    as (validated & Hvalid & Hpair).
  exists (calculateBulkPricing validated). split.
  - unfold post_bulk. rewrite Hreq, Hvalid. reflexivity.
  - unfold calculateBulkPricing. clear Hreq Hall Hvalid.
    induction Hpair as [| request r requests' validated' Hone _ IH];
      cbn [map]; constructor; [| exact IH].
    destruct Hone as (v & Hv & ->). unfold post_calculate.
    rewrite Hv. reflexivity.
Qed.

Lemma post_bulk_agrees_with_calculate_witness :
  exists results,
    post_bulk monday_evening (String.concat ",") "no body"
      (JObject [("requests",
                 JArray [sampleBody (num := float) "top_center" 3;
                         sampleBody "sidebar" 30])])
      {| now := InvalidDate; console := [] |}
    = ({| reply_status := 200; reply_body := inl results |},
       {| now := InvalidDate; console := [] |})
    /\ length results = 2%nat.
Proof.
  destruct (post_bulk_agrees_with_calculate monday_evening
              (String.concat ",") "no body"
              (JObject [("requests",
                         JArray [sampleBody (num := float) "top_center" 3;
                                 sampleBody "sidebar" 30])])
              [sampleBody "top_center" 3; sampleBody "sidebar" 30]
              {| now := InvalidDate; console := [] |} eq_refl)
    as (results & Hreply & Hpair).
  - intros request Hin.
    apply elem_of_cons in Hin as [-> | Hin];
      [eexists; vm_compute; reflexivity |].
    apply elem_of_cons in Hin as [-> | Hin];
      [eexists; vm_compute; reflexivity |].
    now apply elem_of_nil in Hin.
  - exists results. split; [exact Hreply |].
    symmetry. exact (Forall2_length _ _ _ Hpair).
Defined.

(** X13: /bulk is all or nothing: when an element of [requests] fails the
    schema and the elements before it pass, the answer is status 400 with
    the message that /calculate gives for that element, no result is
    returned for any element, and one line is logged. *)
Theorem post_bulk_first_invalid {num} `{JSNumber num}
    (Date_parse : string -> Date) (ZodError_message : list string -> string)
    (TypeError_message : string)
    (req_body : json num) (good : list (json num)) (bad : json num)
    (rest : list (json num)) (error : Thrown) (w : World) :
  requests_of TypeError_message req_body
  = inr (JArray (good ++ bad :: rest)) ->
  (forall request, request ∈ good ->
     exists v,
       pricingRequestSchema_parse Date_parse ZodError_message request
       = inr v) ->
  pricingRequestSchema_parse Date_parse ZodError_message bad = inl error ->
  exists message,
    post_bulk Date_parse ZodError_message TypeError_message req_body w
    = ({| reply_status := 400; reply_body := inr message |},
       {| now := now w;
          console := console w ++ ["Bulk pricing error:"] |})
    /\ body (fst (post_calculate Date_parse ZodError_message bad w))
       = FailureBody message.
Proof.
  intros Hreq Hgood Hbad. exists (message_of error). split.
  - unfold post_bulk. rewrite Hreq.
    rewrite (validate_requests_first_error Date_parse ZodError_message
               good bad rest error Hgood Hbad).
    reflexivity.
  - unfold post_calculate. rewrite Hbad. reflexivity.
Qed.

Lemma post_bulk_first_invalid_witness :
  exists message,
    post_bulk monday_evening (String.concat ",") "no body"
      (JObject [("requests",
                 JArray [sampleBody (num := float) "top_center" 3;
                         sampleBody "top_center" 31;
                         sampleBody "top_center" 5])])
      {| now := InvalidDate; console := [] |}
    = ({| reply_status := 400; reply_body := inr message |},
       {| now := InvalidDate; console := ["Bulk pricing error:"] |}).
Proof.
  destruct (post_bulk_first_invalid monday_evening (String.concat ",")
              "no body"
              (JObject [("requests",
                         JArray [sampleBody (num := float) "top_center" 3;
                                 sampleBody "top_center" 31;
                                 sampleBody "top_center" 5])])
              [sampleBody "top_center" 3] (sampleBody "top_center" 31)
              [sampleBody "top_center" 5]
              (ErrorObject "duration")
              {| now := InvalidDate; console := [] |} eq_refl)
    as (message & Hreply & _).
  - intros request Hin.
    apply elem_of_cons in Hin as [-> | Hin];
      [eexists; vm_compute; reflexivity |].
    now apply elem_of_nil in Hin.
  - vm_compute. reflexivity.
  - exists message. exact Hreply.
Defined.

(** X14: a body that is not [undefined] or [null] and has no array under
    [requests] (an object without the property, a body that is itself an
    array or a string, ...) is refused with status 400 and a fixed message,
    before anything is validated; unlike a validation failure, this refusal
    is not logged. *)
Theorem post_bulk_requires_array {num} `{JSNumber num}
    (Date_parse : string -> Date) (ZodError_message : list string -> string)
    (TypeError_message : string) (req_body : json num) (w : World) :
  req_body <> JUndefined -> req_body <> JNull ->
  (forall fields items,
     req_body = JObject fields ->
     property fields "requests" <> JArray items) ->
  post_bulk Date_parse ZodError_message TypeError_message req_body w
  = ({| reply_status := 400;
        reply_body := inr "requests must be an array" |}, w).
Proof.
  intros Hu Hn Hnot. unfold post_bulk, requests_of.
  destruct req_body as [| | b | n | s | items | fields];
    try reflexivity; try contradiction.
  specialize (Hnot fields).
  destruct (property fields "requests") as [| | | | | items |];
    try reflexivity.
  now destruct (Hnot items).
Qed.

Lemma post_bulk_requires_array_witness :
  post_bulk (num := float) monday_evening (String.concat ",") "no body"
    (JArray [sampleBody "top_center" 3])
    {| now := InvalidDate; console := [] |}
  = ({| reply_status := 400;
        reply_body := inr "requests must be an array" |},
     {| now := InvalidDate; console := [] |}).
Proof.
  assert (Hu : JArray [sampleBody (num := float) "top_center" 3]
               <> JUndefined) by discriminate.
  assert (Hn : JArray [sampleBody (num := float) "top_center" 3] <> JNull)
    by discriminate.
  assert (Hnot : forall fields items,
            JArray [sampleBody (num := float) "top_center" 3]
            = JObject fields ->
            property fields "requests" <> JArray items)
    by (intros fields items E; discriminate E).
  exact (post_bulk_requires_array monday_evening (String.concat ",")
           "no body" (JArray [sampleBody "top_center" 3])
           {| now := InvalidDate; console := [] |} Hu Hn Hnot).
Defined.

(** ** The estimate route *)

(** A quick estimate is the total of the image request that starts now;
    the call changes nothing. *)
Lemma getQuickEstimate_total {num} `{JSNumber num}
    (slotType : string) (duration : num) (countryCode : string) (w : World) :
  getQuickEstimate slotType duration countryCode w
  = (total (calculatePrice
              {| slotType := slotType; duration := duration;
                 countryCode := countryCode; startDate := now w;
                 adFormat := IMAGE; isAiGenerated := Some false |}), w).
Proof. reflexivity. Qed.

Lemma NaN_duration_prices_NaN (r : PricingRequest float) :
  duration r = NaN -> total (calculatePrice r) = NaN.
Proof.
  intros Hd. unfold calculatePrice. cbv zeta. rewrite Hd.
  cbn [mul add div NaN binary64 total Math_round].
  rewrite float_mul_nan_r.
  repeat rewrite ?float_mul_nan_l, ?float_add_nan_l, ?float_div_nan_l.
  reflexivity.
Qed.

(** X15: /estimate does not validate the duration: when [parseInt] makes NaN
    of it (a duration that does not start with a number), the answer is
    still status 200 with success:true, and the estimate is NaN, for every
    slot type and country. *)
Theorem get_estimate_NaN_duration (parseInt : string -> float)
    (slotType duration : string) (countryCode : option string) (w : World) :
  slotType <> "" -> duration <> "" ->
  parseInt duration = NaN ->
  get_estimate parseInt (Some slotType) (Some duration) countryCode w
  = ({| reply_status := 200; reply_body := inl NaN |}, w).
Proof.
  intros Hs Hd Hnan. unfold get_estimate, query_given.
  apply String.eqb_neq in Hs. apply String.eqb_neq in Hd.
  rewrite Hs, Hd. cbn [negb orb default from_option].
  unfold mbind, IO_bind, Datatypes.id. rewrite getQuickEstimate_total, Hnan.
  rewrite NaN_duration_prices_NaN; reflexivity.
Qed.

Lemma get_estimate_NaN_duration_witness :
  get_estimate (fun _ : string => PrimFloat.nan) (Some "top_center")
    (Some "three") None {| now := LocalTime 10 2; console := [] |}
  = ({| reply_status := 200; reply_body := inl NaN |},
     {| now := LocalTime 10 2; console := [] |}).
Proof.
  assert (Hs : "top_center"%string <> ""%string) by discriminate.
  assert (Hd : "three"%string <> ""%string) by discriminate.
  exact (get_estimate_NaN_duration (fun _ => PrimFloat.nan) "top_center"
           "three" None {| now := LocalTime 10 2; console := [] |}
           Hs Hd eq_refl).
Defined.

(** ** Country codes that name inherited members *)

(** No member of [Object.prototype] has the name of a listed country. *)
Lemma inherited_not_listed (c : string) :
  c ∈ Object_prototype -> c ∉ (GEO_COUNTRIES (num := float)).*1.
Proof.
  intros Hp Hin. unfold Object_prototype in Hp.
  repeat (apply elem_of_cons in Hp as [-> | Hp];
    [repeat (apply elem_of_cons in Hin as [Hin | Hin];
       [discriminate Hin |]);
     now apply elem_of_nil in Hin |]).
  now apply elem_of_nil in Hp.
Qed.

(** C5: the claim fails on the country codes that name a member of
    Object.prototype (constructor, toString, valueOf, __proto__, ...).
    None of them is a listed country, yet GEO_MULTIPLIERS[countryCode]
    reads the inherited member, which is truthy, so || does not put the
    default in its place: the geoMultiplier recorded is that member, the
    total and the dailyRate are NaN, and the result is not the result of
    the request priced with 1.0. *)
Theorem calculatePrice_inherited_country (r : PricingRequest float) :
  countryCode r ∈ Object_prototype ->
  (countryCode r ∉ (GEO_COUNTRIES (num := float)).*1)
  /\ Breakdown.geoMultiplier (breakdown (calculatePrice r))
     = Inherited (countryCode r)
  /\ total (calculatePrice r) = NaN
  /\ dailyRate (calculatePrice r) = NaN
  /\ calculatePrice r <> price_with_geo (Listed (lit 1.0)) r.
Proof.
  intros Hp. split; [exact (inherited_not_listed _ Hp) |].
  rewrite calculatePrice_factors, (getGeoMultiplier_inherited _ Hp).
  split; [reflexivity |].
  unfold price_with_geo, price_of_factors, round2.
  cbn [total dailyRate Number_of mul add div NaN binary64 Math_round].
  rewrite float_mul_nan_r.
  repeat rewrite ?float_mul_nan_l, ?float_add_nan_l, ?float_div_nan_l.
  split; [reflexivity |]. split; [reflexivity |].
  intros Hsame.
  apply (f_equal (fun result => Breakdown.geoMultiplier (breakdown result)))
    in Hsame.
  discriminate Hsame.
Qed.

Lemma calculatePrice_inherited_country_witness :
  total (calculatePrice (with_country (testRequest (num := float))
                           "constructor")) = NaN
  /\ calculatePrice (with_country (testRequest (num := float)) "constructor")
     <> price_with_geo (Listed (lit 1.0))
          (with_country testRequest "constructor").
Proof.
  assert (Hp : countryCode (with_country (testRequest (num := float))
                              "constructor") ∈ Object_prototype)
    by apply list_elem_of_here.
  destruct (calculatePrice_inherited_country
              (with_country testRequest "constructor") Hp)
    as (_ & _ & Htotal & _ & Hdiffer).
  split; [exact Htotal | exact Hdiffer].
Defined.

(** Such a country code reaches the engine through GET /estimate, which
    hands the query parameter over unchecked: the estimate for
    [countryCode=constructor] is NaN, where an unlisted country such as JP
    is estimated at the default multiplier. *)
Example get_estimate_inherited_country :
  fst (get_estimate (fun _ : string => lit 3) (Some "mid_left") (Some "3")
         (Some "constructor") {| now := LocalTime 10 3; console := [] |})
  = {| reply_status := 200; reply_body := inl (NaN : float) |}
  /\ fst (get_estimate (fun _ : string => lit 3) (Some "mid_left")
            (Some "3") (Some "JP")
            {| now := LocalTime 10 3; console := [] |})
     = {| reply_status := 200; reply_body := inl (lit 44.46 : float) |}.
Proof. split; vm_compute; reflexivity. Qed.

(** X16: /estimate agrees with /calculate except on an empty slot type.
    For a body that /calculate accepts with the format IMAGE, no AI flag
    and a start date that is the current time, and a non-empty duration
    string that [parseInt] reads as the duration of the body: when the
    slot type is not the empty string, the estimate for the same slot
    type, duration and country is the total that /calculate answers; when
    it is the empty string, /calculate still answers 200 and /estimate
    refuses with status 400. *)
Theorem get_estimate_agrees_with_calculate {num} `{JSNumber num}
    (Date_parse : string -> Date) (ZodError_message : list string -> string)
    (parseInt : string -> num)
    (req_body : json num) (v : ValidatedData num)
    (duration : string) (w : World) :
  pricingRequestSchema_parse Date_parse ZodError_message req_body = inr v ->
  duration <> "" ->
  parseInt duration = v_duration v ->
  v_startDate v = now w ->
  v_adFormat v = IMAGE ->
  v_isAiGenerated v = false ->
  exists result,
    post_calculate Date_parse ZodError_message req_body w
    = ({| status := 200; body := SuccessBody result |}, w)
    /\ get_estimate parseInt (Some (v_slotType v)) (Some duration)
         (Some (v_countryCode v)) w
       = (if String.eqb (v_slotType v) "" then
            {| reply_status := 400;
               reply_body := inr "slotType and duration are required" |}
          else
            {| reply_status := 200; reply_body := inl (total result) |},
          w).
Proof.
  intros Hparse Hd Hint Hstart Hformat Hflag.
  destruct (pricingRequestSchema_parse_inv _ _ _ _ Hparse)
    as (fields & _ & _ & _ & _ & _ & _ & _ & Hlen & _).
  exists (calculatePrice (pricingRequest_of v)). split.
  - unfold post_calculate. rewrite Hparse. reflexivity.
  - unfold get_estimate, query_given.
    apply String.eqb_neq in Hd. rewrite Hd.
    destruct (String.eqb (v_slotType v) "") eqn:Hs; [reflexivity |].
    assert (Hc : String.eqb (v_countryCode v) "" = false).
    { apply String.eqb_neq. intros E. rewrite E in Hlen. discriminate Hlen. }
    rewrite Hc. cbn [negb orb default from_option].
    unfold mbind, IO_bind, Datatypes.id. rewrite getQuickEstimate_total, Hint.
    unfold pricingRequest_of. rewrite Hstart, Hformat, Hflag. reflexivity.
Qed.

Lemma get_estimate_agrees_with_calculate_witness :
  exists result,
    get_estimate (num := float) (fun _ => lit 3) (Some "mid_left")
      (Some "3") (Some "FR") {| now := LocalTime 10 2; console := [] |}
    = ({| reply_status := 200; reply_body := inl (total result) |},
       {| now := LocalTime 10 2; console := [] |}).
Proof.
  assert (Hparse :
    pricingRequestSchema_parse (num := float) (fun _ => LocalTime 10 2)
      (String.concat ",")
      (JObject [("slotType", JString "mid_left");
                ("duration", JNumber (lit 3));
                ("countryCode", JString "FR");
                ("startDate", JString "now");
                ("adFormat", JString "IMAGE")])
    = inr {| v_slotType := "mid_left"; v_duration := lit 3;
             v_countryCode := "FR"; v_startDate := LocalTime 10 2;
             v_adFormat := IMAGE; v_isAiGenerated := false |})
    by (vm_compute; reflexivity).
  assert (Hd : "3"%string <> ""%string) by discriminate.
  destruct (get_estimate_agrees_with_calculate _ _ (fun _ => lit 3) _ _ "3"
              {| now := LocalTime 10 2; console := [] |}
              Hparse Hd eq_refl eq_refl eq_refl eq_refl)
    as (result & _ & Hestimate).
  exists result. exact Hestimate.
Defined.

(** ** The constants sent to the frontend *)

(** X17: the constants of /constants agree with the engine and the schema: the
    advertised slot types are exactly the keys of the tier mapping, the
    advertised formats exactly the strings the schema accepts, a number is
    an accepted duration exactly when it lies between minDuration and
    maxDuration, and the base rates are those of the engine. *)
Theorem constants_agree {num} `{JSNumber num} :
  (forall s, s ∈ Constants.slotTypes <-> is_Some (SLOT_TIER_MAPPING !! s))
  /\ (forall s, s ∈ Constants.adFormats
                <-> is_Some (z_adFormat (num := num) (JString s)))
  /\ (forall n : num,
        is_Some (z_duration (JNumber n))
        <-> eqb n n = true
            /\ geb n (lit Constants.minDuration) = true
            /\ leb n (lit Constants.maxDuration) = true)
  /\ getBaseRate (num := num) (Some TOP) = lit Constants.baseRates_TOP_TIER
  /\ getBaseRate (num := num) (Some MID) = lit Constants.baseRates_MID_TIER
  /\ getBaseRate (num := num) (Some BOTTOM)
     = lit Constants.baseRates_BOTTOM_TIER.
Proof.
  split; [| split; [| split; [| repeat split]]].
  - intros s. split.
    + intros Hin. unfold Constants.slotTypes in Hin.
      repeat (apply elem_of_cons in Hin as [-> | Hin];
              [eexists; reflexivity |]).
      now apply elem_of_nil in Hin.
    + intros [tier Htier]. apply elem_of_list_to_map_2 in Htier.
      unfold SLOT_TIER_ENTRIES in Htier.
      repeat (apply elem_of_cons in Htier as [Htier | Htier];
              [injection Htier as -> _; unfold Constants.slotTypes;
               apply list_elem_of_In; cbn; tauto |]).
      now apply elem_of_nil in Htier.
  - intros s. unfold z_adFormat, Constants.adFormats. split.
    + intros Hin.
      repeat (apply elem_of_cons in Hin as [-> | Hin];
              [eexists; reflexivity |]).
      now apply elem_of_nil in Hin.
    + intros [f Hf].
      destruct (String.eqb_spec s "IMAGE") as [-> |];
        [apply list_elem_of_In; cbn; tauto |].
      destruct (String.eqb_spec s "VIDEO") as [-> |];
        [apply list_elem_of_In; cbn; tauto |].
      destruct (String.eqb_spec s "TEXT") as [-> |];
        [apply list_elem_of_In; cbn; tauto |].
      discriminate Hf.
  - intros n. unfold z_duration, Constants.minDuration, Constants.maxDuration.
    destruct (eqb n n), (geb n (lit 1)), (leb n (lit 30)); cbn; split;
      try (intros [? ?]; discriminate);
      try (intros (? & ? & ?); discriminate);
      try (intros _; repeat split; eauto).
Qed.

(** ** Applying a referral code *)

Section ApplyFacts.
Context {num : Type} `{JSNumber num}.
Variable Store : Type.
Variable findReferralCode :
  string -> Store -> Completion (option (ReferralCode num)) * Store.
Variable new_Date_at : Store -> Date * Store.
Variable fresh_reward_id : Store -> string * Store.
Variable Date_lt : Date -> Date -> bool.

Local Abbreviation apply_with save update :=
  (applyReferralCode Store findReferralCode save update new_Date_at
     fresh_reward_id Date_lt).

(** The only path of [applyReferralCode] that ends in success. *)
Lemma applyReferralCode_success_cases save update code newUserId s :
  Applied.success (fst (apply_with save update code newUserId s)) = true ->
  exists referralCode s1 r s4,
    findReferralCode code s = (Normal (Some referralCode), s1)
    /\ Code.isActive referralCode = true
    /\ uses_exhausted referralCode = false
    /\ Code.userId referralCode <> newUserId
    /\ (forall expiresAt today,
          Code.expiresAt referralCode = Some expiresAt ->
          fst (new_Date_at s1) = today -> Date_lt expiresAt today = false)
    /\ Applied.reward (fst (apply_with save update code newUserId s)) = Some r
    /\ Applied.error (fst (apply_with save update code newUserId s)) = None
    /\ referrerId r = Code.userId referralCode
    /\ refereeId r = newUserId
    /\ referralCodeId r = Code.id referralCode
    /\ rewardType r = Code.rewardType referralCode
    /\ rewardValue r = Code.rewardValue referralCode
    /\ reward_status r = pending
    /\ paidAt r = None
    /\ snd (apply_with save update code newUserId s)
       = snd (update (used_once_more referralCode) (snd (save r s4))).
Proof.
  unfold applyReferralCode.
  destruct (findReferralCode code s) as [[[referralCode |] | message] s1];
    cbn; try discriminate.
  destruct (Code.isActive referralCode) eqn:Hactive; cbn; try discriminate.
  destruct (has_expired Store new_Date_at Date_lt referralCode s1)
    as [expired s2] eqn:Hexp.
  destruct expired; cbn; try discriminate.
  destruct (uses_exhausted referralCode) eqn:Huses; cbn; try discriminate.
  destruct (String.eqb_spec (Code.userId referralCode) newUserId)
    as [| Hother]; cbn; try discriminate.
  destruct (fresh_reward_id s2) as [reward_id s3].
  destruct (new_Date_at s3) as [today s4].
  destruct (save _ s4) as [[[] | message] s5] eqn:Hsave;
    cbn; try discriminate.
  destruct (update _ s5) as [[[] | message] s6] eqn:Hupdate;
    cbn; try discriminate.
  intros _. eexists referralCode, s1, _, s4.
  repeat (split; [first [reflexivity | assumption] |]).
  split.
  - intros expiresAt today' Hsome Htoday. unfold has_expired in Hexp.
    rewrite Hsome in Hexp. destruct (new_Date_at s1) as [t s'].
    cbn in Htoday. subst t. now injection Hexp as -> _.
  - repeat (split; [reflexivity |]). rewrite Hsave. cbn. now rewrite Hupdate.
Qed.

(** X18: a successful application is well founded: the code was found and is
    active, not expired at the time read, not out of uses, and owned by
    someone other than the new user; the reward returned is pending and
    unpaid, names the owner as referrer and the new user as referee and
    copies type and value from the code; and what is written is that
    reward and then the code with one more use. *)
Theorem applyReferralCode_success_inv save update code newUserId s :
  Applied.success (fst (apply_with save update code newUserId s)) = true ->
  exists referralCode s1 r s4,
    findReferralCode code s = (Normal (Some referralCode), s1)
    /\ Code.isActive referralCode = true
    /\ uses_exhausted referralCode = false
    /\ Code.userId referralCode <> newUserId
    /\ (forall expiresAt today,
          Code.expiresAt referralCode = Some expiresAt ->
          fst (new_Date_at s1) = today -> Date_lt expiresAt today = false)
    /\ Applied.reward (fst (apply_with save update code newUserId s)) = Some r
    /\ Applied.error (fst (apply_with save update code newUserId s)) = None
    /\ referrerId r = Code.userId referralCode
    /\ refereeId r = newUserId
    /\ referralCodeId r = Code.id referralCode
    /\ rewardType r = Code.rewardType referralCode
    /\ rewardValue r = Code.rewardValue referralCode
    /\ reward_status r = pending
    /\ paidAt r = None
    /\ snd (apply_with save update code newUserId s)
       = snd (update (used_once_more referralCode) (snd (save r s4))).
Proof.
  exact (applyReferralCode_success_cases save update code newUserId s).
Qed.

(** X19: a refusal for a reason other than a thrown error writes nothing: the
    outcome and the store are the same whatever saveReferralReward and
    updateReferralCode would do. *)
Theorem applyReferralCode_refusal_no_write save1 update1 save2 update2
    code newUserId s :
  let outcome := apply_with save1 update1 code newUserId s in
  Applied.success (fst outcome) = false ->
  (forall message : string,
     Applied.error (fst outcome)
     <> Some ("Failed to apply referral code: " +:+ message)) ->
  apply_with save2 update2 code newUserId s = outcome.
Proof.
  cbv zeta. unfold applyReferralCode.
  destruct (findReferralCode code s) as [[[referralCode |] | message] s1];
    cbn; try reflexivity.
  destruct (Code.isActive referralCode); cbn; try reflexivity.
  destruct (has_expired Store new_Date_at Date_lt referralCode s1)
    as [expired s2].
  destruct expired; cbn; try reflexivity.
  destruct (uses_exhausted referralCode); cbn; try reflexivity.
  destruct (String.eqb (Code.userId referralCode) newUserId);
    cbn; try reflexivity.
  destruct (fresh_reward_id s2) as [reward_id s3].
  destruct (new_Date_at s3) as [today s4].
  destruct (save1 _ s4) as [[[] | message] s5]; cbn.
  - destruct (update1 _ s5) as [[[] | message] s6]; cbn.
    + discriminate.
    + intros _ Hnot. now destruct (Hnot message).
  - intros _ Hnot. now destruct (Hnot message).
Qed.

End ApplyFacts.

Lemma applyReferralCode_success_inv_witness :
  Applied.success (fst (SampleReferrals.applyReferralCode (num := float)
                          "WELCOME10" "bob")) = true
  /\ exists r,
       Applied.reward (fst (SampleReferrals.applyReferralCode (num := float)
                              "WELCOME10" "bob")) = Some r
       /\ reward_status r = pending.
Proof.
  assert (Hok : Applied.success
                  (fst (SampleReferrals.applyReferralCode (num := float)
                          "WELCOME10" "bob")) = true)
    by (vm_compute; reflexivity).
  split; [exact Hok |].
  destruct (applyReferralCode_success_inv unit
              SampleReferrals.findReferralCode SampleReferrals.new_Date_at
              SampleReferrals.fresh_reward_id SampleReferrals.Date_lt
              SampleReferrals.write SampleReferrals.write
              "WELCOME10" "bob" tt Hok)
    as (referralCode & s1 & r & s4 & _ & _ & _ & _ & _ & Hreward & _ & _ & _
        & _ & _ & _ & Hpending & _).
  exists r. split; [exact Hreward | exact Hpending].
Defined.

Lemma applyReferralCode_refusal_no_write_witness :
  applyReferralCode (num := float) unit SampleReferrals.findReferralCode
    (fun _ s => (Throw "disk full", s)) (fun _ s => (Throw "disk full", s))
    SampleReferrals.new_Date_at SampleReferrals.fresh_reward_id
    SampleReferrals.Date_lt "WELCOME10" "alice" tt
  = SampleReferrals.applyReferralCode "WELCOME10" "alice".
Proof.
  apply (applyReferralCode_refusal_no_write unit
           SampleReferrals.findReferralCode SampleReferrals.new_Date_at
           SampleReferrals.fresh_reward_id SampleReferrals.Date_lt
           SampleReferrals.write SampleReferrals.write
           (fun _ s => (Throw "disk full", s))
           (fun _ s => (Throw "disk full", s)) "WELCOME10" "alice" tt).
  - vm_compute. reflexivity.
  - intros message E. vm_compute in E. discriminate E.
Defined.

(** ** Referral statistics *)

Section StatsFacts.
Context {num : Type} `{JSNumber num}.
Variable Store : Type.
Variable getUserReferrals :
  string -> Store -> Completion (list (ReferralReward num)) * Store.
Variable getUserRewards :
  string -> Store -> Completion (list (ReferralReward num)) * Store.
Variable getUserReferralCodes :
  string -> Store -> Completion (list (ReferralCode num)) * Store.
Variable reduce_empty_message : string.

(** X20: for a user without referral codes getReferralStats does not return
    statistics: the [reduce] over the empty code list throws, and the call
    fails with the wrapped message, whatever referrals and rewards the
    user has. *)
Theorem getReferralStats_without_codes (userId : string)
    (referrals rewards : list (ReferralReward num)) (s s1 s2 s3 : Store) :
  getUserReferrals userId s = (Normal referrals, s1) ->
  getUserRewards userId s1 = (Normal rewards, s2) ->
  getUserReferralCodes userId s2 = (Normal [], s3) ->
  getReferralStats Store getUserReferrals getUserRewards
    getUserReferralCodes reduce_empty_message userId s
  = (Throw ("Failed to get referral stats: " +:+ reduce_empty_message), s3).
Proof.
  intros Hreferrals Hrewards Hcodes. unfold getReferralStats.
  rewrite Hreferrals, Hrewards, Hcodes. reflexivity.
Qed.

End StatsFacts.

Lemma getReferralStats_without_codes_witness :
  getReferralStats (num := float) unit MockReferrals.getUserReferrals
    MockReferrals.getUserRewards MockReferrals.getUserReferralCodes
    "Reduce of empty array with no initial value" "user_1" tt
  = (Throw ("Failed to get referral stats: "
            +:+ "Reduce of empty array with no initial value"), tt).
Proof.
  exact (getReferralStats_without_codes unit MockReferrals.getUserReferrals
           MockReferrals.getUserRewards MockReferrals.getUserReferralCodes
           "Reduce of empty array with no initial value" "user_1" [] []
           tt tt tt tt eq_refl eq_refl eq_refl).
Defined.

Section TopCode.
Open Scope Q_scope.



End TopCode.



(** ** Processing rewards in batches *)

Section BatchFacts.
Context {num : Type}.
Variable Store : Type.
Variable findReward :
  string -> Store -> Completion (option (ReferralReward num)) * Store.
Variable updateReward :
  ReferralReward num -> Store -> Completion unit * Store.
Variable addUserCredit : string -> num -> Store -> Completion unit * Store.
Variable createDiscountCoupon :
  string -> num -> Store -> Completion unit * Store.
Variable grantFreeAdSlot : string -> Store -> Completion unit * Store.
Variable today : Store -> Date.

Local Abbreviation step :=
  (process_one Store findReward updateReward addUserCredit
     createDiscountCoupon grantFreeAdSlot today).
Local Abbreviation loop :=
  (process_loop Store findReward updateReward addUserCredit
     createDiscountCoupon grantFreeAdSlot today).
Local Abbreviation run :=
  (processRewards Store findReward updateReward addUserCredit
     createDiscountCoupon grantFreeAdSlot today).

Local Abbreviation zero := {| processed := 0; failed := 0; errors := [] |}.

Lemma process_one_shift (rewardId : string) (acc : ProcessResult)
    (s : Store) :
  step rewardId (acc, s)
  = (tally_after acc (fst (step rewardId (zero, s))),
     snd (step rewardId (zero, s))).
Proof.
  unfold process_one, catch_block, count_failed, count_processed,
    tally_after.
  destruct acc as [p f e].
  destruct (findReward rewardId s) as [[[reward |] | message] s1]; cbn;
    rewrite ?Nat.add_0_r, ?Nat.add_1_r, ?app_nil_r; try reflexivity.
  destruct (negb _); cbn;
    rewrite ?Nat.add_0_r, ?Nat.add_1_r, ?app_nil_r; try reflexivity.
  destruct (pay_out _ _ _ _ _ _) as [[[] | message] s2]; cbn;
    rewrite ?Nat.add_0_r, ?Nat.add_1_r, ?app_nil_r; try reflexivity.
  destruct (updateReward _ s2) as [[[] | message] s3]; cbn;
    rewrite ?Nat.add_0_r, ?Nat.add_1_r, ?app_nil_r; reflexivity.
Qed.

Lemma tally_after_assoc (a b c : ProcessResult) :
  tally_after (tally_after a b) c = tally_after a (tally_after b c).
Proof.
  unfold tally_after. cbn. now rewrite !Nat.add_assoc, app_assoc.
Qed.

Lemma process_loop_shift (rewardIds : list string) (acc : ProcessResult)
    (s : Store) :
  loop rewardIds (acc, s)
  = (tally_after acc (fst (loop rewardIds (zero, s))),
     snd (loop rewardIds (zero, s))).
Proof.
  revert acc s. induction rewardIds as [| rewardId rest IH]; intros acc s.
  - cbn. unfold tally_after. destruct acc. cbn.
    now rewrite !Nat.add_0_r, app_nil_r.
  - change (loop (rewardId :: rest) (acc, s))
      with (loop rest (step rewardId (acc, s))).
    change (loop (rewardId :: rest) (zero, s))
      with (loop rest (step rewardId (zero, s))).
    rewrite (process_one_shift rewardId acc s).
    destruct (step rewardId (zero, s)) as [one s1]. cbn [fst snd].
    rewrite (IH (tally_after acc one) s1), (IH one s1). cbn [fst snd].
    now rewrite tally_after_assoc.
Qed.

Lemma process_loop_app (ids1 ids2 : list string) (st : LoopState Store) :
  loop (ids1 ++ ids2) st = loop ids2 (loop ids1 st).
Proof.
  revert st. induction ids1 as [| rewardId rest IH]; intros st;
    [reflexivity |].
  cbn. apply IH.
Qed.

(** X22: processing a list of ids in one call is processing a first part and
    then the rest on the store the first call leaves: the counts add up,
    the error messages of the first part come first, and the final store
    is the same. *)
Theorem processRewards_app (ids1 ids2 : list string) (s : Store) :
  run (ids1 ++ ids2) s
  = (tally_after (fst (run ids1 s)) (fst (run ids2 (snd (run ids1 s)))),
     snd (run ids2 (snd (run ids1 s)))).
Proof.
  unfold processRewards.
  rewrite process_loop_app.
  destruct (loop ids1 (zero, s)) as [r1 s1]. cbn [fst snd].
  apply process_loop_shift.
Qed.

End BatchFacts.

(** ** Only pending rewards are paid *)

Section PendingOnly.
Context {num : Type}.
Variable Store : Type.
Variable findReward :
  string -> Store -> Completion (option (ReferralReward num)) * Store.
Variable today : Store -> Date.

(** X23: processRewards pays and updates pending rewards only.  When no id
    of the batch resolves to a reward in pending status at the time it is
    looked up (each is missing, approved, paid or expired, or its lookup
    throws), nothing is paid out and no reward is updated: the result and
    the store are the same whatever addUserCredit, createDiscountCoupon,
    grantFreeAdSlot and updateReward would do, no id is counted as
    processed and every id is counted as failed.  Rewards outside the
    batch do not matter. *)
Theorem processRewards_pays_pending_only
    (updateReward updateReward' :
       ReferralReward num -> Store -> Completion unit * Store)
    (addUserCredit addUserCredit' :
       string -> num -> Store -> Completion unit * Store)
    (createDiscountCoupon createDiscountCoupon' :
       string -> num -> Store -> Completion unit * Store)
    (grantFreeAdSlot grantFreeAdSlot' :
       string -> Store -> Completion unit * Store)
    (rewardIds : list string) (s : Store) :
  none_pending Store findReward rewardIds s = true ->
  processRewards Store findReward updateReward addUserCredit
    createDiscountCoupon grantFreeAdSlot today rewardIds s
  = processRewards Store findReward updateReward' addUserCredit'
      createDiscountCoupon' grantFreeAdSlot' today rewardIds s
  /\ processed
       (fst (processRewards Store findReward updateReward addUserCredit
               createDiscountCoupon grantFreeAdSlot today rewardIds s)) = 0%nat
  /\ failed
       (fst (processRewards Store findReward updateReward addUserCredit
               createDiscountCoupon grantFreeAdSlot today rewardIds s))
     = length rewardIds.
Proof.
  unfold processRewards.
  assert (Hloop : forall ids acc s0,
    none_pending Store findReward ids s0 = true ->
    process_loop Store findReward updateReward addUserCredit
      createDiscountCoupon grantFreeAdSlot today ids (acc, s0)
    = process_loop Store findReward updateReward' addUserCredit'
        createDiscountCoupon' grantFreeAdSlot' today ids (acc, s0)
    /\ processed
         (fst (process_loop Store findReward updateReward addUserCredit
                 createDiscountCoupon grantFreeAdSlot today ids (acc, s0)))
       = processed acc
    /\ failed
         (fst (process_loop Store findReward updateReward addUserCredit
                 createDiscountCoupon grantFreeAdSlot today ids (acc, s0)))
       = (failed acc + length ids)%nat).
  { induction ids as [| rewardId rest IH]; intros acc s0 Hnone.
    - cbn. repeat split. lia.
    - cbn [process_loop length none_pending] in Hnone |- *.
      unfold process_one.
      destruct (findReward rewardId s0) as [[[reward |] | message] s1].
      + apply andb_prop in Hnone as [Hstatus Hrest]. rewrite Hstatus.
        destruct (IH (count_failed
                        ("Reward " ++ rewardId ++ " is not in pending status")
                        acc) s1 Hrest) as (E & Hp & Hf).
        split; [exact E |]. rewrite Hp, Hf.
        cbn [count_failed processed failed]. split; [reflexivity | lia].
      + destruct (IH (count_failed ("Reward " ++ rewardId ++ " not found")
                        acc) s1 Hnone) as (E & Hp & Hf).
        split; [exact E |]. rewrite Hp, Hf.
        cbn [count_failed processed failed]. split; [reflexivity | lia].
      + destruct (IH (catch_block rewardId message acc) s1 Hnone)
          as (E & Hp & Hf).
        split; [exact E |]. rewrite Hp, Hf.
        cbn [catch_block count_failed processed failed].
        split; [reflexivity | lia]. }
  intros Hnone.
  destruct (Hloop rewardIds
              {| processed := 0; failed := 0; errors := [] |} s Hnone)
    as (E & Hp & Hf).
  split; [exact E |]. split; [exact Hp | exact Hf].
Qed.

End PendingOnly.

Lemma processRewards_pays_pending_only_witness :
  processRewards (num := float) (SampleRewards.Store float)
    SampleRewards.findReward
    (fun _ => SampleRewards.mark "updated")
    (fun _ _ => SampleRewards.mark "credited")
    (fun _ _ => SampleRewards.mark "coupon")
    (fun _ => SampleRewards.mark "slot")
    (fun _ => InvalidDate) ["r1"; "r2"; "r9"] SampleRewards.store
  = processRewards (num := float) (SampleRewards.Store float)
      SampleRewards.findReward
      (fun _ s => (Throw "update", s)) (fun _ _ s => (Throw "credit", s))
      (fun _ _ s => (Throw "coupon", s)) (fun _ s => (Throw "slot", s))
      (fun _ => InvalidDate) ["r1"; "r2"; "r9"] SampleRewards.store.
Proof.
  assert (Hnone : none_pending (SampleRewards.Store float)
                    SampleRewards.findReward ["r1"; "r2"; "r9"]
                    SampleRewards.store = true)
    by (vm_compute; reflexivity).
  exact (proj1 (processRewards_pays_pending_only (SampleRewards.Store float)
                  SampleRewards.findReward (fun _ => InvalidDate)
                  (fun _ => SampleRewards.mark "updated")
                  (fun _ s => (Throw "update", s))
                  (fun _ _ => SampleRewards.mark "credited")
                  (fun _ _ s => (Throw "credit", s))
                  (fun _ _ => SampleRewards.mark "coupon")
                  (fun _ _ s => (Throw "coupon", s))
                  (fun _ => SampleRewards.mark "slot")
                  (fun _ s => (Throw "slot", s))
                  ["r1"; "r2"; "r9"] SampleRewards.store Hnone)).
Defined.

(** The pending reward of the sample store is paid when its id is in the
    batch, and then the writes show. *)
Example processRewards_pays_pending :
  let run :=
    processRewards (num := float) (SampleRewards.Store float)
      SampleRewards.findReward
      (fun _ => SampleRewards.mark "updated")
      (fun _ _ => SampleRewards.mark "credited")
      (fun _ _ => SampleRewards.mark "coupon")
      (fun _ => SampleRewards.mark "slot")
      (fun _ => InvalidDate) ["r1"; "r3"] SampleRewards.store in
  processed (fst run) = 1%nat /\ failed (fst run) = 1%nat
  /\ errors (fst run) = ["Reward r1 is not in pending status"]
  /\ fst <$> snd run = ["updated"; "credited"; "r1"; "r2"; "r3"].
Proof. repeat split. Qed.

(** ** Generated codes pass the format check *)

Section Binary64Products.
Open Scope Z_scope.

(** *** Right shifts of the rounding procedure *)

Lemma shr_1_nonneg (mrs : shr_record) :
  0 <= shr_m mrs ->
  shr_m (shr_1 mrs) = shr_m mrs / 2 /\ shr_r (shr_1 mrs) = Z.odd (shr_m mrs).
Proof.
  destruct mrs as [M r s]. cbn [shr_m]. intros HM.
  rewrite <- Z.div2_div.
  destruct M as [| [p | p |] | p]; try lia; split; reflexivity.
Qed.

Lemma pow2_add (a b : Z) : 0 <= a -> 0 <= b -> 2 ^ a * 2 ^ b = 2 ^ (a + b).
Proof. intros. now rewrite Z.pow_add_r. Qed.

Lemma pow2_double (a : Z) : 0 <= a -> 2 * 2 ^ a = 2 ^ (1 + a).
Proof. intros. now rewrite Z.pow_add_r. Qed.

Ltac pow2 :=
  repeat first [rewrite pow2_add by lia | rewrite pow2_double by lia];
  f_equal; lia.

Lemma iter_shr_1 (p : positive) (mrs : shr_record) :
  0 <= shr_m mrs ->
  shr_m (SpecFloat.iter_pos shr_1 p mrs) = shr_m mrs / 2 ^ Zpos p
  /\ shr_r (SpecFloat.iter_pos shr_1 p mrs)
     = Z.odd (shr_m mrs / 2 ^ (Zpos p - 1)).
Proof.
  revert mrs. induction p as [p IH | p IH |]; intros mrs HM;
    cbn [SpecFloat.iter_pos].
  - destruct (shr_1_nonneg mrs HM) as [H1 _].
    assert (H1' : 0 <= shr_m (shr_1 mrs)) by (rewrite H1; apply Z.div_pos; lia).
    destruct (IH (shr_1 mrs) H1') as [H2 _].
    assert (H2' : 0 <= shr_m (SpecFloat.iter_pos shr_1 p (shr_1 mrs)))
      by (rewrite H2; apply Z.div_pos; [lia | apply Z.pow_pos_nonneg; lia]).
    destruct (IH _ H2') as [H3 H4].
    rewrite H3, H4, H2, H1.
    rewrite !Z.div_div by (try apply Z.pow_pos_nonneg; lia).
    split; [f_equal | do 2 f_equal]; pow2.
  - destruct (IH mrs HM) as [H2 _].
    assert (H2' : 0 <= shr_m (SpecFloat.iter_pos shr_1 p mrs))
      by (rewrite H2; apply Z.div_pos; [lia | apply Z.pow_pos_nonneg; lia]).
    destruct (IH _ H2') as [H3 H4].
    rewrite H3, H4, H2.
    rewrite !Z.div_div by (try apply Z.pow_pos_nonneg; lia).
    split; [f_equal | do 2 f_equal]; pow2.
  - destruct (shr_1_nonneg mrs HM) as [H1 H2]. rewrite H1, H2.
    change (2 ^ 1) with 2. change (2 ^ (1 - 1)) with 1. rewrite Z.div_1_r.
    split; reflexivity.
Qed.

(** *** The number of binary digits *)

Lemma digits2_size (p : positive) : digits2_pos p = Pos.size p.
Proof. induction p as [p IH | p IH |]; cbn; now rewrite ?IH. Qed.

Lemma digits2_le (p : positive) (k : Z) :
  0 <= k -> Zpos p < 2 ^ k -> Zpos (digits2_pos p) <= k.
Proof.
  intros Hk Hlt. rewrite digits2_size.
  pose proof (Pos.size_le p) as Hle.
  apply Pos2Z.pos_le_pos in Hle. rewrite Pos2Z.inj_pow in Hle.
  change (Zpos p~0) with (2 * Zpos p) in Hle.
  destruct (Z.le_gt_cases (Zpos (Pos.size p)) k) as [|Hgt]; [assumption |].
  exfalso.
  assert (H2 : 2 ^ (k + 1) <= 2 ^ Zpos (Pos.size p))
    by (apply Z.pow_le_mono_r; lia).
  rewrite Z.pow_add_r in H2 by lia. change (2 ^ 1) with 2 in H2. lia.
Qed.

Lemma digits2_gt (p : positive) : Zpos p < 2 ^ Zpos (digits2_pos p).
Proof.
  rewrite digits2_size. pose proof (Pos.size_gt p) as Hgt.
  apply Pos2Z.pos_lt_pos in Hgt. now rewrite Pos2Z.inj_pow in Hgt.
Qed.

(** *** Rounding a product to binary64 *)

(** The first shift and the rounding to nearest: the mantissa that
    comes out, scaled back, exceeds the exact one by at most half a unit
    of the new last place. *)
Lemma shr_round (P E n : Z) :
  0 <= P ->
  let mrs := fst (shr (shr_record_of_loc P loc_Exact) E n) in
  let e' := snd (shr (shr_record_of_loc P loc_Exact) E n) in
  let m1 := round_nearest_even (shr_m mrs) (loc_of_shr_record mrs) in
  0 <= m1
  /\ (n <= 0 -> m1 = P /\ e' = E)
  /\ (0 < n -> e' = E + n /\ m1 * 2 ^ n <= P + 2 ^ (n - 1)).
Proof.
  intros HP. cbv zeta. destruct n as [| p | p]; cbn [shr fst snd].
  - cbn. split; [assumption |]. split; [intros _; split; reflexivity | lia].
  - split; [| split; [lia | intros _; split; [reflexivity |]]].
    + destruct (iter_shr_1 p (shr_record_of_loc P loc_Exact) HP) as [Hm _].
      cbn [shr_record_of_loc shr_m] in Hm.
      assert (H0 : 0 <= P / 2 ^ Zpos p)
        by (apply Z.div_pos; [lia | apply Z.pow_pos_nonneg; lia]).
      destruct (SpecFloat.iter_pos shr_1 p _) as [m' r s]. cbn [shr_m] in *.
      rewrite Hm. destruct r, s; cbn; try lia.
      destruct (Z.even _); lia.
    + destruct (iter_shr_1 p (shr_record_of_loc P loc_Exact) HP) as [Hm Hr].
      cbn [shr_record_of_loc shr_m] in Hm, Hr.
      set (h := 2 ^ (Zpos p - 1)) in *.
      assert (Hh : 0 < h) by (apply Z.pow_pos_nonneg; lia).
      assert (E2 : 2 ^ Zpos p = 2 * h)
        by (unfold h; rewrite pow2_double by lia; f_equal; lia).
      rewrite E2 in *.
      assert (Hq : P / (2 * h) = P / h / 2)
        by (rewrite Z.div_div by lia; f_equal; lia).
      pose proof (Z.mul_div_le P h Hh) as Hle.
      pose proof (Z.div_mod (P / h) 2 ltac:(lia)) as Hdm.
      pose proof (Zmod_odd (P / h)) as Hodd.
      assert (H0 : 0 <= P / h) by (apply Z.div_pos; lia).
      assert (H0' : 0 <= P / h / 2) by (apply Z.div_pos; lia).
      destruct (SpecFloat.iter_pos shr_1 p _) as [m' r s].
      cbn [shr_m shr_r] in *.
      rewrite Hm, Hq.
      set (q := P / h) in *. set (t := q / 2) in *.
      assert (Hr0 : 0 <= q mod 2 < 2) by (apply Z.mod_pos_bound; lia).
      assert (Hqh : (2 * t + q mod 2) * h <= P) by (rewrite <- Hdm; lia).
      assert (Hbase : t * (2 * h) <= P) by nia.
      destruct r, s; cbn [loc_of_shr_record round_nearest_even]; try lia.
      * rewrite <- Hr in Hodd. rewrite Hodd in Hqh. nia.
      * rewrite <- Hr in Hodd. rewrite Hodd in Hqh.
        destruct (Z.even t); nia.
  - cbn. split; [assumption |]. split; [intros _; split; reflexivity | lia].
Qed.

Lemma fexp_binary64 (k : Z) : fexp prec emax k = Z.max (k - 53) (-1074).
Proof. reflexivity. Qed.

(** A positive product [P * 2^E] that stays half a unit of the last place
    under 36 is rounded to a double under 36. *)
Lemma round_below_36 (P : positive) (E : Z) :
  -1121 <= E < 0 -> Zpos P < 2 ^ 106 ->
  Zpos P + 2 ^ 52 < 36 * 2 ^ (- E) ->
  match binary_round_aux prec emax false (Zpos P) E loc_Exact with
  | S754_zero false => True
  | S754_finite false mz ez => ez < 0 /\ Zpos mz < 36 * 2 ^ (- ez)
  | _ => False
  end.
Proof.
  intros HE H106 Hbelow. unfold binary_round_aux, shr_fexp.
  rewrite fexp_binary64.
  assert (Hd106 : Zdigits2 (Zpos P) <= 106) by (apply digits2_le; lia).
  assert (HdE : Zdigits2 (Zpos P) <= 6 - E).
  { apply digits2_le; [lia |].
    replace (6 - E) with (6 + - E) by lia.
    rewrite <- pow2_add by lia. change (2 ^ 6) with 64.
    assert (0 < 2 ^ (- E)) by (apply Z.pow_pos_nonneg; lia).
    assert (0 < 2 ^ 52) by reflexivity. lia. }
  remember (Zdigits2 (Zpos P)) as d eqn:Ed.
  remember (Z.max (d + E - 53) (-1074) - E) as n eqn:En.
  pose proof (shr_round (Zpos P) E n ltac:(lia)) as Hround.
  cbv zeta in Hround.
  destruct (shr (shr_record_of_loc (Zpos P) loc_Exact) E n) as [mrs' e'].
  cbn [fst snd] in Hround.
  remember (round_nearest_even (shr_m mrs') (loc_of_shr_record mrs')) as m1
    eqn:Em1.
  destruct Hround as (Hm1 & Hle0 & Hgt0).
  assert (He' : -1121 <= e' < 0 /\ m1 < 36 * 2 ^ (- e')).
  { destruct (Z.le_gt_cases n 0) as [Hn | Hn].
    - destruct (Hle0 Hn) as [-> ->]. split; [lia |].
      assert (0 < 2 ^ 52) by reflexivity. lia.
    - destruct (Hgt0 Hn) as [-> Hm].
      split; [lia |].
      assert (Hn53 : n - 1 <= 52) by lia.
      assert (H52 : 2 ^ (n - 1) <= 2 ^ 52) by (apply Z.pow_le_mono_r; lia).
      assert (Hk : 0 < 2 ^ n) by (apply Z.pow_pos_nonneg; lia).
      assert (Hsplit : 2 ^ (- E) = 2 ^ (- (E + n)) * 2 ^ n)
        by (rewrite pow2_add by lia; f_equal; lia).
      rewrite Hsplit in Hbelow.
      apply (Z.mul_lt_mono_pos_r (2 ^ n)); [assumption | lia]. }
  destruct He' as [He' Hm1lt].
  assert (Hd1 : Zdigits2 m1 <= 6 - e').
  { destruct m1 as [| q | q]; [cbn [Zdigits2]; lia | | lia].
    apply digits2_le; [lia |].
    replace (6 - e') with (6 + - e') by lia.
    rewrite <- pow2_add by lia. change (2 ^ 6) with 64.
    assert (0 < 2 ^ (- e')) by (apply Z.pow_pos_nonneg; lia). lia. }
  rewrite fexp_binary64.
  remember (Z.max (Zdigits2 m1 + e' - 53) (-1074) - e') as n2 eqn:En2.
  destruct n2 as [| p2 | p2]; cbn [shr shr_record_of_loc fst snd].
  - cbn [shr_m]. destruct m1 as [| q | q]; [exact I | | lia].
    replace (e' <=? emax - prec) with true
      by (symmetry; apply Z.leb_le; change (emax - prec) with 971; lia).
    split; [lia | assumption].
  - destruct (iter_shr_1 p2 {| shr_m := m1; shr_r := false; shr_s := false |}
                Hm1) as [Hm2 _].
    cbn [shr_m] in Hm2. rewrite Hm2.
    assert (Hk : 0 < 2 ^ Zpos p2) by (apply Z.pow_pos_nonneg; lia).
    assert (H0 : 0 <= m1 / 2 ^ Zpos p2) by (apply Z.div_pos; lia).
    pose proof (Z.mul_div_le m1 (2 ^ Zpos p2) Hk) as Hle.
    assert (Hsplit : 2 ^ (- e') = 2 ^ (- (e' + Zpos p2)) * 2 ^ Zpos p2)
      by (rewrite pow2_add by lia; f_equal; lia).
    destruct (m1 / 2 ^ Zpos p2) as [| mz | mz]; [exact I | | lia].
    replace (e' + Zpos p2 <=? emax - prec) with true
      by (symmetry; apply Z.leb_le; change (emax - prec) with 971; lia).
    split; [lia |].
    rewrite Hsplit in Hm1lt.
    apply (Z.mul_lt_mono_pos_r (2 ^ Zpos p2)); [assumption | lia].
  - cbn [shr_m]. destruct m1 as [| q | q]; [exact I | | lia].
    replace (e' <=? emax - prec) with true
      by (symmetry; apply Z.leb_le; change (emax - prec) with 971; lia).
    split; [lia | assumption].
Qed.

(** *** [Math.random() * 36] *)

(** A double from 0 up to, not including, 1, times 36 is a double from 0
    up to, not including, 36: rounding does not reach 36. *)
Lemma random_times_36 (r : float) :
  PrimFloat.leb 0 r = true -> PrimFloat.ltb r 1 = true ->
  match Prim2SF (r * 36) with
  | S754_zero _ => True
  | S754_finite false mz ez => ez < 0 /\ Zpos mz < 36 * 2 ^ (- ez)
  | _ => False
  end.
Proof.
  rewrite leb_spec, ltb_spec, mul_spec.
  pose proof (Prim2SF_valid r) as Hvalid.
  change (Prim2SF 0) with (S754_zero false).
  change (Prim2SF 1) with (S754_finite false 4503599627370496 (-52)).
  change (Prim2SF 36) with (S754_finite false 5066549580791808 (-47)).
  destruct (Prim2SF r) as [s | s | | s m e]; cbn [SF64mul SFmul].
  - intros _ _. exact I.
  - destruct s; intros H0 H1; discriminate.
  - intros H0; discriminate.
  - destruct s; [intros H0; discriminate |]. intros _ Hlt.
    cbn [xorb].
    unfold valid_binary, bounded, canonical_mantissa in Hvalid.
    apply andb_prop in Hvalid as [Hcanon _].
    apply Z.eqb_eq in Hcanon. rewrite fexp_binary64 in Hcanon.
    assert (Hdigits : Zpos (digits2_pos m) <= 53) by lia.
    assert (Hemin : -1074 <= e) by lia.
    assert (He : e <= -53).
    { unfold SFltb, SFcompare in Hlt.
      destruct (Z.compare_spec e (-52)) as [-> | |]; [| lia | discriminate].
      destruct (Pos.compare_cont Eq m 4503599627370496) eqn:Hc;
        try discriminate.
      change (Pos.compare_cont Eq) with Pos.compare in Hc.
      assert (Hd : Zpos (digits2_pos m) <= 52)
        by (apply digits2_le; [lia |]; exact (Pos2Z.pos_lt_pos _ _ Hc)).
      lia. }
    assert (Hm : Zpos m < 2 ^ 53).
    { eapply Z.lt_le_trans; [apply digits2_gt |].
      apply Z.pow_le_mono_r; lia. }
    change (2 ^ 53) with 9007199254740992 in Hm.
    assert (Hround : match
                       binary_round_aux prec emax false
                         (Zpos (m * 5066549580791808)) (e + -47) loc_Exact
                     with
                     | S754_zero false => True
                     | S754_finite false mz ez =>
                         ez < 0 /\ Zpos mz < 36 * 2 ^ (- ez)
                     | _ => False
                     end).
    { apply round_below_36.
      + lia.
      + rewrite Pos2Z.inj_mul.
        change (2 ^ 106) with 81129638414606681695789005144064. lia.
      + rewrite Pos2Z.inj_mul.
        replace (- (e + -47)) with (100 + (- e - 53)) by lia.
        rewrite <- pow2_add by lia.
        assert (Hw : 0 < 2 ^ (- e - 53)) by (apply Z.pow_pos_nonneg; lia).
        change (2 ^ 100) with 1267650600228229401496703205376.
        change (2 ^ 52) with 4503599627370496.
        nia. }
    destruct (binary_round_aux prec emax false _ _ loc_Exact)
      as [[|] | sz | | [|] mz ez];
      first [exact I | exact Hround | contradiction].
Qed.

(** *** The index drawn *)

Lemma to_integer_of_Z (n : Z) :
  0 <= n <= 35 ->
  to_integer (if n =? 0 then PrimFloat.zero else Binary64.of_Z n) = Some n.
Proof.
  intros Hn. destruct n as [| p | p]; [reflexivity | | lia].
  do 6 (try (destruct p as [p | p |]; try lia)); reflexivity.
Qed.

Lemma floor_below_36 (y : float) :
  match Prim2SF y with
  | S754_zero _ => True
  | S754_finite false mz ez => ez < 0 /\ Zpos mz < 36 * 2 ^ (- ez)
  | _ => False
  end ->
  exists i, to_integer (Math_floor y) = Some i /\ 0 <= i <= 35.
Proof.
  intros Hy. unfold Math_floor.
  destruct (Prim2SF y) as [s | s | | [|] mz ez] eqn:Ey; try contradiction.
  - exists 0. unfold to_integer. rewrite Ey. split; [reflexivity | lia].
  - destruct Hy as [Hez Hlt].
    destruct (Z.leb_spec 0 ez) as [| _]; [lia |].
    assert (Hk : 0 < 2 ^ (- ez)) by (apply Z.pow_pos_nonneg; lia).
    assert (Hn : 0 <= Zpos mz / 2 ^ (- ez) <= 35).
    { split; [apply Z.div_pos; lia |].
      apply Z.lt_succ_r. apply Z.div_lt_upper_bound; lia. }
    eexists. split; [apply to_integer_of_Z; exact Hn | exact Hn].
Qed.

Lemma random_index (r : float) :
  PrimFloat.leb 0 r = true -> PrimFloat.ltb r 1 = true ->
  exists i, to_integer (Math_floor (r * 36)) = Some i /\ 0 <= i <= 35.
Proof.
  intros H0 H1. apply floor_below_36. now apply random_times_36.
Qed.

End Binary64Products.

Section CodeFormat.

Lemma list_ascii_app (s t : string) :
  String.list_ascii_of_string (s ++ t)
  = String.list_ascii_of_string s ++ String.list_ascii_of_string t.
Proof.
  induction s as [| c s IH]; [reflexivity |].
  change (String c s ++ t)%string with (String c (s ++ t)).
  cbn [String.list_ascii_of_string]. now rewrite IH.
Qed.

Lemma String_length_app (s t : string) :
  String_length (s ++ t) = (String_length s + String_length t)%nat.
Proof.
  induction s as [| c s IH]; [reflexivity |].
  change (String c s ++ t)%string with (String c (s ++ t)).
  cbn [String_length]. rewrite IH. lia.
Qed.

(** The characters the pattern accepts are exactly those of [chars], and
    each is one code unit. *)
Lemma is_code_char_chars (c : Ascii.ascii) :
  is_code_char c
  = existsb (Ascii.eqb c) (String.list_ascii_of_string chars).
Proof.
  destruct c as [[] [] [] [] [] [] [] []]; reflexivity.
Qed.

Lemma is_code_char_unit (c : Ascii.ascii) :
  is_code_char c = true -> code_units c = 1%nat.
Proof.
  destruct c as [[] [] [] [] [] [] [] []];
    first [reflexivity | intros Hc; discriminate Hc].
Qed.

Lemma charAt_chars (position : float) (i : Z) :
  to_integer position = Some i -> (0 <= i <= 35)%Z ->
  exists c, charAt chars position = String c ""
            /\ is_code_char c = true.
Proof.
  intros Hpos Hi. unfold charAt. rewrite Hpos.
  destruct (Z.ltb_spec i 0) as [Hneg | _]; [lia |].
  assert (Hn : (Z.to_nat i < 36)%nat) by lia.
  destruct (Z.to_nat i) as [| n]; [eexists; split; reflexivity |].
  do 35 (destruct n as [| n]; [eexists; split; reflexivity |]).
  lia.
Qed.

Variable Rng : Type.
Variable Math_random : Rng -> float * Rng.
(** [Math.random()] returns a double from 0 up to, not including, 1. *)
Hypothesis Math_random_range :
  forall g,
    PrimFloat.leb 0 (fst (Math_random g)) = true
    /\ PrimFloat.ltb (fst (Math_random g)) 1 = true.

Lemma draw_chars_format (rounds : nat) (result : string) (g : Rng) :
  forallb is_code_char (String.list_ascii_of_string result) = true ->
  let code := fst (draw_chars Rng Math_random rounds result g) in
  String_length code = (String_length result + rounds)%nat
  /\ forallb is_code_char (String.list_ascii_of_string code) = true.
Proof.
  revert result g. induction rounds as [| rounds IH]; intros result g Hres.
  - cbn. split; [lia | exact Hres].
  - cbn [draw_chars].
    destruct (Math_random_range g) as (Hr0 & Hr1).
    destruct (Math_random g) as [r g']. cbn [fst] in Hr0, Hr1.
    change (mul r (of_length (String_length chars)))
      with (PrimFloat.mul r 36).
    destruct (random_index r Hr0 Hr1) as (i & Hpos & Hi).
    destruct (charAt_chars _ i Hpos Hi) as (c & Hc & Hcode).
    rewrite Hc.
    destruct (IH (result ++ String c "")%string g') as [Hlen Hall].
    { rewrite list_ascii_app, forallb_app, Hres. cbn. now rewrite Hcode. }
    split; [| exact Hall].
    rewrite Hlen, String_length_app. cbn [String_length].
    rewrite (is_code_char_unit c Hcode). lia.
Qed.

(** X24: in binary64, with [Math.random()] returning a double from 0 up to,
    not including, 1, every code that generateUniqueCode produces has 8
    characters, all from the alphabet A-Z and 0-9, and is accepted as
    well-formed by GET /validate/:code: the product with 36 is never
    rounded up to 36, so no draw falls outside the alphabet. *)
Theorem generateUniqueCode_is_valid (g : Rng) :
  let code := fst (generateUniqueCode Rng Math_random g) in
  String_length code = 8%nat
  /\ forallb is_code_char (String.list_ascii_of_string code) = true
  /\ isValid code = true
  /\ get_validate code
     = {| reply_status := 200;
          reply_body := inl (true, "Referral code is valid") |}.
Proof.
  cbv zeta. unfold generateUniqueCode.
  destruct (draw_chars_format 8 "" g eq_refl) as [Hlen Hall].
  cbn [String_length Nat.add] in Hlen.
  set (code := fst (draw_chars Rng Math_random 8 "" g)) in *.
  assert (Hvalid : isValid code = true).
  { unfold isValid, matches_code_pattern. rewrite Hlen, Hall.
    destruct (String.eqb_spec code "") as [E |]; [| reflexivity].
    rewrite E in Hlen. discriminate Hlen. }
  repeat split; try assumption.
  unfold get_validate. now rewrite Hvalid.
Qed.

End CodeFormat.

(** With every draw the double nearest to 0.3333333333333333 the product
    with 36 is rounded to 12, and the code is MMMMMMMM. *)
Lemma generateUniqueCode_is_valid_witness :
  fst (generateUniqueCode unit (fun g => (0x1.5555555555555p-2%float, g)) tt)
  = "MMMMMMMM"%string
  /\ isValid
       (fst (generateUniqueCode unit
               (fun g => (0x1.5555555555555p-2%float, g)) tt)) = true.
Proof.
  split; [vm_compute; reflexivity |].
  assert (Hrange : forall g : unit,
            PrimFloat.leb 0 (fst (0x1.5555555555555p-2%float, g)) = true
            /\ PrimFloat.ltb (fst (0x1.5555555555555p-2%float, g)) 1 = true)
    by (intros g; split; reflexivity).
  exact (proj1 (proj2 (proj2
           (generateUniqueCode_is_valid unit
              (fun g => (0x1.5555555555555p-2%float, g)) Hrange tt)))).
Defined.

(** The draws at the ends of the range: 0 gives the first character, the
    largest double under 1 the last. *)
Example generateUniqueCode_extremes :
  fst (generateUniqueCode unit (fun g => (0%float, g)) tt)
  = "AAAAAAAA"%string
  /\ fst (generateUniqueCode unit
            (fun g => (0x1.fffffffffffffp-1%float, g)) tt)
     = "99999999"%string.
Proof. split; vm_compute; reflexivity. Qed.

(** ** The apply-code route *)

(** X25: POST /apply-code over the engine: the answer is 500, with a fixed
    message and the store untouched, exactly when the body fails the
    schema (the engine itself never throws); an answer of 200 carries a
    pending reward whose referee is the [newUserId] of the body and whose
    referrer is another user; every other answer is 400 with the message of
    the engine. *)
Theorem post_apply_code_answers {num} `{JSNumber num} (Store : Type)
    (findReferralCode :
       string -> Store -> Completion (option (ReferralCode num)) * Store)
    (saveReferralReward :
       ReferralReward num -> Store -> Completion unit * Store)
    (updateReferralCode :
       ReferralCode num -> Store -> Completion unit * Store)
    (new_Date_at : Store -> Date * Store)
    (fresh_reward_id : Store -> string * Store)
    (Date_lt : Date -> Date -> bool)
    (ZodError_message : list string -> string)
    (req_body : json num) (w : World) (s : Store) :
  let engine :=
    applyReferralCode Store findReferralCode saveReferralReward
      updateReferralCode new_Date_at fresh_reward_id Date_lt in
  let parsed := applyCodeSchema_parse ZodError_message req_body in
  let answer := post_apply_code Store engine ZodError_message req_body w s in
  let reply := fst (fst answer) in
  (apply_status reply = 500 <-> exists error, parsed = inl error)
  /\ (apply_status reply = 500 ->
      snd answer = s
      /\ apply_error reply = Some "Failed to apply referral code"
      /\ console (snd (fst answer))
         = console w ++ ["Referral code application error:"])
  /\ (apply_status reply = 200 ->
      exists code newUserId r,
        parsed = inr (code, newUserId)
        /\ apply_success reply = true
        /\ apply_reward reply = Some r
        /\ refereeId r = newUserId
        /\ referrerId r <> newUserId
        /\ reward_status r = pending)
  /\ (apply_status reply <> 500 -> apply_status reply <> 200 ->
      apply_status reply = 400
      /\ apply_success reply = false
      /\ exists message, apply_error reply = Some message).
Proof.
  cbv zeta. unfold post_apply_code.
  destruct (applyCodeSchema_parse ZodError_message req_body)
    as [error | [code newUserId]] eqn:Hparse.
  - cbn. split; [split; eauto |]. split; [auto |].
    split; [discriminate |]. intros Hne. now destruct Hne.
  - pose proof (applyReferralCode_success_cases Store findReferralCode
                  new_Date_at fresh_reward_id Date_lt saveReferralReward
                  updateReferralCode code newUserId s) as Hinv.
    destruct (applyReferralCode Store findReferralCode saveReferralReward
                updateReferralCode new_Date_at fresh_reward_id Date_lt
                code newUserId s) as [result s'] eqn:Happly.
    rewrite ?Happly in Hinv. cbn [fst snd] in Hinv.
    destruct (Applied.success result) eqn:Hok; cbn.
    + split; [split; [discriminate | intros [e He]; discriminate He] |].
      split; [discriminate |]. split; [| intros _ Hne; now destruct Hne].
      intros _.
      destruct (Hinv eq_refl)
        as (rc & s1 & r & s4 & _ & _ & _ & Hother & _ & Hreward & _ & Hrefr
            & Hrefe & _ & _ & _ & Hpending & _).
      exists code, newUserId, r. repeat split; try assumption.
      now rewrite Hrefr.
    + split; [split; [discriminate | intros [e He]; discriminate He] |].
      split; [discriminate |]. split; [discriminate |].
      intros _ _. split; [reflexivity |]. split; [reflexivity |].
      clear Hinv. unfold applyReferralCode in Happly.
      repeat match type of Happly with
      | context [match ?c with _ => _ end] =>
          let E := fresh in destruct c eqn:E
      | context [if ?c then _ else _] => destruct c
      end; injection Happly as <- _; try (eexists; reflexivity);
        discriminate Hok.
Qed.

Lemma post_apply_code_answers_witness :
  apply_status
    (fst (fst (post_apply_code (num := float) unit
                 SampleReferrals.engine
                 (String.concat ",")
                 (JObject [("code", JString "WELCOME10");
                           ("newUserId", JString "bob")])
                 {| now := InvalidDate; console := [] |} tt))) = 200
  /\ exists r,
       apply_reward
         (fst (fst (post_apply_code (num := float) unit
                      SampleReferrals.engine
                      (String.concat ",")
                      (JObject [("code", JString "WELCOME10");
                                ("newUserId", JString "bob")])
                      {| now := InvalidDate; console := [] |} tt))) = Some r
       /\ refereeId r = "bob".
Proof.
  assert (H200 : apply_status
    (fst (fst (post_apply_code (num := float) unit
                 SampleReferrals.engine
                 (String.concat ",")
                 (JObject [("code", JString "WELCOME10");
                           ("newUserId", JString "bob")])
                 {| now := InvalidDate; console := [] |} tt))) = 200)
    by (vm_compute; reflexivity).
  split; [exact H200 |].
  destruct (proj1 (proj2 (proj2
              (post_apply_code_answers unit
                 SampleReferrals.findReferralCode SampleReferrals.write
                 SampleReferrals.write SampleReferrals.new_Date_at
                 SampleReferrals.fresh_reward_id SampleReferrals.Date_lt
                 (String.concat ",")
                 (JObject [("code", JString "WELCOME10");
                           ("newUserId", JString "bob")])
                 {| now := InvalidDate; console := [] |} tt))) H200)
    as (code & newUserId & r & Hparse & _ & Hreward & Hreferee & _).
  exists r. split; [exact Hreward |].
  injection Hparse as _ <-. exact Hreferee.
Defined.
